(** * uc-intg-vlcmedia: the VLC client, the media-player adapter and the driver

    A shallow embedding of [client.py], [media_player.py], [config.py] and
    [driver.py], followed by the properties of the specification that are
    settled on it.

    Conventions of the embedding.
    - Python values that come out of [json.loads] are the type [Py.value];
      Python's [None] is [Py.VNone].  JSON numbers are integers (what VLC's
      [status.json] carries in the fields read here).
    - A Python string is a [string] whose characters are code points
      below 256.
    - Python floating point is IEEE binary64, taken from the standard
      library's [SpecFloat] ([prec = 53], [emax = 1024]).
    - A coroutine is a computation in the monad [Py.M S], which threads a
      state [S] and may raise; the state reached when an exception is raised
      is kept, as it is for the attributes of a Python object.
    - The network is an oracle [net]: the reply to the [n]-th request of the
      run.  The world is the list of requests issued so far. *)

From Stdlib Require Import ZArith List String Ascii Bool Lia.
From Stdlib Require Import Floats.SpecFloat DecimalString.
Import ListNotations.

Local Set Warnings "-register-all".
Local Open Scope string_scope.
Local Open Scope Z_scope.

(* ================================================================== *)
(** ** Python values, exceptions and the coroutine monad *)

Module Py.

Inductive exn : Type :=
| TypeError
| ValueError
| OverflowError
| AttributeError
| UnicodeEncodeError.

Inductive result (A : Type) : Type :=
| Ok (a : A)
| Raise (e : exn).
Arguments Ok {A} a.
Arguments Raise {A} e.

Inductive value : Type :=
| VNone
| VBool (b : bool)
| VInt (z : Z)
| VStr (s : string)
| VList (l : list value)
| VDict (d : list (string * value)).

(** [bool(v)] *)
Definition truthy (v : value) : bool :=
  match v with
  | VNone => false
  | VBool b => b
  | VInt z => negb (z =? 0)
  | VStr s => negb (String.eqb s "")
  | VList l => match l with [] => false | _ :: _ => true end
  | VDict d => match d with [] => false | _ :: _ => true end
  end.

(** [v == "literal"] *)
Definition eq_str (v : value) (lit : string) : bool :=
  match v with
  | VStr s => String.eqb s lit
  | _ => false
  end.

(** A [dict] keeps its items in insertion order; keys are unique. *)
Section Dict.
Context {V : Type}.

Fixpoint lookup (k : string) (d : list (string * V)) : option V :=
  match d with
  | [] => None
  | (k', v) :: d' => if String.eqb k k' then Some v else lookup k d'
  end.

(** [d[k] = v] *)
Fixpoint setitem (k : string) (v : V) (d : list (string * V))
  : list (string * V) :=
  match d with
  | [] => [(k, v)]
  | (k', v') :: d' =>
      if String.eqb k k' then (k, v) :: d' else (k', v') :: setitem k v d'
  end.

(** [d.get(k, default)] on a dict *)
Definition get_or (k : string) (default : V) (d : list (string * V)) : V :=
  match lookup k d with
  | Some v => v
  | None => default
  end.
(** [del d[k]] for a key that is present; [k in d] is [lookup] being
    [Some]. *)
Fixpoint delitem (k : string) (d : list (string * V)) : list (string * V) :=
  match d with
  | [] => []
  | (k', v') :: d' =>
      if String.eqb k k' then d' else (k', v') :: delitem k d'
  end.

End Dict.

(** [obj.get(k, default)]: only a dict has the method. *)
Definition method_get (obj : value) (k : string) (default : value)
  : result value :=
  match obj with
  | VDict d => Ok (get_or k default d)
  | _ => Raise AttributeError
  end.

(** Numbers: [int] and its subclass [bool]. *)
Inductive num : Type :=
| NInt (z : Z)
| NBool (b : bool).

Definition int_of_num (n : num) : Z :=
  match n with
  | NInt z => z
  | NBool b => if b then 1 else 0
  end.

(** The operand check of an arithmetic or ordering operator against an
    [int]. *)
Definition as_number (v : value) : result num :=
  match v with
  | VInt z => Ok (NInt z)
  | VBool b => Ok (NBool b)
  | _ => Raise TypeError
  end.

Definition value_of_num (n : num) : value :=
  match n with
  | NInt z => VInt z
  | NBool b => VBool b
  end.

(** [str(n)] *)
Definition str_of_int (z : Z) : string :=
  NilZero.string_of_int (Z.to_int z).

Definition str_of_num (n : num) : string :=
  match n with
  | NInt z => str_of_int z
  | NBool b => if b then "True" else "False"
  end.

(** [s.encode('ascii')] succeeds when every code point is below 128. *)
Fixpoint is_ascii (s : string) : bool :=
  match s with
  | EmptyString => true
  | String c s' => (N_of_ascii c <? 128)%N && is_ascii s'
  end.

(** Whitespace for [str.strip], among the code points below 256. *)
Definition is_space (c : ascii) : bool :=
  let n := N_of_ascii c in
  ((9 <=? n) && (n <=? 13) || (28 <=? n) && (n <=? 32)
   || (n =? 133) || (n =? 160))%N.

Fixpoint lstrip (s : string) : string :=
  match s with
  | EmptyString => EmptyString
  | String c s' => if is_space c then lstrip s' else s
  end.

Fixpoint rstrip (s : string) : string :=
  match s with
  | EmptyString => EmptyString
  | String c s' =>
      match rstrip s' with
      | EmptyString =>
          if is_space c then EmptyString else String c EmptyString
      | r => String c r
      end
  end.

(** [s.strip()] *)
Definition strip (s : string) : string := rstrip (lstrip s).

Definition digit_of (c : ascii) : option Z :=
  let n := N_of_ascii c in
  if ((48 <=? n) && (n <=? 57))%N then Some (Z.of_N (n - 48)) else None.

(** Decimal digits, with single underscores between digits only. *)
Fixpoint int_digits (s : string) (acc : Z) (after_digit : bool) : option Z :=
  match s with
  | EmptyString => if after_digit then Some acc else None
  | String c s' =>
      match digit_of c with
      | Some d => int_digits s' (10 * acc + d) true
      | None =>
          if Ascii.eqb c "_" && after_digit then int_digits s' acc false
          else None
      end
  end.

(** Whitespace for [int] on a string, among the code points below 256:
    tab to carriage return, the space, and the two above 127 that [int]
    turns into a space.  The separators 28 to 31, which [str.strip] removes,
    are not skipped. *)
Definition is_int_space (c : ascii) : bool :=
  let n := N_of_ascii c in
  ((9 <=? n) && (n <=? 13) || (n =? 32) || (n =? 133) || (n =? 160))%N.

Fixpoint lskip (p : ascii -> bool) (s : string) : string :=
  match s with
  | EmptyString => EmptyString
  | String c s' => if p c then lskip p s' else s
  end.

Fixpoint rskip (p : ascii -> bool) (s : string) : string :=
  match s with
  | EmptyString => EmptyString
  | String c s' =>
      match rskip p s' with
      | EmptyString => if p c then EmptyString else String c EmptyString
      | r => String c r
      end
  end.

(** The number of decimal digits of a literal, underscores apart. *)
Fixpoint digit_count (s : string) : Z :=
  match s with
  | EmptyString => 0
  | String c s' =>
      match digit_of c with
      | Some _ => 1 + digit_count s'
      | None => digit_count s'
      end
  end.

(** [sys.int_info.default_max_str_digits] *)
Definition max_str_digits : Z := 4300.

(** [int(s)] on a string, base 10: whitespace around, a sign, digits with
    single underscores between them; a literal of more than
    [max_str_digits] digits raises, like one that is not a number. *)
Definition int_of_str (s : string) : result Z :=
  let body := rskip is_int_space (lskip is_int_space s) in
  let parsed :=
    match body with
    | String "+" r => int_digits r 0 false
    | String "-" r => option_map Z.opp (int_digits r 0 false)
    | _ => int_digits body 0 false
    end in
  match parsed with
  | Some z => if max_str_digits <? digit_count body then Raise ValueError
              else Ok z
  | None => Raise ValueError
  end.

(** *** binary64 arithmetic *)

Definition prec : Z := 53.
Definition emax : Z := 1024.

(** The exact value of an integer, as an unnormalised float. *)
Definition exact (z : Z) : spec_float :=
  match z with
  | Z0 => S754_zero false
  | Zpos p => S754_finite false p 0
  | Zneg p => S754_finite true p 0
  end.

(** [float(z)] for an integer literal of the source. *)
Definition float_lit (z : Z) : spec_float :=
  binary_normalize prec emax z 0 false.

(** [a / b] on integers, [b] a non-zero literal: the quotient rounded once
    to nearest-even; a quotient beyond the largest float raises. *)
Definition int_truediv (a b : Z) : result spec_float :=
  match SFdiv prec emax (exact a) (exact b) with
  | S754_infinity _ => Raise OverflowError
  | q => Ok q
  end.

(** [x * y] on floats never raises. *)
Definition float_mul (x y : spec_float) : spec_float :=
  SFmul prec emax x y.

(** [int(x)]: truncation towards zero. *)
Definition int_of_float (x : spec_float) : result Z :=
  match x with
  | S754_zero _ => Ok 0
  | S754_infinity _ => Raise OverflowError
  | S754_nan => Raise ValueError
  | S754_finite s m e =>
      let mag :=
        match e with
        | Z0 => Zpos m
        | Zpos p => Z.shiftl (Zpos m) (Zpos p)
        | Zneg p => Z.shiftr (Zpos m) (Zpos p)
        end in
      Ok (if s then - mag else mag)
  end.

(** [int(v)] on a value. *)
Definition int_of_value (v : value) : result Z :=
  match v with
  | VInt z => Ok z
  | VBool b => Ok (if b then 1 else 0)
  | VStr s => int_of_str s
  | VNone | VList _ | VDict _ => Raise TypeError
  end.

(** *** Computations with state and exceptions *)

Definition M (S A : Type) : Type := S -> result A * S.

Definition ret {S A} (a : A) : M S A := fun s => (Ok a, s).

Definition bind {S A B} (m : M S A) (k : A -> M S B) : M S B :=
  fun s =>
    match m s with
    | (Ok a, s') => k a s'
    | (Raise e, s') => (Raise e, s')
    end.

Definition get {S} : M S S := fun s => (Ok s, s).

Definition modify {S} (f : S -> S) : M S unit := fun s => (Ok tt, f s).

(** Lifting of a pure step that may raise. *)
Definition lift {S A} (r : result A) : M S A := fun s => (r, s).

(** [try: body / except Exception as e: handler] *)
Definition try_except {S A} (body : M S A) (handler : exn -> M S A) : M S A :=
  fun s =>
    match body s with
    | (Ok a, s') => (Ok a, s')
    | (Raise e, s') => handler e s'
    end.

(** Running a computation on a component of the state. *)
Definition zoom {S T A} (proj : S -> T) (upd : T -> S -> S) (m : M T A)
  : M S A :=
  fun s => let (r, t') := m (proj s) in (r, upd t' s).

End Py.

Import Py.

Declare Scope py_scope.
Delimit Scope py_scope with py.
Notation "x <- c ;; k" := (bind c (fun x => k))
  (at level 61, c at next level, right associativity) : py_scope.
Notation "c ;;; k" := (bind c (fun _ => k))
  (at level 61, right associativity) : py_scope.
Local Open Scope py_scope.

(* ================================================================== *)
(** ** The network *)

Module Net.

(** A GET request: its URL and the value put under [Authorization], before
    its base64 encoding. *)
Record request : Type := {
  url : string;
  authorization : string
}.

(** What comes back: an HTTP status with the body as [json.loads] reads it
    ([None] when it raises [JSONDecodeError]), or a transport failure
    (refused, timed out, ...), which [aiohttp] raises as an exception. *)
Inductive reply : Type :=
| Http (status : Z) (body : option value)
| TransportError.

(** The requests issued so far, oldest first. *)
Definition World : Type := list request.

Definition oracle : Type := nat -> request -> reply.

End Net.

(* ================================================================== *)
(** ** client.py *)

Module client.

Import Net.

(** The attributes of a [VLCClient].  [_stored_volume] is the attribute that
    [mute] adds to the object; [None] while the object has none.  [headers]
    holds the credentials [":" + password].  [_session] is never assigned
    after the constructor and is left out. *)
Record VLCClient : Type := {
  host : string;
  port : Z;
  password : string;
  base_url : string;
  headers : string;
  _is_connected : bool;
  _stored_volume : option num
}.

Definition set_is_connected (b : bool) (c : VLCClient) : VLCClient :=
  {| host := host c; port := port c; password := password c;
     base_url := base_url c; headers := headers c;
     _is_connected := b; _stored_volume := _stored_volume c |}.

Definition set_stored_volume (n : num) (c : VLCClient) : VLCClient :=
  {| host := host c; port := port c; password := password c;
     base_url := base_url c; headers := headers c;
     _is_connected := _is_connected c; _stored_volume := Some n |}.

(** [VLCClient.__init__]: encoding the credentials as ASCII may raise. *)
Definition __init__ (host_ : string) (port_ : Z) (password_ : string)
  : result VLCClient :=
  let auth_string := ":" ++ password_ in
  if is_ascii auth_string then
    Ok {| host := host_; port := port_; password := password_;
          base_url := "http://" ++ host_ ++ ":" ++ str_of_int port_;
          headers := auth_string;
          _is_connected := false; _stored_volume := None |}
  else Raise UnicodeEncodeError.

(** A parameter of a command, as the callers build it. *)
Inductive param : Type :=
| PInt (z : Z)
| PStr (s : string).

Definition format_param (p : param) : string :=
  match p with
  | PInt z => str_of_int z
  | PStr s => s
  end.

Section WithNetwork.

Variable net : oracle.

(** The state of a method of the client: the object and the world. *)
Definition St : Type := (VLCClient * World)%type.

Definition self : M St VLCClient := fun s => (Ok (fst s), s).

(** One GET; the reply is the oracle's for this position of the run. *)
Definition http_get (u : string) : M St reply :=
  fun s =>
    let (c, w) := s in
    let r := {| url := u; authorization := headers c |} in
    (Ok (net (List.length w) r), (c, (w ++ [r])%list)).

Definition connect : M St bool :=
  c <- self ;;
  r <- http_get (base_url c ++ "/requests/status.json") ;;
  match r with
  | Http status body =>
      if status =? 200 then
        match body with
        | Some _ =>
            modify (fun s => (set_is_connected true (fst s), snd s)) ;;;
            ret true
        | None => ret false
        end
      else ret false
  | TransportError => ret false
  end.

Definition disconnect : M St unit :=
  modify (fun s => (set_is_connected false (fst s), snd s)).

Definition get_status : M St value :=
  c <- self ;;
  if negb (_is_connected c) then ret VNone
  else
    r <- http_get (base_url c ++ "/requests/status.json") ;;
    match r with
    | Http status body =>
        if status =? 200 then
          match body with
          | Some v => ret v
          | None => ret VNone
          end
        else ret VNone
    | TransportError => ret VNone
    end.

Definition get_album_art_url (c : VLCClient) : string :=
  base_url c ++ "/art".

Definition command_url (c : VLCClient) (command : string)
  (params : list (string * param)) : string :=
  fold_left
    (fun u kv => u ++ "&" ++ fst kv ++ "=" ++ format_param (snd kv))
    params
    (base_url c ++ "/requests/status.json?command=" ++ command).

Definition send_command (command : string) (params : list (string * param))
  : M St bool :=
  c <- self ;;
  if negb (_is_connected c) then ret false
  else
    r <- http_get (command_url c command params) ;;
    match r with
    | Http status _ => ret (status =? 200)
    | TransportError => ret false
    end.

(** [int((volume / 100) * 512)] *)
Definition scale_volume (volume : Z) : result Z :=
  match int_truediv volume 100 with
  | Ok q => int_of_float (float_mul q (float_lit 512))
  | Raise e => Raise e
  end.

Definition set_volume (volume : Z) : M St bool :=
  vlc_volume <- lift (scale_volume volume) ;;
  send_command "volume" [("val", PInt vlc_volume)].

Definition volume_up : M St bool :=
  send_command "volume" [("val", PStr "+20")].

Definition volume_down : M St bool :=
  send_command "volume" [("val", PStr "-20")].

Definition mute_toggle : M St bool :=
  status <- get_status ;;
  if truthy status then
    current_volume <- lift (method_get status "volume" (VInt 256)) ;;
    match current_volume with
    | VInt 0 | VBool false => send_command "volume" [("val", PStr "256")]
    | _ => send_command "volume" [("val", PStr "0")]
    end
  else ret false.

Definition mute : M St bool :=
  status <- get_status ;;
  if truthy status then
    current_volume <- lift (method_get status "volume" (VInt 256)) ;;
    n <- lift (as_number current_volume) ;;
    if 0 <? int_of_num n then
      modify (fun s => (set_stored_volume n (fst s), snd s)) ;;;
      send_command "volume" [("val", PStr "0")]
    else ret false
  else ret false.

Definition unmute : M St bool :=
  c <- self ;;
  let restore_volume :=
    match _stored_volume c with
    | Some n => n
    | None => NInt 256
    end in
  send_command "volume" [("val", PStr (str_of_num restore_volume))].

(** Playback control *)

Definition play : M St bool := send_command "pl_forceresume" [].

Definition pause : M St bool := send_command "pl_forcepause" [].

Definition play_pause_toggle : M St bool := send_command "pl_pause" [].

Definition stop : M St bool := send_command "pl_stop" [].

Definition next_track : M St bool := send_command "pl_next" [].

Definition previous_track : M St bool := send_command "pl_previous" [].

Definition seek (position_seconds : Z) : M St bool :=
  send_command "seek" [("val", PInt position_seconds)].

Definition seek_relative (offset_seconds : Z) : M St bool :=
  let prefix := if 0 <? offset_seconds then "+" else "" in
  send_command "seek" [("val", PStr (prefix ++ str_of_int offset_seconds))].

(** Playlist control *)

Definition clear_playlist : M St bool := send_command "pl_empty" [].

Definition shuffle_toggle : M St bool := send_command "pl_random" [].

Definition repeat_toggle : M St bool := send_command "pl_repeat" [].

Definition loop_toggle : M St bool := send_command "pl_loop" [].

Definition fullscreen_toggle : M St bool := send_command "fullscreen" [].

End WithNetwork.

(** The property [is_connected]. *)
Definition is_connected (c : VLCClient) : bool := _is_connected c.

End client.

(* ================================================================== *)
(** ** media_player.py *)

Module media_player.

Import Net.

(** [ucapi.media_player.States], the members the adapter assigns. *)
Module States.
Inductive t : Type := OFF | ON | PLAYING | PAUSED | UNAVAILABLE.
End States.

(** [ucapi.media_player.RepeatMode] *)
Module RepeatMode.
Inductive t : Type := OFF | ALL | ONE.
End RepeatMode.

(** [ucapi.StatusCodes] *)
Module StatusCodes.
Inductive t : Type :=
| OK
| BAD_REQUEST
| UNAUTHORIZED
| NOT_FOUND
| TIMEOUT
| CONFLICT
| SERVER_ERROR
| NOT_IMPLEMENTED
| SERVICE_UNAVAILABLE.
End StatusCodes.

(** [ucapi.media_player.Commands], the members the handler compares the
    command id with; a command id is a string. *)
Module Commands.
Definition PLAY_PAUSE : string := "play_pause".
Definition STOP : string := "stop".
Definition PREVIOUS : string := "previous".
Definition NEXT : string := "next".
Definition FAST_FORWARD : string := "fast_forward".
Definition REWIND : string := "rewind".
Definition SEEK : string := "seek".
Definition VOLUME : string := "volume".
Definition VOLUME_UP : string := "volume_up".
Definition VOLUME_DOWN : string := "volume_down".
Definition MUTE_TOGGLE : string := "mute_toggle".
Definition MUTE : string := "mute".
Definition UNMUTE : string := "unmute".
Definition REPEAT : string := "repeat".
Definition SHUFFLE : string := "shuffle".
End Commands.

(** The cached player state: the [_attr_*] attributes of the adapter.
    Position, duration, the three texts and the shuffle flag hold whatever
    value the status document carries. *)
Record PlayerState : Type := {
  _attr_state : States.t;
  _attr_volume : Z;
  _attr_muted : bool;
  _attr_media_position : value;
  _attr_media_duration : value;
  _attr_media_title : value;
  _attr_media_artist : value;
  _attr_media_album : value;
  _attr_media_image_url : string;
  _attr_repeat : RepeatMode.t;
  _attr_shuffle : value
}.

Definition set_state (x : States.t) (p : PlayerState) : PlayerState :=
  {| _attr_state := x; _attr_volume := _attr_volume p;
     _attr_muted := _attr_muted p;
     _attr_media_position := _attr_media_position p;
     _attr_media_duration := _attr_media_duration p;
     _attr_media_title := _attr_media_title p;
     _attr_media_artist := _attr_media_artist p;
     _attr_media_album := _attr_media_album p;
     _attr_media_image_url := _attr_media_image_url p;
     _attr_repeat := _attr_repeat p; _attr_shuffle := _attr_shuffle p |}.

Definition set_volume (x : Z) (p : PlayerState) : PlayerState :=
  {| _attr_state := _attr_state p; _attr_volume := x;
     _attr_muted := _attr_muted p;
     _attr_media_position := _attr_media_position p;
     _attr_media_duration := _attr_media_duration p;
     _attr_media_title := _attr_media_title p;
     _attr_media_artist := _attr_media_artist p;
     _attr_media_album := _attr_media_album p;
     _attr_media_image_url := _attr_media_image_url p;
     _attr_repeat := _attr_repeat p; _attr_shuffle := _attr_shuffle p |}.

Definition set_muted (x : bool) (p : PlayerState) : PlayerState :=
  {| _attr_state := _attr_state p; _attr_volume := _attr_volume p;
     _attr_muted := x;
     _attr_media_position := _attr_media_position p;
     _attr_media_duration := _attr_media_duration p;
     _attr_media_title := _attr_media_title p;
     _attr_media_artist := _attr_media_artist p;
     _attr_media_album := _attr_media_album p;
     _attr_media_image_url := _attr_media_image_url p;
     _attr_repeat := _attr_repeat p; _attr_shuffle := _attr_shuffle p |}.

Definition set_media_position (x : value) (p : PlayerState) : PlayerState :=
  {| _attr_state := _attr_state p; _attr_volume := _attr_volume p;
     _attr_muted := _attr_muted p;
     _attr_media_position := x;
     _attr_media_duration := _attr_media_duration p;
     _attr_media_title := _attr_media_title p;
     _attr_media_artist := _attr_media_artist p;
     _attr_media_album := _attr_media_album p;
     _attr_media_image_url := _attr_media_image_url p;
     _attr_repeat := _attr_repeat p; _attr_shuffle := _attr_shuffle p |}.

Definition set_media_duration (x : value) (p : PlayerState) : PlayerState :=
  {| _attr_state := _attr_state p; _attr_volume := _attr_volume p;
     _attr_muted := _attr_muted p;
     _attr_media_position := _attr_media_position p;
     _attr_media_duration := x;
     _attr_media_title := _attr_media_title p;
     _attr_media_artist := _attr_media_artist p;
     _attr_media_album := _attr_media_album p;
     _attr_media_image_url := _attr_media_image_url p;
     _attr_repeat := _attr_repeat p; _attr_shuffle := _attr_shuffle p |}.

Definition set_media_title (x : value) (p : PlayerState) : PlayerState :=
  {| _attr_state := _attr_state p; _attr_volume := _attr_volume p;
     _attr_muted := _attr_muted p;
     _attr_media_position := _attr_media_position p;
     _attr_media_duration := _attr_media_duration p;
     _attr_media_title := x;
     _attr_media_artist := _attr_media_artist p;
     _attr_media_album := _attr_media_album p;
     _attr_media_image_url := _attr_media_image_url p;
     _attr_repeat := _attr_repeat p; _attr_shuffle := _attr_shuffle p |}.

Definition set_media_artist (x : value) (p : PlayerState) : PlayerState :=
  {| _attr_state := _attr_state p; _attr_volume := _attr_volume p;
     _attr_muted := _attr_muted p;
     _attr_media_position := _attr_media_position p;
     _attr_media_duration := _attr_media_duration p;
     _attr_media_title := _attr_media_title p;
     _attr_media_artist := x;
     _attr_media_album := _attr_media_album p;
     _attr_media_image_url := _attr_media_image_url p;
     _attr_repeat := _attr_repeat p; _attr_shuffle := _attr_shuffle p |}.

Definition set_media_album (x : value) (p : PlayerState) : PlayerState :=
  {| _attr_state := _attr_state p; _attr_volume := _attr_volume p;
     _attr_muted := _attr_muted p;
     _attr_media_position := _attr_media_position p;
     _attr_media_duration := _attr_media_duration p;
     _attr_media_title := _attr_media_title p;
     _attr_media_artist := _attr_media_artist p;
     _attr_media_album := x;
     _attr_media_image_url := _attr_media_image_url p;
     _attr_repeat := _attr_repeat p; _attr_shuffle := _attr_shuffle p |}.

Definition set_media_image_url (x : string) (p : PlayerState) : PlayerState :=
  {| _attr_state := _attr_state p; _attr_volume := _attr_volume p;
     _attr_muted := _attr_muted p;
     _attr_media_position := _attr_media_position p;
     _attr_media_duration := _attr_media_duration p;
     _attr_media_title := _attr_media_title p;
     _attr_media_artist := _attr_media_artist p;
     _attr_media_album := _attr_media_album p;
     _attr_media_image_url := x;
     _attr_repeat := _attr_repeat p; _attr_shuffle := _attr_shuffle p |}.

Definition set_repeat (x : RepeatMode.t) (p : PlayerState) : PlayerState :=
  {| _attr_state := _attr_state p; _attr_volume := _attr_volume p;
     _attr_muted := _attr_muted p;
     _attr_media_position := _attr_media_position p;
     _attr_media_duration := _attr_media_duration p;
     _attr_media_title := _attr_media_title p;
     _attr_media_artist := _attr_media_artist p;
     _attr_media_album := _attr_media_album p;
     _attr_media_image_url := _attr_media_image_url p;
     _attr_repeat := x; _attr_shuffle := _attr_shuffle p |}.

Definition set_shuffle (x : value) (p : PlayerState) : PlayerState :=
  {| _attr_state := _attr_state p; _attr_volume := _attr_volume p;
     _attr_muted := _attr_muted p;
     _attr_media_position := _attr_media_position p;
     _attr_media_duration := _attr_media_duration p;
     _attr_media_title := _attr_media_title p;
     _attr_media_artist := _attr_media_artist p;
     _attr_media_album := _attr_media_album p;
     _attr_media_image_url := _attr_media_image_url p;
     _attr_repeat := _attr_repeat p; _attr_shuffle := x |}.

(** The adapter.  [_client] is the client object the adapter was built
    with.  The task handle and the hub handle are not part of the state the
    refresh reads or writes and are left out. *)
Record VLCMediaPlayer : Type := {
  id : string;
  _device_name : string;
  _client : client.VLCClient;
  attr : PlayerState;
  _connected : bool;
  _monitoring : bool
}.

Definition with_attr (f : PlayerState -> PlayerState) (mp : VLCMediaPlayer)
  : VLCMediaPlayer :=
  {| id := id mp; _device_name := _device_name mp; _client := _client mp;
     attr := f (attr mp);
     _connected := _connected mp; _monitoring := _monitoring mp |}.

Definition with_client (c : client.VLCClient) (mp : VLCMediaPlayer)
  : VLCMediaPlayer :=
  {| id := id mp; _device_name := _device_name mp; _client := c;
     attr := attr mp;
     _connected := _connected mp; _monitoring := _monitoring mp |}.

Definition set_connected (b : bool) (mp : VLCMediaPlayer) : VLCMediaPlayer :=
  {| id := id mp; _device_name := _device_name mp; _client := _client mp;
     attr := attr mp;
     _connected := b; _monitoring := _monitoring mp |}.

Definition __init__ (entity_id device_name : string)
  (client_ : client.VLCClient) : VLCMediaPlayer :=
  {| id := entity_id;
     _device_name := device_name;
     _client := client_;
     attr := {| _attr_state := States.OFF;
                _attr_volume := 0;
                _attr_muted := false;
                _attr_media_position := VInt 0;
                _attr_media_duration := VInt 0;
                _attr_media_title := VStr "";
                _attr_media_artist := VStr "";
                _attr_media_album := VStr "";
                _attr_media_image_url := "";
                _attr_repeat := RepeatMode.OFF;
                _attr_shuffle := VBool false |};
     _connected := true;
     _monitoring := false |}.

(** [VLCMediaPlayer.connect] *)
Definition connect (mp : VLCMediaPlayer) : bool * VLCMediaPlayer :=
  (true, set_connected true mp).

(** [int((vlc_volume / 512) * 100)] *)
Definition normalize_volume (vlc_volume : num) : result Z :=
  match int_truediv (int_of_num vlc_volume) 512 with
  | Ok q => int_of_float (float_mul q (float_lit 100))
  | Raise e => Raise e
  end.

(** The state of a method of the adapter: the adapter (which holds its
    client) and the world. *)
Definition St : Type := (VLCMediaPlayer * World)%type.

Definition self : M St VLCMediaPlayer := fun s => (Ok (fst s), s).

Definition assign (f : PlayerState -> PlayerState) : M St unit :=
  modify (fun s => (with_attr f (fst s), snd s)).

(** A call [self._client.method(...)]. *)
Definition on_client {A} (m : M client.St A) : M St A :=
  zoom (fun s => (_client (fst s), snd s))
       (fun t s => (with_client (fst t) (fst s), snd t)) m.

(** The steps of [update_status] on a status document, in the order of the
    source. *)

Definition parse_state (status : value) : M St unit :=
  state <- lift (method_get status "state" (VStr "stopped")) ;;
  assign (set_state
            (if eq_str state "playing" then States.PLAYING
             else if eq_str state "paused" then States.PAUSED
             else if eq_str state "stopped" then States.OFF
             else States.ON)).

Definition parse_position_and_duration (status : value) : M St unit :=
  time <- lift (method_get status "time" (VInt 0)) ;;
  assign (set_media_position time) ;;;
  length <- lift (method_get status "length" (VInt 0)) ;;
  assign (set_media_duration length).

Definition parse_volume (status : value) : M St unit :=
  vlc_volume <- lift (method_get status "volume" (VInt 256)) ;;
  n <- lift (as_number vlc_volume) ;;
  volume <- lift (normalize_volume n) ;;
  assign (set_volume volume) ;;;
  assign (set_muted (int_of_num n =? 0)).

Definition parse_metadata (status : value) : M St unit :=
  info <- lift (method_get status "information" (VDict [])) ;;
  category <- lift (method_get info "category" (VDict [])) ;;
  meta <- lift (method_get category "meta" (VDict [])) ;;
  if truthy meta then
    filename <- lift (method_get meta "filename" (VStr "")) ;;
    title <- lift (method_get meta "title" filename) ;;
    assign (set_media_title title) ;;;
    artist <- lift (method_get meta "artist" (VStr "")) ;;
    assign (set_media_artist artist) ;;;
    album <- lift (method_get meta "album" (VStr "")) ;;
    assign (set_media_album album) ;;;
    mp <- self ;;
    match truthy (_attr_media_title (attr mp)), _attr_state (attr mp) with
    | true, States.OFF => assign (set_media_image_url "")
    | true, _ =>
        assign (set_media_image_url (client.get_album_art_url (_client mp)))
    | false, _ => assign (set_media_image_url "")
    end
  else
    assign (set_media_title (VStr "")) ;;;
    assign (set_media_artist (VStr "")) ;;;
    assign (set_media_album (VStr "")) ;;;
    assign (set_media_image_url "").

Definition parse_repeat (status : value) : M St unit :=
  loop <- lift (method_get status "loop" (VBool false)) ;;
  if truthy loop then assign (set_repeat RepeatMode.ALL)
  else
    repeat_ <- lift (method_get status "repeat" (VBool false)) ;;
    if truthy repeat_ then assign (set_repeat RepeatMode.ONE)
    else assign (set_repeat RepeatMode.OFF).

Definition parse_shuffle (status : value) : M St unit :=
  random <- lift (method_get status "random" (VBool false)) ;;
  assign (set_shuffle random).

Definition parse_status (status : value) : M St unit :=
  parse_state status ;;;
  parse_position_and_duration status ;;;
  parse_volume status ;;;
  parse_metadata status ;;;
  parse_repeat status ;;;
  parse_shuffle status.

Section WithNetwork.

Variable net : oracle.

Definition update_status : M St unit :=
  mp <- self ;;
  if negb (_connected mp) then ret tt
  else
    try_except
      (status <- on_client (client.get_status net) ;;
       if negb (truthy status) then assign (set_state States.UNAVAILABLE)
       else parse_status status)
      (fun _ => assign (set_state States.UNAVAILABLE)).

(** *** Pushing attributes and handling commands *)

(** The attribute sets the adapter has written to its entity, oldest first;
    with its api handle set, the adapter hands the same set to the hub. *)
Definition Hub : Type := list PlayerState.

(** The state of the methods that push: the adapter with the world, and
    the attribute sets pushed so far. *)
Definition HSt : Type := (St * Hub)%type.

Definition with_adapter {A} (m : M St A) : M HSt A :=
  zoom fst (fun t s => (t, snd s)) m.

Definition update_attributes : M HSt unit :=
  with_adapter update_status ;;;
  modify (fun s : HSt => (fst s, (snd s ++ [attr (fst (fst s))])%list)).

Definition push_update : M HSt unit := update_attributes.

(** [params.get(key, default) if params else default] *)
Definition param_or (params : value) (key : string) (default : value)
  : result value :=
  if truthy params then method_get params key default else Ok default.

(** The client call of a command, [None] for a command the handler does
    not know. *)
Definition client_call (cmd_id : string) (params : value)
  : option (M client.St bool) :=
  if String.eqb cmd_id Commands.PLAY_PAUSE then
    Some (client.play_pause_toggle net)
  else if String.eqb cmd_id Commands.STOP then Some (client.stop net)
  else if String.eqb cmd_id Commands.NEXT then Some (client.next_track net)
  else if String.eqb cmd_id Commands.PREVIOUS then
    Some (client.previous_track net)
  else if String.eqb cmd_id Commands.VOLUME then
    Some (volume <- lift (param_or params "volume" (VInt 50)) ;;
          n <- lift (as_number volume) ;;
          client.set_volume net (int_of_num n))
  else if String.eqb cmd_id Commands.VOLUME_UP then Some (client.volume_up net)
  else if String.eqb cmd_id Commands.VOLUME_DOWN then
    Some (client.volume_down net)
  else if String.eqb cmd_id Commands.MUTE_TOGGLE then
    Some (client.mute_toggle net)
  else if String.eqb cmd_id Commands.MUTE then Some (client.mute net)
  else if String.eqb cmd_id Commands.UNMUTE then Some (client.unmute net)
  else if String.eqb cmd_id Commands.SEEK then
    Some (position <- lift (param_or params "media_position" (VInt 0)) ;;
          seconds <- lift (int_of_value position) ;;
          client.seek net seconds)
  else if String.eqb cmd_id Commands.FAST_FORWARD then
    Some (client.seek_relative net 30)
  else if String.eqb cmd_id Commands.REWIND then
    Some (client.seek_relative net (-30))
  else if String.eqb cmd_id Commands.REPEAT then
    Some (client.repeat_toggle net)
  else if String.eqb cmd_id Commands.SHUFFLE then
    Some (client.shuffle_toggle net)
  else None.

Definition command_handler (cmd_id : string) (params : value)
  : M HSt StatusCodes.t :=
  mp <- with_adapter self ;;
  if negb (_connected mp) then ret StatusCodes.SERVICE_UNAVAILABLE
  else
    try_except
      (match client_call cmd_id params with
       | None => ret StatusCodes.NOT_IMPLEMENTED
       | Some call =>
           success <- with_adapter (on_client call) ;;
           (if success then update_attributes else ret tt) ;;;
           ret (if success then StatusCodes.OK
                else StatusCodes.SERVER_ERROR)
       end)
      (fun _ => ret StatusCodes.SERVER_ERROR).

End WithNetwork.

End media_player.

(* ================================================================== *)
(** ** config.py *)

Module config.

(** A device record, as [add_device] writes it. *)
Record DeviceRecord : Type := {
  host : string;
  port : Z;
  password : string;
  device_name : string
}.

(** [_devices] is the registry in memory, [file] the content of
    [config.json] ([None] while the file does not exist).  Reading and
    writing the file succeed. *)
Record Config : Type := {
  _devices : list (string * DeviceRecord);
  file : option (list (string * DeviceRecord))
}.

Definition load (c : Config) : Config :=
  match file c with
  | Some devices => {| _devices := devices; file := file c |}
  | None => {| _devices := []; file := file c |}
  end.

Definition reload_from_disk (c : Config) : Config := load c.

Definition save (c : Config) : Config :=
  {| _devices := _devices c; file := Some (_devices c) |}.

Definition add_device (device_id : string) (host_ : string) (port_ : Z)
  (password_ device_name_ : string) (c : Config) : Config :=
  save {| _devices :=
            setitem device_id
              {| host := host_; port := port_; password := password_;
                 device_name := device_name_ |}
              (_devices c);
          file := file c |}.

Definition get_device (device_id : string) (c : Config)
  : option DeviceRecord :=
  lookup device_id (_devices c).

Definition get_all_devices (c : Config) : list (string * DeviceRecord) :=
  _devices c.

Definition is_configured (c : Config) : bool :=
  (0 <? Z.of_nat (List.length (_devices c))).

Definition remove_device (device_id : string) (c : Config) : Config :=
  match lookup device_id (_devices c) with
  | Some _ =>
      save {| _devices := delitem device_id (_devices c); file := file c |}
  | None => c
  end.

(** [clear]: the registry is emptied and the file removed. *)
Definition clear (c : Config) : Config :=
  {| _devices := []; file := None |}.

End config.

(* ================================================================== *)
(** ** driver.py *)

Module driver.

Import Net.

(** [ucapi.DeviceStates] *)
Inductive DeviceStates : Type :=
| CONNECTED
| CONNECTING
| DISCONNECTED
| ERROR.

(** [ucapi.IntegrationSetupError] *)
Inductive IntegrationSetupError : Type :=
| NONE
| NOT_FOUND
| CONNECTION_REFUSED
| AUTHORIZATION_ERROR
| TIMEOUT
| OTHER.

(** [ucapi.SetupAction], the two the handler returns. *)
Inductive SetupAction : Type :=
| SetupComplete
| SetupError (error_type : IntegrationSetupError).

(** [ucapi.SetupDriver]: a setup request carries [setup_data], a dict from
    strings to strings. *)
Inductive SetupDriver : Type :=
| DriverSetupRequest (reconfigure : bool) (setup_data : list (string * string))
| UserDataResponse (input_values : list (string * string))
| UserConfirmationResponse (confirm : bool)
| AbortDriverSetup.

(** The globals of the module.  [available_entities] and [device_state] are
    those of [api]: the entity store, by entity id, and the state reported
    to the hub.  [initialization_lock] is [True] while the lock is held.
    [rebuilds] is not a variable of the program: it counts the passes that
    cleared and rebuilt the registry. *)
Record Session : Type := {
  config : config.Config;
  clients : list (string * client.VLCClient);
  media_players : list (string * media_player.VLCMediaPlayer);
  available_entities : list string;
  device_state : DeviceStates;
  entities_ready : bool;
  initialization_lock : bool;
  rebuilds : nat
}.

Definition with_config (x : config.Config) (s : Session) : Session :=
  {| config := x; clients := clients s; media_players := media_players s;
     available_entities := available_entities s;
     device_state := device_state s; entities_ready := entities_ready s;
     initialization_lock := initialization_lock s; rebuilds := rebuilds s |}.

Definition with_clients (x : list (string * client.VLCClient)) (s : Session)
  : Session :=
  {| config := config s; clients := x; media_players := media_players s;
     available_entities := available_entities s;
     device_state := device_state s; entities_ready := entities_ready s;
     initialization_lock := initialization_lock s; rebuilds := rebuilds s |}.

Definition with_media_players
  (x : list (string * media_player.VLCMediaPlayer)) (s : Session) : Session :=
  {| config := config s; clients := clients s; media_players := x;
     available_entities := available_entities s;
     device_state := device_state s; entities_ready := entities_ready s;
     initialization_lock := initialization_lock s; rebuilds := rebuilds s |}.

Definition with_available_entities (x : list string) (s : Session) : Session :=
  {| config := config s; clients := clients s;
     media_players := media_players s;
     available_entities := x;
     device_state := device_state s; entities_ready := entities_ready s;
     initialization_lock := initialization_lock s; rebuilds := rebuilds s |}.

Definition with_device_state (x : DeviceStates) (s : Session) : Session :=
  {| config := config s; clients := clients s;
     media_players := media_players s;
     available_entities := available_entities s;
     device_state := x; entities_ready := entities_ready s;
     initialization_lock := initialization_lock s; rebuilds := rebuilds s |}.

Definition with_entities_ready (x : bool) (s : Session) : Session :=
  {| config := config s; clients := clients s;
     media_players := media_players s;
     available_entities := available_entities s;
     device_state := device_state s; entities_ready := x;
     initialization_lock := initialization_lock s; rebuilds := rebuilds s |}.

Definition with_initialization_lock (x : bool) (s : Session) : Session :=
  {| config := config s; clients := clients s;
     media_players := media_players s;
     available_entities := available_entities s;
     device_state := device_state s; entities_ready := entities_ready s;
     initialization_lock := x; rebuilds := rebuilds s |}.

Definition with_rebuilds (x : nat) (s : Session) : Session :=
  {| config := config s; clients := clients s;
     media_players := media_players s;
     available_entities := available_entities s;
     device_state := device_state s; entities_ready := entities_ready s;
     initialization_lock := initialization_lock s; rebuilds := x |}.

(** [api.available_entities.add(entity)]: an id already stored is kept. *)
Definition entities_add (entity_id : string) (ids : list string)
  : list string :=
  if existsb (String.eqb entity_id) ids then ids else (ids ++ [entity_id])%list.

(** The state of a coroutine of the driver. *)
Definition St : Type := (Session * World)%type.

Definition session : M St Session := fun s => (Ok (fst s), s).

Definition update (f : Session -> Session) : M St unit :=
  modify (fun s => (f (fst s), snd s)).

(** [await api.set_device_state(state)] *)
Definition set_device_state (state : DeviceStates) : M St unit :=
  update (with_device_state state).

(** A method call on a client object that is local to the coroutine; the
    object comes back with the result. *)
Definition on_object {A} (c : client.VLCClient) (m : M client.St A)
  : M St (A * client.VLCClient) :=
  fun s =>
    match m (c, snd s) with
    | (Ok a, (c', w')) => (Ok (a, c'), (fst s, w'))
    | (Raise e, (_, w')) => (Raise e, (fst s, w'))
    end.

Section WithEnvironment.

Variable net : oracle.

(** [hashlib.md5(text.encode()).hexdigest()[:8]] *)
Variable md5_hex8 : string -> string.

(** *** [_initialize_entities], in the pieces between its suspension points *)

(** From the lock to the start of the loop: [None] when the coroutine
    returns, the snapshot of the registry when it goes on to rebuild. *)
Definition enter : M St (option (list (string * config.DeviceRecord))) :=
  s <- session ;;
  if entities_ready s then ret None
  else
    let devices := config.get_all_devices (config s) in
    match devices with
    | [] => set_device_state DISCONNECTED ;;; ret None
    | _ :: _ =>
        set_device_state CONNECTING ;;;
        update (fun s => with_rebuilds (S (rebuilds s)) s) ;;;
        update (with_clients []) ;;;
        update (with_media_players []) ;;;
        update (with_available_entities []) ;;;
        ret (Some devices)
    end.

(** The body of the loop for one device. *)
Definition initialize_device (item : string * config.DeviceRecord)
  : M St unit :=
  let (device_id, device_config) := item in
  try_except
    (client0 <- lift (client.__init__ (config.host device_config)
                                      (config.port device_config)
                                      (config.password device_config)) ;;
     r <- on_object client0 (client.connect net) ;;
     let (connected, client_) := r in
     if negb connected then ret tt
     else
       update (fun s => with_clients (setitem device_id client_ (clients s)) s) ;;;
       let entity_id := "vlc_" ++ device_id ++ "_media_player" in
       let (ok, media_player_) :=
         media_player.connect
           (media_player.__init__ entity_id
              (config.device_name device_config) client_) in
       if ok then
         update (fun s =>
                   with_media_players
                     (setitem device_id media_player_ (media_players s)) s) ;;;
         update (fun s =>
                   with_available_entities
                     (entities_add entity_id (available_entities s)) s)
       else ret tt)
    (fun _ => ret tt).

Fixpoint initialize_devices (devices : list (string * config.DeviceRecord))
  : M St unit :=
  match devices with
  | [] => ret tt
  | item :: rest => initialize_device item ;;; initialize_devices rest
  end.

(** After the loop. *)
Definition finish : M St unit :=
  s <- session ;;
  match media_players s with
  | _ :: _ =>
      update (with_entities_ready true) ;;;
      set_device_state CONNECTED
  | [] => set_device_state ERROR
  end.

(** [async with initialization_lock: body], from the state at which the
    lock is taken: the lock is set, the body runs, the lock is freed
    whatever the body did.  The wait that comes first when another task
    holds the lock is not part of this function: it is the move of [step] at
    [AtLock] below.  Run on a session whose lock is held, the function
    gives what the coroutine does once it has the lock, on that state. *)
Definition async_with_lock {A} (body : M St A) : M St A :=
  fun s =>
    let (r, s') := body (with_initialization_lock true (fst s), snd s) in
    (r, (with_initialization_lock false (fst s'), snd s')).

Definition _initialize_entities : M St unit :=
  async_with_lock
    (r <- enter ;;
     match r with
     | None => ret tt
     | Some devices =>
         try_except
           (initialize_devices devices ;;; finish)
           (fun _ => set_device_state ERROR)
     end).

(** *** [setup_handler] *)

Definition nonempty (s : string) : bool := negb (String.eqb s "").

Definition setup_handler (msg : SetupDriver) : M St SetupAction :=
  match msg with
  | DriverSetupRequest _ setup_data =>
      let host := strip (get_or "host" "" setup_data) in
      port <- lift (match lookup "port" setup_data with
                    | Some text => int_of_str text
                    | None => Ok 8080
                    end) ;;
      let password := strip (get_or "password" "" setup_data) in
      let device_name := strip (get_or "device_name" "" setup_data) in
      if negb (nonempty host && nonempty password && nonempty device_name)
      then ret (SetupError OTHER)
      else
        try_except
          (client0 <- lift (client.__init__ host port password) ;;
           r <- on_object client0 (client.connect net) ;;
           let (connected, test_client) := r in
           if negb connected then
             on_object test_client client.disconnect ;;;
             ret (SetupError CONNECTION_REFUSED)
           else
             let device_id := md5_hex8 (host ++ ":" ++ str_of_int port) in
             update (fun s =>
                       with_config
                         (config.add_device device_id host port password
                            device_name (config s)) s) ;;;
             on_object test_client client.disconnect ;;;
             update (with_entities_ready false) ;;;
             _initialize_entities ;;;
             ret SetupComplete)
          (fun _ => ret (SetupError OTHER))
  | _ => ret (SetupError OTHER)
  end.

(** *** Two triggers invoking [_initialize_entities]

    The tasks of the event loop interleave at the suspension points of the
    coroutine: at the lock, and at the calls awaited under it (the state
    reports and each probe). *)

(** Where a task stands in [_initialize_entities]. *)
Inductive pc : Type :=
| AtLock
| Entered
| InLoop (rest : list (string * config.DeviceRecord))
| Returned.

Definition acquire (st : St) : St :=
  (with_initialization_lock true (fst st), snd st).

Definition release (st : St) : St :=
  (with_initialization_lock false (fst st), snd st).

(** One move of a task.  A task at the lock waits while the lock is
    held. *)
Definition step (p : pc) (st : St) : pc * St :=
  match p with
  | AtLock =>
      if initialization_lock (fst st) then (AtLock, st)
      else (Entered, acquire st)
  | Entered =>
      match enter st with
      | (Ok (Some devices), st') => (InLoop devices, st')
      | (_, st') => (Returned, release st')
      end
  | InLoop (item :: rest) => (InLoop rest, snd (initialize_device item st))
  | InLoop [] => (Returned, release (snd (finish st)))
  | Returned => (Returned, st)
  end.

Inductive task : Type := First | Second.

Record System : Type := {
  first : pc;
  second : pc;
  shared : St
}.

Definition start (st : St) : System :=
  {| first := AtLock; second := AtLock; shared := st |}.

Definition move (t : task) (sys : System) : System :=
  match t with
  | First =>
      let (p, st) := step (first sys) (shared sys) in
      {| first := p; second := second sys; shared := st |}
  | Second =>
      let (p, st) := step (second sys) (shared sys) in
      {| first := first sys; second := p; shared := st |}
  end.

(** The system after the moves of a schedule, first move first. *)
Definition run (schedule : list task) (sys : System) : System :=
  fold_left (fun sys t => move t sys) schedule sys.

Definition holds_lock (p : pc) : bool :=
  match p with
  | Entered | InLoop _ => true
  | AtLock | Returned => false
  end.

Definition returned (p : pc) : bool :=
  match p with
  | Returned => true
  | _ => false
  end.

(** *** [_monitor_connection]: one turn of its loop, up to the sleep

    The client stored under a device id and the client of the adapter
    stored under that id are one object: [_initialize_entities] stores both
    together and nothing else stores into either dict.  What a method writes
    to the client therefore shows in both. *)

Definition store_client (device_id : string) (c : client.VLCClient)
  (s : Session) : Session :=
  let s1 := with_clients (setitem device_id c (clients s)) s in
  match lookup device_id (media_players s1) with
  | Some mp =>
      with_media_players
        (setitem device_id (media_player.with_client c mp) (media_players s1))
        s1
  | None => s1
  end.

(** The body of the loop over [clients.items()]; gives whether the status
    was truthy. *)
Definition monitor_client (item : string * client.VLCClient) : M St bool :=
  let (device_id, client_) := item in
  r <- on_object client_ (client.get_status net) ;;
  let (status, client1) := r in
  if negb (truthy status) then
    r' <- on_object client1 (client.connect net) ;;
    let (_, client2) := r' in
    update (store_client device_id client2) ;;;
    ret false
  else
    update (store_client device_id client1) ;;;
    ret true.

Fixpoint monitor_clients (items : list (string * client.VLCClient))
  (all_connected : bool) : M St bool :=
  match items with
  | [] => ret all_connected
  | item :: rest =>
      ok <- monitor_client item ;;
      monitor_clients rest (if ok then all_connected else false)
  end.

Definition monitor_pass : M St unit :=
  try_except
    (s <- session ;;
     let ready :=
       match clients s with
       | _ :: _ => entities_ready s
       | [] => false
       end in
     if ready then
       all_connected <- monitor_clients (clients s) true ;;
       if all_connected then
         s' <- session ;;
         match device_state s' with
         | CONNECTED => ret tt
         | _ => set_device_state CONNECTED
         end
       else set_device_state CONNECTING
     else ret tt)
    (fun _ => ret tt).

End WithEnvironment.

End driver.

(* ================================================================== *)
(** * Definitions used in the statements *)

Import Net.
Import media_player.
Import driver.

(** The round trip of one input: scaled into 0..512, and back within one
    unit below the input. *)
Definition roundtrip_within_one (v : Z) : bool :=
  match client.scale_volume v with
  | Ok n =>
      (0 <=? n) && (n <=? 512) &&
      match media_player.normalize_volume (NInt n) with
      | Ok b => (v - 1 <=? b) && (b <=? v)
      | Raise _ => false
      end
  | Raise _ => false
  end.

(** The adapter after [update_status]. *)
Definition refreshed (net : oracle) (mp : VLCMediaPlayer) (w : World)
  : VLCMediaPlayer :=
  fst (snd (update_status net (mp, w))).

(** The precedence of the repeat flags, in the words of the
    specification: loop-flag, then repeat-flag, then off. *)
Definition repeat_by_precedence (d : list (string * value)) : RepeatMode.t :=
  if truthy (get_or "loop" (VBool false) d) then RepeatMode.ALL
  else if truthy (get_or "repeat" (VBool false) d) then RepeatMode.ONE
  else RepeatMode.OFF.

(** *** Concrete objects used to exercise the statements *)

(** A client that has been connected. *)
Definition den_client : client.VLCClient :=
  {| client.host := "192.168.1.20"; client.port := 8080;
     client.password := "secret";
     client.base_url := "http://192.168.1.20:8080";
     client.headers := ":secret";
     client._is_connected := true; client._stored_volume := None |}.

(** The adapter built on it. *)
Definition den_player : VLCMediaPlayer :=
  __init__ "vlc_1a2b3c4d_media_player" "Den" den_client.

(** A device that answers every request with the same document. *)
Definition answering (doc : value) : oracle := fun _ _ => Http 200 (Some doc).

(** A device that cannot be reached. *)
Definition unreachable : oracle := fun _ _ => TransportError.

(** The status document of the specification's example. *)
Definition example_status : value :=
  VDict [("state", VStr "playing"); ("volume", VInt 384);
         ("random", VBool true); ("loop", VBool false);
         ("repeat", VBool true)].

(** The request of a status query or a probe. *)
Definition status_request (c : client.VLCClient) : request :=
  {| url := client.base_url c ++ "/requests/status.json";
     authorization := client.headers c |}.

(** The request of the command [volume val=<val>]. *)
Definition volume_request (c : client.VLCClient) (val : string) : request :=
  {| url := client.command_url c "volume" [("val", client.PStr val)];
     authorization := client.headers c |}.

(** A probe succeeds on status 200 with a body that parses. *)
Definition probe_ok (r : reply) : bool :=
  match r with
  | Http status (Some _) => status =? 200
  | Http _ None => false
  | TransportError => false
  end.

(** Whether one of the requests [ext], issued from position [start] of the
    run, got the reply of a successful probe. *)
Fixpoint some_probe_ok (net : oracle) (start : nat) (ext : list request)
  : bool :=
  match ext with
  | [] => false
  | r :: ext' => probe_ok (net start r) || some_probe_ok net (S start) ext'
  end.

(** [bool(d)] on a dict. *)
Definition nonempty_dict {V : Type} (d : list (string * V)) : bool :=
  match d with
  | [] => false
  | _ :: _ => true
  end.

(** The devices whose client object can be constructed. *)
Definition constructible (item : string * config.DeviceRecord) : bool :=
  is_ascii (":" ++ config.password (snd item)).

(** The registry after a device has been registered. *)
Definition register (device_id : string) (device_config : config.DeviceRecord)
  (c : client.VLCClient) (s : Session) : Session :=
  let entity_id := "vlc_" ++ device_id ++ "_media_player" in
  let s1 := with_clients (setitem device_id c (clients s)) s in
  let s2 :=
    with_media_players
      (setitem device_id
         (set_connected true
            (__init__ entity_id (config.device_name device_config) c))
         (media_players s1)) s1 in
  with_available_entities (entities_add entity_id (available_entities s2)) s2.

(** What the loop keeps and what it builds. *)
Record loop_result (net : oracle) (devices : list (string * config.DeviceRecord))
  (s : Session) (w : World) (s' : Session) (w' : World) : Prop := {
  loop_config : config s' = config s;
  loop_device_state : device_state s' = device_state s;
  loop_entities_ready : entities_ready s' = entities_ready s;
  loop_lock : initialization_lock s' = initialization_lock s;
  loop_rebuilds : rebuilds s' = rebuilds s;
  loop_requests :
    exists ext,
      w' = (w ++ ext)%list /\
      List.length ext = List.length (filter constructible devices) /\
      nonempty_dict (media_players s') =
      nonempty_dict (media_players s) || some_probe_ok net (List.length w) ext
}.

(** The registry emptied at the start of a rebuild. *)
Definition cleared (s : Session) : Session :=
  with_available_entities []
    (with_media_players []
       (with_clients []
          (with_rebuilds (S (rebuilds s)) (with_device_state CONNECTING s)))).

(** What runs under the lock. *)
Definition body (net : oracle) : M St unit :=
  r <- enter ;;
  match r with
  | None => ret tt
  | Some devices =>
      try_except (initialize_devices net devices ;;; finish)
        (fun _ => set_device_state ERROR)
  end.

(** *** A registry of two devices *)

Definition two_devices : config.Config :=
  let devices :=
    [("1a2b3c4d",
      {| config.host := "192.168.1.20"; config.port := 8080;
         config.password := "secret"; config.device_name := "Den" |});
     ("5e6f7a8b",
      {| config.host := "192.168.1.21"; config.port := 8080;
         config.password := "secret"; config.device_name := "Attic" |})] in
  {| config._devices := devices; config.file := Some devices |}.

(** The session of a process that has loaded [cfg] and done nothing else. *)
Definition loaded (cfg : config.Config) : Session :=
  {| config := cfg; clients := []; media_players := [];
     available_entities := []; device_state := DISCONNECTED;
     entities_ready := false; initialization_lock := false; rebuilds := 0 |}.

(** The first request of the run fails, the later ones are answered. *)
Definition first_fails : oracle :=
  fun n _ =>
    match n with
    | O => TransportError
    | S _ => Http 200 (Some example_status)
    end.

(** Running a task alone from where it stands to its return. *)
Definition complete (net : oracle) (p : pc) (st : St) : St :=
  match p with
  | AtLock => snd (_initialize_entities net st)
  | Entered => release (snd (body net st))
  | InLoop rest => release (snd (finish (snd (initialize_devices net rest st))))
  | Returned => st
  end.

(** Mutual exclusion: the lock is held exactly while one task is between
    its acquisition and its return, and the two tasks are never both
    there. *)
Definition exclusive (sys : System) : Prop :=
  initialization_lock (fst (shared sys))
  = holds_lock (first sys) || holds_lock (second sys) /\
  holds_lock (first sys) && holds_lock (second sys) = false.

(** The state once both tasks have run to their return, the one that holds
    the lock first. *)
Definition outcome (net : oracle) (sys : System) : St :=
  if holds_lock (second sys)
  then complete net (first sys) (complete net (second sys) (shared sys))
  else complete net (second sys) (complete net (first sys) (shared sys)).

(** The port of a setup request: [int(setup_data.get("port", 8080))]. *)
Definition requested_port (setup_data : list (string * string)) : result Z :=
  match lookup "port" setup_data with
  | Some text => int_of_str text
  | None => Ok 8080
  end.

(** A complete setup request. *)
Definition den_setup : list (string * string) :=
  [("host", " 192.168.1.20 "); ("port", "8080"); ("password", "secret");
   ("device_name", "Den")].

(** [k] moves of one task. *)
Fixpoint steps (net : oracle) (k : nat) (p : pc) (st : St) : pc * St :=
  match k with
  | O => (p, st)
  | S k' => let (p', st') := step net p st in steps net k' p' st'
  end.

(** The moves a task still needs, when nothing makes it wait. *)
Definition moves_left (p : pc) (st : St) : nat :=
  match p with
  | AtLock => 3 + List.length (config.get_all_devices (config (fst st)))
  | Entered => 2 + List.length (config.get_all_devices (config (fst st)))
  | InLoop rest => 1 + List.length rest
  | Returned => 0
  end.

(** *** The registry under a sequence of changes *)

(** The identifiers of the registry, in order. *)
Definition device_ids (c : config.Config) : list string :=
  map fst (config._devices c).

(** A change of the registry. *)
Inductive registry_change : Type :=
| Add (device_id host : string) (port : Z) (password device_name : string)
| Remove (device_id : string).

Definition change (c : config.Config) (x : registry_change) : config.Config :=
  match x with
  | Add device_id host port password device_name =>
      config.add_device device_id host port password device_name c
  | Remove device_id => config.remove_device device_id c
  end.

(** The text a relative seek sends for an offset. *)
Definition signed_offset (offset : Z) : string :=
  match offset with
  | Z0 => "0"
  | Zpos p => "+" ++ str_of_int (Zpos p)
  | Zneg p => "-" ++ str_of_int (Zpos p)
  end.

(** The request of a command with its parameters. *)
Definition command_request (c : client.VLCClient) (command : string)
  (params : list (string * client.param)) : request :=
  {| url := client.command_url c command params;
     authorization := client.headers c |}.

(** Scaling and normalising checked against integer arithmetic. *)
Definition scale_is_quotient (v : Z) : bool :=
  match client.scale_volume v with
  | Ok n => n =? Z.quot (512 * v) 100
  | Raise _ => false
  end.

Definition normalize_is_quotient (n : Z) : bool :=
  match media_player.normalize_volume (NInt n) with
  | Ok b => b =? Z.quot (100 * n) 512
  | Raise _ => false
  end.

(** The integers from [lo], [count] of them. *)
Definition integers (lo : Z) (count : nat) : list Z :=
  map (fun k => lo + Z.of_nat k) (seq 0 count).

(** *** The adapter's commands and the metadata of a document *)

(** The command ids the handler knows. *)
Definition handled_commands : list string :=
  [Commands.PLAY_PAUSE; Commands.STOP; Commands.NEXT; Commands.PREVIOUS;
   Commands.VOLUME; Commands.VOLUME_UP; Commands.VOLUME_DOWN;
   Commands.MUTE_TOGGLE; Commands.MUTE; Commands.UNMUTE; Commands.SEEK;
   Commands.FAST_FORWARD; Commands.REWIND; Commands.REPEAT;
   Commands.SHUFFLE].

(** [status["information"]["category"]["meta"]], each level defaulting to
    the empty dict. *)
Definition document_meta (d : list (string * value)) : result value :=
  match method_get (get_or "information" (VDict []) d) "category" (VDict [])
  with
  | Ok category => method_get category "meta" (VDict [])
  | Raise e => Raise e
  end.

(** The state shown for the [state] field of a document. *)
Definition shown_state (state : value) : States.t :=
  if eq_str state "playing" then States.PLAYING
  else if eq_str state "paused" then States.PAUSED
  else if eq_str state "stopped" then States.OFF
  else States.ON.

(** The registry is consistent: every adapter is stored under the id of its
    device, wraps the client stored under that id, which is marked
    connected, carries the entity id built from the device id and is in the
    entity store; every client has an adapter and belongs to a configured
    device; and every stored entity is the entity of an adapter. *)
Definition consistent (s : Session) : Prop :=
  (forall device_id mp,
      lookup device_id (media_players s) = Some mp ->
      lookup device_id (clients s) = Some (_client mp) /\
      client._is_connected (_client mp) = true /\
      id mp = "vlc_" ++ device_id ++ "_media_player" /\
      _connected mp = true /\
      In (id mp) (available_entities s)) /\
  (forall device_id c,
      lookup device_id (clients s) = Some c ->
      lookup device_id (media_players s) <> None /\
      lookup device_id (config._devices (config s)) <> None) /\
  (forall entity_id,
      In entity_id (available_entities s) ->
      exists device_id,
        entity_id = "vlc_" ++ device_id ++ "_media_player" /\
        lookup device_id (media_players s) <> None).

(** The document [get_status] takes from a reply. *)
Definition reply_status (r : reply) : value :=
  match r with
  | Http status (Some v) => if status =? 200 then v else VNone
  | Http _ None => VNone
  | TransportError => VNone
  end.

(** What a turn of the monitor leaves alone: the ids registered, the entity
    store, the configuration, readiness, the lock and the rebuilds. *)
Definition monitored (s s' : Session) : Prop :=
  map fst (clients s') = map fst (clients s) /\
  map fst (media_players s') = map fst (media_players s) /\
  available_entities s' = available_entities s /\
  config s' = config s /\
  entities_ready s' = entities_ready s /\
  initialization_lock s' = initialization_lock s /\
  rebuilds s' = rebuilds s.

(** A device that answers every request with an empty JSON object. *)
Definition empty_document : oracle := answering (VDict []).

(** A session that is ready, with the one device of the examples
    registered. *)
Definition den_ready : Session :=
  {| config := two_devices;
     clients := [("1a2b3c4d", den_client)];
     media_players := [("1a2b3c4d", set_connected true den_player)];
     available_entities := ["vlc_1a2b3c4d_media_player"];
     device_state := CONNECTED;
     entities_ready := true; initialization_lock := false; rebuilds := 1 |}.

(** ** Proof automation *)

Ltac stuck_case :=
  match goal with
  | |- context [match ?x with _ => _ end] =>
      lazymatch type of x with
      | result _ => destruct x eqn:?
      | bool => destruct x eqn:?
      | States.t => destruct x eqn:?
      end
  end.

Ltac unfold_steps :=
  unfold parse_status, parse_state, parse_position_and_duration, parse_volume,
    parse_metadata, parse_repeat, parse_shuffle, assign, modify, self, lift,
    bind, ret.

Ltac unfold_client :=
  unfold client.mute, client.unmute, client.mute_toggle, client.set_volume,
    client.volume_up, client.volume_down, client.send_command,
    client.get_status, client.connect, client.disconnect, client.self,
    client.http_get, modify, lift, bind, ret.

Ltac client_case :=
  match goal with
  | |- context [match ?x with _ => _ end] =>
      lazymatch type of x with
      | result _ => destruct x eqn:?
      | bool => destruct x eqn:?
      | reply => destruct x eqn:?
      | option _ => destruct x eqn:?
      | value => destruct x eqn:?
      | Z => destruct x eqn:?
      | positive => destruct x eqn:?
      end
  end.

(* ================================================================== *)
(** * Properties *)

(** ** Volume scaling *)

Lemma roundtrip_table :
  forallb roundtrip_within_one (map Z.of_nat (seq 0 101)) = true.
Proof. vm_compute. reflexivity. Qed.

Lemma roundtrip_in_range (v : Z) :
  0 <= v <= 100 -> roundtrip_within_one v = true.
Proof.
  intros Hv.
  pose proof roundtrip_table as T.
  rewrite forallb_forall in T.
  apply T.
  apply in_map_iff.
  exists (Z.to_nat v). split; [lia|].
  apply in_seq. lia.
Qed.

(** ** The client: what each method does to the object *)

Lemma get_status_frame (net : oracle) (c : client.VLCClient) (w : World) :
  exists v w', client.get_status net (c, w) = (Ok v, (c, w')).
Proof.
  unfold client.get_status, client.self, client.http_get, bind, ret; cbn.
  destruct (client._is_connected c); cbn; eauto.
  destruct (net _ _) as [status [b|]|]; cbn;
    try destruct (status =? 200); cbn; eauto.
Qed.

(** A command on a connected client is one request, with the URL of the
    command. *)
Lemma send_command_connected (net : oracle) (c : client.VLCClient)
  (w : World) (command : string) (params : list (string * client.param)) :
  client._is_connected c = true ->
  exists b,
    client.send_command net command params (c, w) =
    (Ok b, (c, (w ++ [{| url := client.command_url c command params;
                         authorization := client.headers c |}])%list)).
Proof.
  intros Hc.
  unfold client.send_command, client.self, client.http_get, bind, ret; cbn.
  rewrite Hc; cbn.
  destruct (net _ _); cbn; eauto.
Qed.

(** ** The adapter's refresh *)

Lemma with_client_same (mp : VLCMediaPlayer) :
  with_client (_client mp) mp = mp.
Proof. destruct mp; reflexivity. Qed.

Lemma update_status_unfold (net : oracle) (mp : VLCMediaPlayer) (w : World)
  (status : value) (st' : client.St) :
  _connected mp = true ->
  client.get_status net (_client mp, w) = (Ok status, st') ->
  update_status net (mp, w) =
    if truthy status
    then try_except (parse_status status)
           (fun _ => assign (set_state States.UNAVAILABLE)) (mp, snd st')
    else (Ok tt, (with_attr (set_state States.UNAVAILABLE) mp, snd st')).
Proof.
  intros Hc Hs.
  destruct (get_status_frame net (_client mp) w) as (v & w' & E).
  rewrite E in Hs. injection Hs as -> <-.
  unfold update_status, self, bind at 1. cbn [fst snd]. rewrite Hc. cbn [negb].
  unfold try_except, bind, on_client, zoom. cbn [fst snd].
  rewrite E. cbn [fst snd]. rewrite with_client_same.
  destruct (truthy status); cbn; reflexivity.
Qed.

(** A parse that completes computes every attribute from the document and
    the client: what the attributes were before does not matter. *)
Lemma parse_status_overwrites (status : value) (mp1 mp2 : VLCMediaPlayer)
  (w1 w2 : World) :
  _client mp1 = _client mp2 ->
  fst (parse_status status (mp1, w1)) = Ok tt ->
  fst (parse_status status (mp2, w2)) = Ok tt /\
  attr (fst (snd (parse_status status (mp1, w1)))) =
  attr (fst (snd (parse_status status (mp2, w2)))).
Proof.
  intros Hc. unfold_steps. cbn.
  repeat (stuck_case; cbn; try discriminate).
  all: intros _; split; [reflexivity|]; try rewrite Hc; reflexivity.
Qed.

(** A parse that completes never leaves the state unavailable, and a parse
    that raises is turned into unavailable by the handler. *)
Lemma parse_status_state (status : value) (mp : VLCMediaPlayer) (w : World) :
  fst (parse_status status (mp, w)) = Ok tt ->
  _attr_state (attr (fst (snd (parse_status status (mp, w)))))
  <> States.UNAVAILABLE.
Proof.
  unfold_steps. cbn.
  repeat (stuck_case; cbn; try discriminate).
  all: intros _; repeat destruct (eq_str _ _); discriminate.
Qed.

Lemma parse_status_repeat_shuffle (status : value) (mp : VLCMediaPlayer)
  (w : World) :
  fst (parse_status status (mp, w)) = Ok tt ->
  exists d,
    status = VDict d /\
    _attr_repeat (attr (fst (snd (parse_status status (mp, w)))))
    = repeat_by_precedence d /\
    _attr_shuffle (attr (fst (snd (parse_status status (mp, w)))))
    = get_or "random" (VBool false) d.
Proof.
  destruct status as [| | | | |d];
    try (unfold_steps; cbn; discriminate).
  intros H. exists d. split; [reflexivity|]. revert H.
  unfold repeat_by_precedence. unfold_steps. cbn.
  repeat (stuck_case; cbn; try discriminate).
  all: intros _; split; reflexivity.
Qed.

(** The volume step, whatever the later steps do. *)
Lemma parse_status_volume (d : list (string * value)) (mp : VLCMediaPlayer)
  (w : World) (n : num) (b : Z) :
  as_number (get_or "volume" (VInt 256) d) = Ok n ->
  normalize_volume n = Ok b ->
  forall mp',
    mp' = fst (snd (try_except (parse_status (VDict d))
                      (fun _ => assign (set_state States.UNAVAILABLE))
                      (mp, w))) ->
    _attr_volume (attr mp') = b /\
    _attr_muted (attr mp') = (int_of_num n =? 0).
Proof.
  intros Hn Hb mp' ->.
  unfold try_except. unfold_steps. cbn.
  rewrite Hn. cbn. rewrite Hb. cbn.
  repeat (stuck_case; cbn).
  all: split; reflexivity.
Qed.

(** A refresh that does not end unavailable is a parse that completed. *)
Lemma refreshed_available (net : oracle) (mp : VLCMediaPlayer) (w : World)
  (status : value) (st' : client.St) :
  _connected mp = true ->
  client.get_status net (_client mp, w) = (Ok status, st') ->
  _attr_state (attr (refreshed net mp w)) <> States.UNAVAILABLE ->
  truthy status = true /\
  fst (parse_status status (mp, snd st')) = Ok tt /\
  refreshed net mp w = fst (snd (parse_status status (mp, snd st'))).
Proof.
  intros Hc Hs. unfold refreshed.
  rewrite (update_status_unfold net mp w status st' Hc Hs).
  destruct (truthy status).
  - unfold try_except.
    destruct (parse_status status (mp, snd st')) as [[[]|e] s]; cbn.
    + intros _. repeat split.
    + intros H. exfalso. apply H. reflexivity.
  - cbn. intros H. exfalso. apply H. reflexivity.
Qed.

(** And conversely: a parse that completes is what the refresh returns. *)
Lemma refreshed_parse (net : oracle) (mp : VLCMediaPlayer) (w : World)
  (status : value) (st' : client.St) :
  _connected mp = true ->
  client.get_status net (_client mp, w) = (Ok status, st') ->
  truthy status = true ->
  fst (parse_status status (mp, snd st')) = Ok tt ->
  refreshed net mp w = fst (snd (parse_status status (mp, snd st'))).
Proof.
  intros Hc Hs Ht Hp. unfold refreshed.
  rewrite (update_status_unfold net mp w status st' Hc Hs), Ht.
  unfold try_except.
  destruct (parse_status status (mp, snd st')) as [[[]|e] s]; cbn in *.
  - reflexivity.
  - discriminate.
Qed.

Lemma refreshed_volume (net : oracle) (mp : VLCMediaPlayer) (w : World)
  (d : list (string * value)) (st' : client.St) (n : num) (b : Z) :
  _connected mp = true ->
  client.get_status net (_client mp, w) = (Ok (VDict d), st') ->
  truthy (VDict d) = true ->
  as_number (get_or "volume" (VInt 256) d) = Ok n ->
  normalize_volume n = Ok b ->
  _attr_volume (attr (refreshed net mp w)) = b /\
  _attr_muted (attr (refreshed net mp w)) = (int_of_num n =? 0).
Proof.
  intros Hc Hs Ht Hn Hb. unfold refreshed.
  rewrite (update_status_unfold net mp w _ st' Hc Hs), Ht.
  eapply parse_status_volume; eauto.
Qed.

(** C4. For every volume input 0..100, the value [set_volume] sends is in
    0..512, and normalising it as the refresh does gives a volume within
    one unit of the input; a connected client sends exactly that value, and
    an adapter polling a device that reports it shows the normalised
    volume. *)
Theorem volume_roundtrip (v : Z) :
  0 <= v <= 100 ->
  exists n b,
    client.scale_volume v = Ok n /\ 0 <= n <= 512 /\
    normalize_volume (NInt n) = Ok b /\ Z.abs (b - v) <= 1 /\
    (forall net c w,
        client._is_connected c = true ->
        exists ok,
          client.set_volume net v (c, w) =
          (Ok ok,
           (c, (w ++ [{| url := client.command_url c "volume"
                                  [("val", client.PInt n)];
                        authorization := client.headers c |}])%list))) /\
    (forall net mp w d st',
        _connected mp = true ->
        client.get_status net (_client mp, w) = (Ok (VDict d), st') ->
        lookup "volume" d = Some (VInt n) ->
        _attr_volume (attr (refreshed net mp w)) = b).
Proof.
  intros Hv.
  pose proof (roundtrip_in_range v Hv) as R.
  unfold roundtrip_within_one in R.
  destruct (client.scale_volume v) as [n|] eqn:En; [|discriminate].
  destruct (normalize_volume (NInt n)) as [b|] eqn:Eb;
    [|rewrite andb_false_r in R; discriminate].
  exists n, b.
  repeat rewrite andb_true_iff in R.
  destruct R as [[R1 R2] [R3 R4]].
  apply Z.leb_le in R1, R2, R3, R4.
  split; [reflexivity|]. split; [lia|]. split; [exact Eb|].
  split; [lia|]. split.
  - intros net c w Hc.
    unfold client.set_volume, bind, lift. rewrite En.
    apply send_command_connected. exact Hc.
  - intros net mp w d st' Hc Hs Hl.
    assert (Ht : truthy (VDict d) = true).
    { destruct d; [discriminate|reflexivity]. }
    apply (refreshed_volume net mp w d st' (NInt n) b Hc Hs Ht); [|exact Eb].
    unfold get_or. rewrite Hl. reflexivity.
Qed.

Lemma volume_roundtrip_witness :
  0 <= 37 <= 100 /\
  exists n b,
    client.scale_volume 37 = Ok n /\ 0 <= n <= 512 /\
    normalize_volume (NInt n) = Ok b /\ Z.abs (b - 37) <= 1 /\
    (forall net c w,
        client._is_connected c = true ->
        exists ok,
          client.set_volume net 37 (c, w) =
          (Ok ok,
           (c, (w ++ [{| url := client.command_url c "volume"
                                  [("val", client.PInt n)];
                        authorization := client.headers c |}])%list))) /\
    (forall net mp w d st',
        _connected mp = true ->
        client.get_status net (_client mp, w) = (Ok (VDict d), st') ->
        lookup "volume" d = Some (VInt n) ->
        _attr_volume (attr (refreshed net mp w)) = b).
Proof.
  split; [lia | apply (volume_roundtrip 37); lia].
Defined.

(** C5. On the document [state="playing", volume=384, random=true,
    loop=false, repeat=true] the refresh gives state playing, volume 75,
    muted false, repeat one, shuffle true.  In general, whenever the refresh
    completes, the repeat mode follows the precedence loop-flag, repeat-flag,
    off, and the shuffle attribute is the document's [random] field as it
    stands. *)
Theorem refresh_example_and_repeat_precedence (net : oracle)
  (mp : VLCMediaPlayer) (w : World) (status : value) (st' : client.St) :
  _connected mp = true ->
  client.get_status net (_client mp, w) = (Ok status, st') ->
  (status = example_status ->
   let p := attr (refreshed net mp w) in
   _attr_state p = States.PLAYING /\ _attr_volume p = 75 /\
   _attr_muted p = false /\ _attr_repeat p = RepeatMode.ONE /\
   _attr_shuffle p = VBool true) /\
  (_attr_state (attr (refreshed net mp w)) <> States.UNAVAILABLE ->
   exists d,
     status = VDict d /\
     _attr_repeat (attr (refreshed net mp w)) = repeat_by_precedence d /\
     _attr_shuffle (attr (refreshed net mp w))
     = get_or "random" (VBool false) d).
Proof.
  intros Hc Hs. split.
  - intros ->.
    rewrite (refreshed_parse net mp w example_status st' Hc Hs);
      repeat split; reflexivity.
  - intros Ha.
    destruct (refreshed_available net mp w status st' Hc Hs Ha)
      as (_ & Hp & ->).
    apply parse_status_repeat_shuffle. exact Hp.
Qed.

Lemma refresh_example_and_repeat_precedence_witness :
  let p := attr (refreshed (answering example_status) den_player []) in
  (_attr_state p = States.PLAYING /\ _attr_volume p = 75 /\
   _attr_muted p = false /\ _attr_repeat p = RepeatMode.ONE /\
   _attr_shuffle p = VBool true) /\
  exists d,
    example_status = VDict d /\
    _attr_repeat p = repeat_by_precedence d /\
    _attr_shuffle p = get_or "random" (VBool false) d.
Proof.
  pose proof (refresh_example_and_repeat_precedence
                (answering example_status) den_player [] example_status
                (den_client,
                 [{| url := "http://192.168.1.20:8080/requests/status.json";
                     authorization := ":secret" |}])
                eq_refl eq_refl) as [H1 H2].
  split.
  - apply H1. reflexivity.
  - apply H2. vm_compute. discriminate.
Defined.

(** C6, as the code has it.  When the status query of a connected adapter
    returns no status, the refresh sets the state to unavailable and leaves
    every other cached attribute as it was; a refresh that completes
    computes all the attributes from its document, whatever they were
    before.  But a refresh can also fail after it has begun to write: when
    the document is a non-empty object whose volume is not a number, the
    refresh ends unavailable with the position and the duration already
    taken from the document and the remaining attributes left from the
    cache. *)
Theorem failed_poll_keeps_cache (net : oracle) (mp : VLCMediaPlayer)
  (w : World) (status : value) (st' : client.St) :
  _connected mp = true ->
  client.get_status net (_client mp, w) = (Ok status, st') ->
  (truthy status = false ->
   let p := attr mp in
   let p' := attr (refreshed net mp w) in
   refreshed net mp w = with_attr (set_state States.UNAVAILABLE) mp /\
   _attr_state p' = States.UNAVAILABLE /\
   _attr_volume p' = _attr_volume p /\
   _attr_muted p' = _attr_muted p /\
   _attr_media_position p' = _attr_media_position p /\
   _attr_media_duration p' = _attr_media_duration p /\
   _attr_media_title p' = _attr_media_title p /\
   _attr_media_artist p' = _attr_media_artist p /\
   _attr_media_album p' = _attr_media_album p /\
   _attr_media_image_url p' = _attr_media_image_url p /\
   _attr_repeat p' = _attr_repeat p /\
   _attr_shuffle p' = _attr_shuffle p) /\
  (_attr_state (attr (refreshed net mp w)) <> States.UNAVAILABLE ->
   forall other : VLCMediaPlayer,
     _connected other = true ->
     _client other = _client mp ->
     attr (refreshed net other w) = attr (refreshed net mp w)) /\
  (forall d,
      status = VDict d ->
      truthy status = true ->
      as_number (get_or "volume" (VInt 256) d) = Raise TypeError ->
      let p := attr mp in
      let p' := attr (refreshed net mp w) in
      _attr_state p' = States.UNAVAILABLE /\
      _attr_media_position p' = get_or "time" (VInt 0) d /\
      _attr_media_duration p' = get_or "length" (VInt 0) d /\
      _attr_volume p' = _attr_volume p /\
      _attr_muted p' = _attr_muted p /\
      _attr_media_title p' = _attr_media_title p /\
      _attr_media_artist p' = _attr_media_artist p /\
      _attr_media_album p' = _attr_media_album p /\
      _attr_media_image_url p' = _attr_media_image_url p /\
      _attr_repeat p' = _attr_repeat p /\
      _attr_shuffle p' = _attr_shuffle p).
Proof.
  intros Hc Hs. split; [|split].
  - intros Ht. cbv zeta. unfold refreshed.
    rewrite (update_status_unfold net mp w status st' Hc Hs), Ht.
    cbn. repeat split.
  - intros Ha other Hco Hcl.
    destruct (refreshed_available net mp w status st' Hc Hs Ha)
      as (Ht & Hp & ->).
    rewrite <- Hcl in Hs.
    destruct (parse_status_overwrites status mp other (snd st') (snd st'))
      as [Hp' Heq]; [congruence | exact Hp |].
    rewrite (refreshed_parse net other w status st' Hco Hs Ht Hp').
    symmetry. exact Heq.
  - intros d -> Ht Hv. cbv zeta. unfold refreshed.
    rewrite (update_status_unfold net mp w (VDict d) st' Hc Hs), Ht.
    unfold try_except, parse_status, parse_state, parse_position_and_duration,
      parse_volume, bind, lift, assign, modify, method_get.
    cbn [fst snd]. rewrite Hv. cbn. repeat split.
Qed.

Lemma failed_poll_keeps_cache_witness :
  let cached := refreshed (answering example_status) den_player [] in
  let half :=
    VDict [("state", VStr "playing"); ("time", VInt 42);
           ("length", VInt 300); ("volume", VStr "loud")] in
  refreshed unreachable cached [] =
  with_attr (set_state States.UNAVAILABLE) cached /\
  _attr_volume (attr (refreshed unreachable cached [])) = 75 /\
  attr (refreshed (answering example_status)
          (refreshed unreachable cached []) [])
  = attr cached /\
  _attr_state (attr (refreshed (answering half) cached []))
  = States.UNAVAILABLE /\
  _attr_media_position (attr (refreshed (answering half) cached []))
  = VInt 42.
Proof.
  cbv zeta.
  set (cached := refreshed (answering example_status) den_player []).
  pose (probe := {| url := "http://192.168.1.20:8080/requests/status.json";
                    authorization := ":secret" |}).
  pose proof (failed_poll_keeps_cache unreachable cached [] VNone
                (den_client, [probe]) eq_refl eq_refl) as [Hfail _].
  pose proof (failed_poll_keeps_cache (answering example_status) cached []
                example_status (den_client, [probe]) eq_refl eq_refl)
    as [_ [Hgood _]].
  pose proof (failed_poll_keeps_cache
                (answering
                   (VDict [("state", VStr "playing"); ("time", VInt 42);
                           ("length", VInt 300); ("volume", VStr "loud")]))
                cached []
                (VDict [("state", VStr "playing"); ("time", VInt 42);
                        ("length", VInt 300); ("volume", VStr "loud")])
                (den_client, [probe]) eq_refl eq_refl)
    as [_ [_ Hhalf]].
  destruct (Hfail eq_refl) as (H1 & _ & H3 & _).
  destruct (Hhalf _ eq_refl eq_refl eq_refl) as (K1 & K2 & _).
  split; [exact H1|]. split; [rewrite H3; reflexivity|].
  split.
  - rewrite (Hgood ltac:(vm_compute; discriminate)
               (refreshed unreachable cached []) eq_refl eq_refl).
    reflexivity.
  - split; [exact K1|exact K2].
Defined.

(** C6 as stated fails: after a poll that returned no status, the cached
    attributes are not overwritten only by a successful poll.  The next poll
    gets a document whose volume is not a number: it fails too, the state is
    still unavailable, and yet the cached position and duration have been
    replaced by the document's, while the volume and the title are those of
    the cache. *)
Lemma failed_poll_overwrites_position :
  let cached := refreshed (answering example_status) den_player [] in
  let failed := refreshed unreachable cached [] in
  let half :=
    VDict [("state", VStr "playing"); ("time", VInt 42);
           ("length", VInt 300); ("volume", VStr "loud")] in
  let after := refreshed (answering half) failed [] in
  _connected cached = true /\
  _attr_state (attr failed) = States.UNAVAILABLE /\
  _attr_media_position (attr failed) = _attr_media_position (attr cached) /\
  _attr_state (attr after) = States.UNAVAILABLE /\
  _attr_media_position (attr after) = VInt 42 /\
  _attr_media_duration (attr after) = VInt 300 /\
  _attr_media_position (attr after) <> _attr_media_position (attr failed) /\
  _attr_media_duration (attr after) <> _attr_media_duration (attr failed) /\
  _attr_volume (attr after) = _attr_volume (attr cached) /\
  _attr_media_title (attr after) = _attr_media_title (attr cached).
Proof.
  vm_compute. repeat split; discriminate.
Qed.

(** C10. When the poll returns a status document without a [volume] field,
    the refresh takes the native default 256: it shows volume 50 and not
    muted. *)
Theorem absent_volume_is_half_scale (net : oracle) (mp : VLCMediaPlayer)
  (w : World) (d : list (string * value)) (st' : client.St) :
  _connected mp = true ->
  client.get_status net (_client mp, w) = (Ok (VDict d), st') ->
  truthy (VDict d) = true ->
  lookup "volume" d = None ->
  _attr_volume (attr (refreshed net mp w)) = 50 /\
  _attr_muted (attr (refreshed net mp w)) = false.
Proof.
  intros Hc Hs Ht Hl.
  apply (refreshed_volume net mp w d st' (NInt 256) 50 Hc Hs Ht).
  - unfold get_or. rewrite Hl. reflexivity.
  - vm_compute. reflexivity.
Qed.

Lemma absent_volume_is_half_scale_witness :
  let doc := [("state", VStr "paused"); ("time", VInt 12)] in
  _attr_volume (attr (refreshed (answering (VDict doc)) den_player [])) = 50 /\
  _attr_muted (attr (refreshed (answering (VDict doc)) den_player []))
  = false.
Proof.
  exact (absent_volume_is_half_scale
           (answering (VDict [("state", VStr "paused"); ("time", VInt 12)]))
           den_player []
           [("state", VStr "paused"); ("time", VInt 12)]
           (den_client,
            [{| url := "http://192.168.1.20:8080/requests/status.json";
                authorization := ":secret" |}])
           eq_refl eq_refl eq_refl eq_refl).
Defined.

(** ** The client: mute, unmute and the connectivity flag *)

Lemma get_status_connected (net : oracle) (c : client.VLCClient) (w : World) :
  client._is_connected c = true ->
  exists v,
    client.get_status net (c, w) = (Ok v, (c, (w ++ [status_request c])%list)).
Proof.
  intros Hc. unfold_client. cbn. rewrite Hc. cbn.
  unfold status_request.
  repeat (client_case; cbn); eauto.
Qed.

(** The remembered volume does not enter the URL of a command. *)
Lemma send_volume_stored (net : oracle) (c : client.VLCClient) (n : num)
  (w : World) (val : string) :
  client._is_connected c = true ->
  exists ok,
    client.send_command net "volume" [("val", client.PStr val)]
      (client.set_stored_volume n c, w) =
    (Ok ok, (client.set_stored_volume n c, (w ++ [volume_request c val])%list)).
Proof.
  intros Hc.
  destruct (send_command_connected net (client.set_stored_volume n c) w
              "volume" [("val", client.PStr val)] Hc) as (ok & E).
  exists ok. exact E.
Qed.

(** C3, as the code has it.  On a connected client whose status query
    returns a document with a native volume above 0, mute followed by unmute
    issues the status query, the command [volume val=0] and then the command
    [volume val=<the volume observed at mute time>].  When the volume
    observed is 0, mute issues no command and returns [False]. *)
Theorem mute_then_unmute (net : oracle) (c : client.VLCClient) (w : World)
  (d : list (string * value)) (n : num) :
  client._is_connected c = true ->
  fst (client.get_status net (c, w)) = Ok (VDict d) ->
  truthy (VDict d) = true ->
  as_number (get_or "volume" (VInt 256) d) = Ok n ->
  (0 < int_of_num n ->
   exists ok,
     (client.mute net ;;; client.unmute net) (c, w) =
     (Ok ok,
      (client.set_stored_volume n c,
       (w ++ [status_request c; volume_request c "0";
              volume_request c (str_of_num n)])%list))) /\
  (int_of_num n = 0 ->
   client.mute net (c, w) =
   (Ok false, (c, (w ++ [status_request c])%list))).
Proof.
  intros Hc Hs Ht Hn.
  destruct (get_status_connected net c w Hc) as (v & E).
  rewrite E in Hs. cbn in Hs. injection Hs as ->.
  split.
  - intros Hpos.
    destruct (send_volume_stored net c n (w ++ [status_request c])%list "0" Hc)
      as (ok1 & E1).
    destruct (send_volume_stored net c n
                ((w ++ [status_request c]) ++ [volume_request c "0"])%list
                (str_of_num n) Hc) as (ok2 & E2).
    exists ok2.
    unfold client.mute, client.unmute.
    unfold bind at 1 2. rewrite E, Ht.
    unfold bind at 1, lift at 1. cbn [method_get].
    unfold bind at 1, lift at 1. rewrite Hn.
    apply Z.ltb_lt in Hpos. rewrite Hpos.
    unfold bind at 1, modify at 1. cbn [fst snd].
    rewrite E1. cbv beta iota.
    unfold bind at 1, client.self at 1.
    cbn [fst snd client._stored_volume client.set_stored_volume].
    refine (eq_trans E2 _). repeat rewrite <- app_assoc. reflexivity.
  - intros Hz.
    unfold client.mute.
    unfold bind at 1. rewrite E, Ht.
    unfold bind at 1, lift at 1. cbn [method_get].
    unfold bind at 1, lift at 1. rewrite Hn, Hz. reflexivity.
Qed.

Lemma mute_then_unmute_witness :
  (exists ok,
      (client.mute (answering example_status) ;;;
       client.unmute (answering example_status)) (den_client, []) =
      (Ok ok,
       (client.set_stored_volume (NInt 384) den_client,
        [status_request den_client; volume_request den_client "0";
         volume_request den_client "384"]))) /\
  client.mute (answering (VDict [("volume", VInt 0)])) (den_client, []) =
  (Ok false, (den_client, [status_request den_client])).
Proof.
  split.
  - destruct (mute_then_unmute (answering example_status) den_client []
                [("state", VStr "playing"); ("volume", VInt 384);
                 ("random", VBool true); ("loop", VBool false);
                 ("repeat", VBool true)]
                (NInt 384) eq_refl eq_refl eq_refl eq_refl) as [H _].
    apply H. reflexivity.
  - destruct (mute_then_unmute (answering (VDict [("volume", VInt 0)]))
                den_client [] [("volume", VInt 0)] (NInt 0)
                eq_refl eq_refl eq_refl eq_refl) as [_ H].
    apply H. reflexivity.
Defined.

(** C3 as stated fails: with the device at volume 0, [mute] sends nothing
    and its result is [False], not success. *)
Lemma mute_at_zero_reports_failure :
  let net := answering (VDict [("state", VStr "playing"); ("volume", VInt 0)]) in
  client._is_connected den_client = true /\
  client.mute net (den_client, []) =
  (Ok false, (den_client, [status_request den_client])) /\
  fst (client.mute net (den_client, [])) <> Ok true.
Proof.
  cbv zeta. split; [reflexivity|]. split; [reflexivity|].
  vm_compute. discriminate.
Qed.

(** C9, as the code has it.  No status query changes the client, whether it
    fails or not; a probe that fails leaves the client as it was, so a
    client just constructed stays disconnected and a client that was
    connected stays marked connected; a probe that succeeds sets the flag;
    [disconnect] clears it; and the commands leave it alone. *)
Theorem connectivity_flag_changes (net : oracle) (c : client.VLCClient)
  (w : World) :
  fst (snd (client.get_status net (c, w))) = c /\
  (fst (client.connect net (c, w)) = Ok false ->
   fst (snd (client.connect net (c, w))) = c) /\
  (fst (client.connect net (c, w)) = Ok true ->
   fst (snd (client.connect net (c, w))) = client.set_is_connected true c) /\
  (forall host port password,
      client.__init__ host port password = Ok c ->
      fst (client.connect net (c, w)) = Ok false ->
      client._is_connected (fst (snd (client.connect net (c, w)))) = false) /\
  client._is_connected (fst (snd (client.disconnect (c, w)))) = false /\
  (forall command params,
      fst (snd (client.send_command net command params (c, w))) = c) /\
  client._is_connected (fst (snd (client.mute net (c, w))))
  = client._is_connected c /\
  fst (snd (client.unmute net (c, w))) = c.
Proof.
  split.
  { destruct (get_status_frame net c w) as (v & w' & E). rewrite E.
    reflexivity. }
  assert (Hfail : fst (client.connect net (c, w)) = Ok false ->
                  fst (snd (client.connect net (c, w))) = c).
  { unfold_client. cbn.
    repeat (client_case; cbn; try discriminate); reflexivity. }
  split; [exact Hfail|].
  split.
  { unfold_client. cbn.
    repeat (client_case; cbn; try discriminate); reflexivity. }
  split.
  { intros host port password Hinit Hf. rewrite (Hfail Hf).
    unfold client.__init__ in Hinit.
    destruct (is_ascii _); [|discriminate].
    injection Hinit as <-. reflexivity. }
  split; [reflexivity|].
  split.
  { intros command params. unfold_client. cbn.
    repeat (client_case; cbn); reflexivity. }
  split.
  { unfold_client. cbn. unfold method_get, as_number.
    repeat (client_case; cbn); reflexivity. }
  unfold_client. cbn.
  repeat (client_case; cbn); reflexivity.
Qed.

Lemma connectivity_flag_changes_witness :
  client.__init__ "192.168.1.20" 8080 "secret"
  = Ok (client.set_is_connected false den_client) /\
  client._is_connected
    (fst (snd (client.connect unreachable
                 (client.set_is_connected false den_client, []))))
  = false /\
  fst (snd (client.connect unreachable (den_client, []))) = den_client /\
  client._is_connected
    (fst (snd (client.connect (answering example_status)
                 (client.set_is_connected false den_client, [])))) = true.
Proof.
  destruct (connectivity_flag_changes unreachable
              (client.set_is_connected false den_client) [])
    as (_ & _ & _ & Hfresh & _).
  destruct (connectivity_flag_changes unreachable den_client [])
    as (_ & Hfail & _).
  destruct (connectivity_flag_changes (answering example_status)
              (client.set_is_connected false den_client) [])
    as (_ & _ & Hok & _).
  split; [reflexivity|].
  split; [exact (Hfresh "192.168.1.20" 8080 "secret" eq_refl eq_refl)|].
  split.
  - apply Hfail. reflexivity.
  - exact (f_equal client._is_connected (Hok eq_refl)).
Defined.

(** C9 as stated fails: a probe that fails on a client marked connected
    leaves it marked connected. *)
Lemma failed_probe_keeps_flag :
  fst (client.connect unreachable (den_client, [])) = Ok false /\
  client._is_connected den_client = true /\
  client._is_connected (fst (snd (client.connect unreachable (den_client, []))))
  = true /\
  client._is_connected (fst (snd (client.connect unreachable (den_client, []))))
  <> false.
Proof.
  repeat split; try reflexivity. vm_compute. discriminate.
Qed.

(** ** The driver: one pass of [_initialize_entities] *)

Lemma connect_eq (net : oracle) (c : client.VLCClient) (w : World) :
  client.connect net (c, w) =
  (Ok (probe_ok (net (List.length w) (status_request c))),
   (if probe_ok (net (List.length w) (status_request c))
    then client.set_is_connected true c else c,
    (w ++ [status_request c])%list)).
Proof.
  unfold_client. cbn. unfold status_request, probe_ok.
  destruct (net _ _) as [status [b|]|]; cbn;
    try destruct (status =? 200); reflexivity.
Qed.

Lemma initialize_device_eq (net : oracle) (device_id : string)
  (device_config : config.DeviceRecord) (s : Session) (w : World) :
  initialize_device net (device_id, device_config) (s, w) =
  match client.__init__ (config.host device_config)
          (config.port device_config) (config.password device_config) with
  | Raise _ => (Ok tt, (s, w))
  | Ok c0 =>
      if probe_ok (net (List.length w) (status_request c0))
      then (Ok tt, (register device_id device_config
                      (client.set_is_connected true c0) s,
                    (w ++ [status_request c0])%list))
      else (Ok tt, (s, (w ++ [status_request c0])%list))
  end.
Proof.
  unfold initialize_device, try_except, on_object, update, modify, lift.
  unfold bind at 1 2. cbn [fst snd].
  destruct (client.__init__ _ _ _) as [c0|e]; [|reflexivity].
  rewrite connect_eq.
  destruct (probe_ok _); reflexivity.
Qed.

Lemma init_constructible (item : string * config.DeviceRecord) :
  constructible item = true ->
  exists c0,
    client.__init__ (config.host (snd item)) (config.port (snd item))
      (config.password (snd item)) = Ok c0.
Proof.
  unfold constructible, client.__init__. intros ->. eauto.
Qed.

Lemma init_not_constructible (item : string * config.DeviceRecord) :
  constructible item = false ->
  client.__init__ (config.host (snd item)) (config.port (snd item))
    (config.password (snd item)) = Raise UnicodeEncodeError.
Proof.
  unfold constructible, client.__init__. intros ->. reflexivity.
Qed.

Lemma nonempty_setitem {V : Type} (k : string) (v : V)
  (d : list (string * V)) :
  nonempty_dict (setitem k v d) = true.
Proof.
  destruct d as [|[k' v'] d]; cbn; [reflexivity|].
  destruct (String.eqb k k'); reflexivity.
Qed.

(** The body of the loop never raises, so the loop goes on to the next
    device. *)
Lemma initialize_devices_cons (net : oracle)
  (item : string * config.DeviceRecord)
  (rest : list (string * config.DeviceRecord)) (st : St) :
  initialize_devices net (item :: rest) st =
  initialize_devices net rest (snd (initialize_device net item st)).
Proof.
  destruct st as [s w], item as [device_id device_config].
  cbn [initialize_devices]. unfold bind.
  rewrite initialize_device_eq.
  destruct (client.__init__ _ _ _); [|reflexivity].
  destruct (probe_ok _); reflexivity.
Qed.

Lemma initialize_devices_spec (net : oracle)
  (devices : list (string * config.DeviceRecord)) :
  forall s w,
    fst (initialize_devices net devices (s, w)) = Ok tt /\
    loop_result net devices s w
      (fst (snd (initialize_devices net devices (s, w))))
      (snd (snd (initialize_devices net devices (s, w)))).
Proof.
  induction devices as [|[device_id device_config] rest IH]; intros s w.
  - cbn. split; [reflexivity|].
    constructor; try reflexivity.
    exists []. rewrite app_nil_r, orb_false_r. repeat split.
  - rewrite initialize_devices_cons, initialize_device_eq.
    destruct (constructible (device_id, device_config)) eqn:Hk.
    + destruct (init_constructible _ Hk) as (c0 & E). cbn [snd] in E.
      rewrite E.
      destruct (probe_ok (net (List.length w) (status_request c0))) eqn:Hp;
        cbn [snd].
      * destruct (IH (register device_id device_config
                        (client.set_is_connected true c0) s)
                    (w ++ [status_request c0])%list) as [Hr [? ? ? ? ? Hx]].
        split; [exact Hr|].
        constructor; try assumption.
        destruct Hx as (ext & Hw & Hl & Hn).
        exists (status_request c0 :: ext).
        split; [refine (eq_trans Hw _); rewrite <- app_assoc; reflexivity|].
        cbn [filter]. rewrite Hk. cbn [List.length]. split; [lia|].
        refine (eq_trans Hn _). cbn [some_probe_ok]. rewrite Hp.
        unfold register. cbn [media_players with_available_entities
          with_media_players with_clients].
        rewrite nonempty_setitem. cbn. rewrite orb_true_r. reflexivity.
      * destruct (IH s (w ++ [status_request c0])%list)
          as [Hr [? ? ? ? ? Hx]].
        split; [exact Hr|].
        constructor; try assumption.
        destruct Hx as (ext & Hw & Hl & Hn).
        exists (status_request c0 :: ext).
        split; [refine (eq_trans Hw _); rewrite <- app_assoc; reflexivity|].
        cbn [filter]. rewrite Hk. cbn [List.length]. split; [lia|].
        refine (eq_trans Hn _). cbn [some_probe_ok]. rewrite Hp.
        rewrite length_app. cbn [List.length orb].
        replace (List.length w + 1)%nat with (S (List.length w)) by lia.
        reflexivity.
    + pose proof (init_not_constructible _ Hk) as E. cbn [snd] in E.
      rewrite E. cbn [snd].
      destruct (IH s w) as [Hr [? ? ? ? ? Hx]].
      split; [exact Hr|].
      constructor; try assumption.
      destruct Hx as (ext & Hw & Hl & Hn).
      exists ext. split; [exact Hw|].
      cbn [filter]. rewrite Hk. split; [exact Hl|exact Hn].
Qed.

Lemma finish_eq (s : Session) (w : World) :
  finish (s, w) =
  (Ok tt,
   (if nonempty_dict (media_players s)
    then with_device_state CONNECTED (with_entities_ready true s)
    else with_device_state ERROR s, w)).
Proof.
  unfold finish, session, set_device_state, update, modify, bind. cbn.
  destruct (media_players s); reflexivity.
Qed.

Lemma enter_eq (s : Session) (w : World) :
  enter (s, w) =
  if entities_ready s then (Ok None, (s, w))
  else
    match config.get_all_devices (config s) with
    | [] => (Ok None, (with_device_state DISCONNECTED s, w))
    | item :: rest => (Ok (Some (item :: rest)), (cleared s, w))
    end.
Proof.
  unfold enter, session, set_device_state, update, modify, bind, ret. cbn.
  destruct (entities_ready s); [reflexivity|].
  destruct (config.get_all_devices (config s)); reflexivity.
Qed.

Lemma initialize_entities_body (net : oracle) (st : St) :
  _initialize_entities net st = async_with_lock (body net) st.
Proof. reflexivity. Qed.

(** The loop and what follows it never raise: the outer handler of
    [_initialize_entities] is not reached. *)
Lemma protected_loop_eq (net : oracle)
  (devices : list (string * config.DeviceRecord)) (st : St) :
  try_except (initialize_devices net devices ;;; finish)
    (fun _ => set_device_state ERROR) st =
  (Ok tt, snd (finish (snd (initialize_devices net devices st)))).
Proof.
  destruct st as [s w].
  destruct (initialize_devices_spec net devices s w) as [Hr _].
  unfold try_except, bind.
  destruct (initialize_devices net devices (s, w)) as [r [s1 w1]].
  cbn in Hr. subst r. cbn [snd].
  rewrite finish_eq. reflexivity.
Qed.

Lemma body_eq (net : oracle) (s : Session) (w : World) :
  body net (s, w) =
  if entities_ready s then (Ok tt, (s, w))
  else
    match config.get_all_devices (config s) with
    | [] => (Ok tt, (with_device_state DISCONNECTED s, w))
    | item :: rest =>
        (Ok tt,
         snd (finish (snd (initialize_devices net (item :: rest)
                             (cleared s, w)))))
    end.
Proof.
  unfold body. unfold bind at 1. rewrite enter_eq.
  destruct (entities_ready s); [reflexivity|].
  destruct (config.get_all_devices (config s)); [reflexivity|].
  apply protected_loop_eq.
Qed.

(** C2. A pass of [_initialize_entities] over a non-empty registry, entered
    with the session not ready, probes every device whose client can be
    constructed, one after the other whatever the earlier probes gave; at
    its end the session is ready and reports CONNECTED exactly when one of
    these probes succeeded, which is exactly when an adapter was created;
    when every probe failed the session reports ERROR and the readiness flag
    stays unset. *)
Theorem ready_iff_some_probe_succeeded (net : oracle) (s : Session)
  (w : World) :
  entities_ready s = false ->
  config.get_all_devices (config s) <> [] ->
  let s' := fst (snd (_initialize_entities net (s, w))) in
  let w' := snd (snd (_initialize_entities net (s, w))) in
  fst (_initialize_entities net (s, w)) = Ok tt /\
  exists ext,
    w' = (w ++ ext)%list /\
    List.length ext =
    List.length (filter constructible (config.get_all_devices (config s))) /\
    let succeeded := some_probe_ok net (List.length w) ext in
    nonempty_dict (media_players s') = succeeded /\
    entities_ready s' = succeeded /\
    device_state s' = (if succeeded then CONNECTED else ERROR).
Proof.
  intros Hready Hdev. cbv zeta.
  rewrite initialize_entities_body. unfold async_with_lock. cbn [fst snd].
  rewrite body_eq. cbn [entities_ready with_initialization_lock config].
  rewrite Hready.
  destruct (config.get_all_devices (config s)) as [|item rest] eqn:Hd;
    [contradiction|].
  destruct (initialize_devices_spec net (item :: rest)
              (cleared (with_initialization_lock true s)) w)
    as [_ [Hcfg Hst Hrd Hlk Hrb (ext & Hw & Hl & Hn)]].
  destruct (initialize_devices net (item :: rest)
              (cleared (with_initialization_lock true s), w))
    as [r [s1 w1]].
  cbn [fst snd] in *.
  rewrite finish_eq. cbn [fst snd].
  split; [reflexivity|].
  exists ext. split; [exact Hw|]. split; [exact Hl|].
  cbn in Hn, Hrd.
  rewrite Hn.
  destruct (some_probe_ok net (List.length w) ext) eqn:Hs; cbn.
  - rewrite Hn. repeat split.
  - split; [exact Hn|]. split; [congruence|reflexivity].
Qed.

Lemma ready_iff_some_probe_succeeded_witness :
  entities_ready (loaded two_devices) = false /\
  config.get_all_devices (config (loaded two_devices)) <> [] /\
  let s' := fst (snd (_initialize_entities first_fails
                        (loaded two_devices, []))) in
  let w' := snd (snd (_initialize_entities first_fails
                        (loaded two_devices, []))) in
  fst (_initialize_entities first_fails (loaded two_devices, [])) = Ok tt /\
  exists ext,
    w' = ([] ++ ext)%list /\
    List.length ext =
    List.length (filter constructible
                   (config.get_all_devices (config (loaded two_devices)))) /\
    let succeeded := some_probe_ok first_fails (List.length (@nil request)) ext in
    nonempty_dict (media_players s') = succeeded /\
    entities_ready s' = succeeded /\
    device_state s' = (if succeeded then CONNECTED else ERROR).
Proof.
  split; [reflexivity|]. split; [discriminate|].
  apply (ready_iff_some_probe_succeeded first_fails (loaded two_devices) []).
  - reflexivity.
  - discriminate.
Defined.

(** ** The driver: two triggers *)

Lemma initialize_device_lock (net : oracle)
  (item : string * config.DeviceRecord) (st : St) :
  initialization_lock (fst (snd (initialize_device net item st)))
  = initialization_lock (fst st).
Proof.
  destruct st as [s w], item as [device_id device_config].
  rewrite initialize_device_eq.
  destruct (client.__init__ _ _ _); [|reflexivity].
  destruct (probe_ok _); reflexivity.
Qed.

(** One move keeps the outcome of running the task to its end. *)
Lemma step_complete (net : oracle) (p : pc) (st : St) :
  (p = AtLock -> initialization_lock (fst st) = false) ->
  complete net (fst (step net p st)) (snd (step net p st))
  = complete net p st.
Proof.
  intros Hfree. destruct p as [| |rest|]; cbn [step].
  - rewrite (Hfree eq_refl). cbn [fst snd complete].
    rewrite initialize_entities_body. unfold async_with_lock, acquire.
    destruct (body net _) as [r st']. reflexivity.
  - destruct st as [s w]. cbn [complete].
    rewrite body_eq, enter_eq.
    destruct (entities_ready s); [reflexivity|].
    destruct (config.get_all_devices (config s)); reflexivity.
  - destruct rest as [|item rest]; cbn [fst snd complete].
    + reflexivity.
    + rewrite initialize_devices_cons. reflexivity.
  - reflexivity.
Qed.

(** One move of a task that holds the lock keeps it held until the task
    returns, which frees it. *)
Lemma step_lock (net : oracle) (p : pc) (st : St) :
  holds_lock p = true ->
  initialization_lock (fst st) = true ->
  initialization_lock (fst (snd (step net p st)))
  = holds_lock (fst (step net p st)).
Proof.
  intros Hp Hl. destruct p as [| |rest|]; try discriminate; cbn [step].
  - destruct st as [s w]. rewrite enter_eq. cbn [fst] in Hl.
    destruct (entities_ready s); [reflexivity|].
    destruct (config.get_all_devices (config s)); [reflexivity|].
    cbn. exact Hl.
  - destruct rest as [|item rest]; cbn [fst snd holds_lock].
    + reflexivity.
    + rewrite initialize_device_lock. exact Hl.
Qed.

Lemma step_leaves_by_return (net : oracle) (p : pc) (st : St) :
  holds_lock p = true ->
  holds_lock (fst (step net p st)) = false ->
  fst (step net p st) = Returned.
Proof.
  destruct p as [| |rest|]; try discriminate; cbn [step]; intros _.
  - destruct (enter st) as [[[devices|]|e] st']; cbn;
      try discriminate; reflexivity.
  - destruct rest; cbn; try discriminate; reflexivity.
Qed.

Lemma step_waits (net : oracle) (st : St) :
  initialization_lock (fst st) = true -> step net AtLock st = (AtLock, st).
Proof. intros H. cbn. rewrite H. reflexivity. Qed.

Lemma step_acquires (net : oracle) (st : St) :
  initialization_lock (fst st) = false ->
  step net AtLock st = (Entered, acquire st).
Proof. intros H. cbn. rewrite H. reflexivity. Qed.

Lemma not_holding (p : pc) :
  holds_lock p = false -> p = AtLock \/ p = Returned.
Proof. destruct p; try discriminate; auto. Qed.

(** Every move keeps the exclusion and the outcome. *)
Lemma move_invariant (net : oracle) (t : task) (sys : System) :
  exclusive sys ->
  exclusive (move net t sys) /\ outcome net (move net t sys) = outcome net sys.
Proof.
  destruct sys as [p1 p2 st]. unfold exclusive, outcome.
  cbn [first second shared].
  intros [Hlock Hex].
  destruct t; cbn [move first second shared].
  - (* the first task moves *)
    destruct (holds_lock p1) eqn:H1.
    + (* it holds the lock *)
      cbn [andb] in Hex. cbn [orb] in Hlock.
      pose proof (step_lock net p1 st H1 Hlock) as Hl.
      pose proof (step_complete net p1 st) as Hc.
      destruct (step net p1 st) as [p1' st'].
      cbn [fst snd first second shared] in *.
      rewrite Hex, Hl, orb_false_r, andb_false_r.
      split; [split; reflexivity|].
      rewrite Hc; [reflexivity|].
      intros ->. discriminate.
    + destruct (not_holding p1 H1) as [-> | ->].
      * (* it is at the lock *)
        destruct (initialization_lock (fst st)) eqn:Hl.
        -- rewrite (step_waits net st Hl). cbn [first second shared].
           rewrite Hl. split; [split; assumption|reflexivity].
        -- pose proof (step_complete net AtLock st (fun _ => Hl)) as Hc.
           rewrite (step_acquires net st Hl) in *.
           cbn [fst snd first second shared holds_lock orb andb] in *.
           rewrite <- Hlock.
           split; [split; reflexivity|].
           rewrite Hc. reflexivity.
      * (* it has returned *)
        cbn [step first second shared].
        split; [split; assumption|reflexivity].
  - (* the second task moves *)
    destruct (holds_lock p2) eqn:H2.
    + (* it holds the lock *)
      rewrite andb_true_r in Hex. rewrite Hex in *. cbn [orb] in Hlock.
      pose proof (step_lock net p2 st H2 Hlock) as Hl.
      pose proof (step_complete net p2 st) as Hc.
      pose proof (step_leaves_by_return net p2 st H2) as Hret.
      destruct (step net p2 st) as [p2' st'].
      cbn [fst snd first second shared] in *.
      rewrite Hex, Hl. cbn [orb andb].
      split; [split; reflexivity|].
      destruct (holds_lock p2') eqn:H2'.
      * rewrite Hc; [reflexivity|]. intros ->. discriminate.
      * rewrite (Hret eq_refl) in *. cbn [complete] in *.
        rewrite Hc; [reflexivity|]. intros ->. discriminate.
    + destruct (not_holding p2 H2) as [-> | ->].
      * (* it is at the lock *)
        destruct (initialization_lock (fst st)) eqn:Hl.
        -- rewrite (step_waits net st Hl). cbn [first second shared].
           rewrite Hl. cbn [holds_lock].
           split; [split; assumption|reflexivity].
        -- pose proof (step_complete net AtLock st (fun _ => Hl)) as Hc.
           rewrite (step_acquires net st Hl) in *.
           cbn [fst snd first second shared holds_lock] in *.
           rewrite orb_false_r in Hlock. symmetry in Hlock.
           rewrite Hlock. cbn [orb andb].
           split; [split; reflexivity|].
           rewrite Hc.
           destruct (not_holding p1 Hlock) as [-> | ->]; reflexivity.
      * (* it has returned *)
        cbn [step first second shared holds_lock].
        split; [split; assumption|reflexivity].
Qed.

Lemma run_invariant (net : oracle) (schedule : list task) :
  forall sys,
    exclusive sys ->
    exclusive (run net schedule sys) /\
    outcome net (run net schedule sys) = outcome net sys.
Proof.
  induction schedule as [|t schedule IH]; intros sys Hsys.
  - split; [exact Hsys|reflexivity].
  - cbn [run fold_left].
    destruct (move_invariant net t sys Hsys) as [Hex Hout].
    destruct (IH (move net t sys) Hex) as [Hex' Hout'].
    split; [exact Hex'|].
    unfold run in Hout'. rewrite Hout'. exact Hout.
Qed.

(** A pass entered with the session ready changes nothing. *)
Lemma pass_when_ready (net : oracle) (st : St) :
  entities_ready (fst st) = true ->
  initialization_lock (fst st) = false ->
  snd (_initialize_entities net st) = st.
Proof.
  destruct st as [s w]. cbn [fst]. intros Hr Hl.
  rewrite initialize_entities_body. unfold async_with_lock. cbn [fst snd].
  rewrite body_eq. cbn [entities_ready with_initialization_lock].
  rewrite Hr. cbn [fst snd].
  destruct s. cbn in *. subst. reflexivity.
Qed.

(** What a pass does to the registry on disk, to the lock and to the number
    of rebuilds. *)
Lemma pass_frame (net : oracle) (s : Session) (w : World) :
  let s' := fst (snd (_initialize_entities net (s, w))) in
  config s' = config s /\
  initialization_lock s' = false /\
  rebuilds s' =
  if entities_ready s then rebuilds s
  else
    match config.get_all_devices (config s) with
    | [] => rebuilds s
    | _ :: _ => S (rebuilds s)
    end.
Proof.
  cbv zeta.
  rewrite initialize_entities_body. unfold async_with_lock. cbn [fst snd].
  rewrite body_eq. cbn [entities_ready with_initialization_lock config].
  destruct (entities_ready s); [repeat split|].
  destruct (config.get_all_devices (config s)) as [|item rest];
    [repeat split|].
  destruct (initialize_devices_spec net (item :: rest)
              (cleared (with_initialization_lock true s)) w)
    as [_ [Hcfg Hst Hrd Hlk Hrb _]].
  destruct (initialize_devices net (item :: rest)
              (cleared (with_initialization_lock true s), w))
    as [r [s1 w1]].
  cbn [fst snd] in *. rewrite finish_eq. cbn [fst snd].
  cbn in Hcfg, Hrb.
  destruct (nonempty_dict (media_players s1)); cbn; auto.
Qed.

(** C1, as the code has it.  Two tasks that invoke [_initialize_entities]
    and interleave at its suspension points are never both under the lock,
    and once both have returned the session is the one that two passes run
    one after the other leave.  When the first pass ends ready, the second
    changes nothing and the registry was rebuilt exactly once; when the
    first pass creates no adapter, the readiness flag stays unset and the
    second pass rebuilds the registry again. *)
Theorem two_triggers_run_in_turn (net : oracle) (st : St)
  (schedule : list task) :
  initialization_lock (fst st) = false ->
  let sys := run net schedule (start st) in
  let once := snd (_initialize_entities net st) in
  exclusive sys /\
  (returned (first sys) = true ->
   returned (second sys) = true ->
   shared sys = snd (_initialize_entities net once) /\
   (entities_ready (fst st) = false ->
    (entities_ready (fst once) = true ->
     shared sys = once /\
     rebuilds (fst (shared sys)) = S (rebuilds (fst st))) /\
    (entities_ready (fst once) = false ->
     config.get_all_devices (config (fst st)) <> [] ->
     rebuilds (fst (shared sys)) = S (S (rebuilds (fst st)))))).
Proof.
  intros Hfree. cbv zeta.
  assert (Hstart : exclusive (start st)).
  { unfold exclusive, start. cbn. auto. }
  destruct (run_invariant net schedule (start st) Hstart) as [Hex Hout].
  split; [exact Hex|].
  intros R1 R2.
  destruct (run net schedule (start st)) as [p1 p2 final].
  cbn [first second shared] in *.
  destruct p1; try discriminate. destruct p2; try discriminate.
  unfold outcome in Hout. cbn in Hout.
  split; [exact Hout|].
  intros Hnot.
  destruct st as [s w]. cbn [fst] in *.
  destruct (pass_frame net s w) as (Hcfg & Hlk & Hrb).
  cbv zeta in Hcfg, Hlk, Hrb. rewrite Hnot in Hrb.
  remember (snd (_initialize_entities net (s, w))) as once eqn:Ho.
  destruct once as [s1 w1]. cbn [fst snd] in *.
  split.
  - intros Hready.
    rewrite (pass_when_ready net (s1, w1) Hready Hlk) in Hout.
    split; [exact Hout|].
    rewrite Hout. cbn [fst].
    destruct (config.get_all_devices (config s)) as [|item rest] eqn:Hd;
      [|exact Hrb].
    exfalso.
    assert (X : entities_ready
                  (fst (snd (_initialize_entities net (s, w)))) = false).
    { rewrite initialize_entities_body. unfold async_with_lock.
      cbn [fst snd]. rewrite body_eq.
      cbn [entities_ready with_initialization_lock config].
      rewrite Hnot, Hd. cbn. exact Hnot. }
    rewrite <- Ho in X. cbn [fst] in X. congruence.
  - intros Hstill Hdev.
    destruct (pass_frame net s1 w1) as (_ & _ & Hrb2).
    cbv zeta in Hrb2. rewrite <- Hout in Hrb2. rewrite Hrb2.
    rewrite Hstill, Hcfg.
    destruct (config.get_all_devices (config s)); [contradiction|].
    rewrite Hrb. reflexivity.
Qed.

Lemma two_triggers_run_in_turn_witness :
  let net := answering example_status in
  let st := (loaded two_devices, @nil request) in
  let schedule :=
    [First; Second; First; Second; First; First; First; Second; Second] in
  let sys := run net schedule (start st) in
  initialization_lock (fst st) = false /\
  exclusive sys /\
  returned (first sys) = true /\
  returned (second sys) = true /\
  shared sys = snd (_initialize_entities net st) /\
  rebuilds (fst (shared sys)) = 1%nat.
Proof.
  cbv zeta.
  destruct (two_triggers_run_in_turn (answering example_status)
              (loaded two_devices, [])
              [First; Second; First; Second; First; First; First; Second;
               Second] eq_refl) as [Hex H].
  destruct (H eq_refl eq_refl) as [_ H2].
  destruct (H2 eq_refl) as [Hready _].
  destruct (Hready eq_refl) as [Hsame Hcount].
  split; [reflexivity|]. split; [exact Hex|].
  split; [reflexivity|]. split; [reflexivity|].
  split; [exact Hsame|exact Hcount].
Defined.

(** C1 as stated fails: with every device unreachable, both triggers return
    having rebuilt the registry, two rebuilds and two probes of each device,
    and the second invocation never saw the readiness flag set. *)
Lemma both_triggers_rebuild_when_probes_fail :
  let st := (loaded two_devices, @nil request) in
  let schedule :=
    [First; Second; First; First; First; First;
     Second; Second; Second; Second; Second] in
  let sys := run unreachable schedule (start st) in
  entities_ready (fst st) = false /\
  initialization_lock (fst st) = false /\
  returned (first sys) = true /\
  returned (second sys) = true /\
  entities_ready (fst (shared sys)) = false /\
  rebuilds (fst (shared sys)) = 2%nat /\
  rebuilds (fst (shared sys)) <> 1%nat /\
  List.length (snd (shared sys)) = 4%nat.
Proof.
  cbv zeta. repeat split; try reflexivity. vm_compute. discriminate.
Qed.

(** ** The driver: setup *)

Lemma pass_ok (net : oracle) (st : St) :
  fst (_initialize_entities net st) = Ok tt.
Proof.
  destruct st as [s w].
  rewrite initialize_entities_body. unfold async_with_lock. cbn [fst snd].
  rewrite body_eq.
  destruct (entities_ready _); [reflexivity|].
  destruct (config.get_all_devices _); reflexivity.
Qed.

(** The handler once the port has been read, the fields are present and the
    test client is constructed. *)
Lemma setup_handler_probe (net : oracle) (md5_hex8 : string -> string)
  (reconfigure : bool) (setup_data : list (string * string)) (s : Session)
  (w : World) (port : Z) (c0 : client.VLCClient) :
  let host := strip (get_or "host" "" setup_data) in
  let password := strip (get_or "password" "" setup_data) in
  let device_name := strip (get_or "device_name" "" setup_data) in
  requested_port setup_data = Ok port ->
  nonempty host && nonempty password && nonempty device_name = true ->
  client.__init__ host port password = Ok c0 ->
  setup_handler net md5_hex8 (DriverSetupRequest reconfigure setup_data) (s, w)
  = if probe_ok (net (List.length w) (status_request c0))
    then
      (Ok SetupComplete,
       snd (_initialize_entities net
              (with_entities_ready false
                 (with_config
                    (config.add_device
                       (md5_hex8 (host ++ ":" ++ str_of_int port))
                       host port password device_name (config s)) s),
               (w ++ [status_request c0])%list)))
    else (Ok (SetupError CONNECTION_REFUSED),
          (s, (w ++ [status_request c0])%list)).
Proof.
  cbv zeta. unfold requested_port. intros Hport Hfields Hinit.
  unfold setup_handler. unfold bind at 1, lift at 1.
  rewrite Hport, Hfields. cbn [negb].
  unfold try_except. unfold bind at 1, lift at 1. rewrite Hinit.
  unfold bind at 1, on_object at 1. cbn [fst snd].
  rewrite connect_eq.
  destruct (probe_ok (net (List.length w) (status_request c0))).
  - cbn [negb].
    set (target := snd (_initialize_entities net _)).
    unfold update, on_object, client.disconnect, bind, ret.
    cbv beta iota zeta delta [modify fst snd].
    match goal with
    | |- context [_initialize_entities net ?st] =>
        pose proof (pass_ok net st) as Hok;
        destruct (_initialize_entities net st) as [r st'] eqn:E
    end.
    cbn in Hok. subst r. f_equal.
    exact (eq_sym (f_equal snd E)).
  - reflexivity.
Qed.

Lemma setup_handler_bad_port (net : oracle) (md5_hex8 : string -> string)
  (reconfigure : bool) (setup_data : list (string * string)) (st : St)
  (e : exn) :
  requested_port setup_data = Raise e ->
  setup_handler net md5_hex8 (DriverSetupRequest reconfigure setup_data) st
  = (Raise e, st).
Proof.
  unfold requested_port. intros Hport.
  unfold setup_handler. unfold bind at 1, lift at 1.
  rewrite Hport. reflexivity.
Qed.

Lemma setup_handler_missing_field (net : oracle)
  (md5_hex8 : string -> string) (reconfigure : bool)
  (setup_data : list (string * string)) (st : St) (port : Z) :
  requested_port setup_data = Ok port ->
  nonempty (strip (get_or "host" "" setup_data))
  && nonempty (strip (get_or "password" "" setup_data))
  && nonempty (strip (get_or "device_name" "" setup_data)) = false ->
  setup_handler net md5_hex8 (DriverSetupRequest reconfigure setup_data) st
  = (Ok (SetupError OTHER), st).
Proof.
  unfold requested_port. intros Hport Hfields.
  unfold setup_handler. unfold bind at 1, lift at 1.
  rewrite Hport, Hfields. reflexivity.
Qed.

Lemma setup_handler_no_client (net : oracle) (md5_hex8 : string -> string)
  (reconfigure : bool) (setup_data : list (string * string)) (st : St)
  (port : Z) (e : exn) :
  requested_port setup_data = Ok port ->
  nonempty (strip (get_or "host" "" setup_data))
  && nonempty (strip (get_or "password" "" setup_data))
  && nonempty (strip (get_or "device_name" "" setup_data)) = true ->
  client.__init__ (strip (get_or "host" "" setup_data)) port
    (strip (get_or "password" "" setup_data)) = Raise e ->
  setup_handler net md5_hex8 (DriverSetupRequest reconfigure setup_data) st
  = (Ok (SetupError OTHER), st).
Proof.
  unfold requested_port. intros Hport Hfields Hinit.
  unfold setup_handler. unfold bind at 1, lift at 1.
  rewrite Hport, Hfields. cbn [negb].
  unfold try_except. unfold bind at 1, lift at 1. rewrite Hinit.
  reflexivity.
Qed.

(** What [int] makes of the port field: whitespace around the digits and
    single underscores between them are accepted; a separator that only
    [str.strip] removes is not, nor is a literal of more digits than
    [max_str_digits]. *)
Lemma requested_port_examples :
  requested_port [("port", " 8080 ")] = Ok 8080 /\
  requested_port [("port", "8_080")] = Ok 8080 /\
  requested_port [("host", "192.168.1.20")] = Ok 8080 /\
  requested_port [("port", String (ascii_of_nat 31) "8080")]
  = Raise ValueError /\
  requested_port [("port", "80 80")] = Raise ValueError /\
  requested_port [("port", "")] = Raise ValueError.
Proof. repeat split. Qed.

Lemma int_of_str_digit_limit (s : string) :
  max_str_digits < digit_count (rskip is_int_space (lskip is_int_space s)) ->
  int_of_str s = Raise ValueError.
Proof.
  intros H. unfold int_of_str.
  apply Z.ltb_lt in H. rewrite H.
  destruct (match rskip is_int_space (lskip is_int_space s) with
            | String "+" r => int_digits r 0 false
            | String "-" r => option_map Z.opp (int_digits r 0 false)
            | _ => int_digits (rskip is_int_space (lskip is_int_space s))
                     0 false
            end); reflexivity.
Qed.

(** C7. When the setup request is complete and the probe of the test client
    fails, the handler returns the setup error CONNECTION_REFUSED and the
    session, with the registry in memory and on disk, is as before: the only
    effect is the probe request.  More generally, with the lock free, the
    registry changes only when the handler returns [SetupComplete]. *)
Theorem setup_unreachable_leaves_registry (net : oracle)
  (md5_hex8 : string -> string) (s : Session) (w : World) :
  (forall reconfigure setup_data port c0,
      requested_port setup_data = Ok port ->
      nonempty (strip (get_or "host" "" setup_data))
      && nonempty (strip (get_or "password" "" setup_data))
      && nonempty (strip (get_or "device_name" "" setup_data)) = true ->
      client.__init__ (strip (get_or "host" "" setup_data)) port
        (strip (get_or "password" "" setup_data)) = Ok c0 ->
      probe_ok (net (List.length w) (status_request c0)) = false ->
      setup_handler net md5_hex8 (DriverSetupRequest reconfigure setup_data)
        (s, w)
      = (Ok (SetupError CONNECTION_REFUSED),
         (s, (w ++ [status_request c0])%list))) /\
  (initialization_lock s = false ->
   forall msg,
      fst (setup_handler net md5_hex8 msg (s, w)) <> Ok SetupComplete ->
      config (fst (snd (setup_handler net md5_hex8 msg (s, w)))) = config s).
Proof.
  split.
  - intros reconfigure setup_data port c0 Hport Hfields Hinit Hprobe.
    rewrite (setup_handler_probe net md5_hex8 reconfigure setup_data s w
               port c0 Hport Hfields Hinit).
    rewrite Hprobe. reflexivity.
  - intros _ msg.
    destruct msg as [reconfigure setup_data| | |]; try (intros _; reflexivity).
    destruct (requested_port setup_data) as [port|e] eqn:Hport.
    2:{ rewrite (setup_handler_bad_port net md5_hex8 reconfigure setup_data
                   (s, w) e Hport). reflexivity. }
    destruct (nonempty (strip (get_or "host" "" setup_data))
              && nonempty (strip (get_or "password" "" setup_data))
              && nonempty (strip (get_or "device_name" "" setup_data)))
      eqn:Hfields.
    2:{ rewrite (setup_handler_missing_field net md5_hex8 reconfigure
                   setup_data (s, w) port Hport Hfields). reflexivity. }
    destruct (client.__init__ (strip (get_or "host" "" setup_data)) port
                (strip (get_or "password" "" setup_data)))
      as [c0|e] eqn:Hinit.
    2:{ rewrite (setup_handler_no_client net md5_hex8 reconfigure setup_data
                   (s, w) port e Hport Hfields Hinit). reflexivity. }
    rewrite (setup_handler_probe net md5_hex8 reconfigure setup_data s w
               port c0 Hport Hfields Hinit).
    destruct (probe_ok _).
    + intros H. exfalso. apply H. reflexivity.
    + reflexivity.
Qed.

Lemma setup_unreachable_leaves_registry_witness :
  setup_handler unreachable (fun _ => "1a2b3c4d")
    (DriverSetupRequest false den_setup) (loaded two_devices, [])
  = (Ok (SetupError CONNECTION_REFUSED),
     (loaded two_devices,
      [status_request (client.set_is_connected false den_client)])).
Proof.
  destruct (setup_unreachable_leaves_registry unreachable
              (fun _ => "1a2b3c4d") (loaded two_devices) []) as [H _].
  exact (H false den_setup 8080 (client.set_is_connected false den_client)
           eq_refl eq_refl eq_refl eq_refl).
Defined.

(** C8 at the input where the code departs from it: a setup request whose
    port is not a number makes the handler raise [ValueError]; no setup
    error is returned. *)
Theorem setup_non_numeric_port_raises (net : oracle)
  (md5_hex8 : string -> string) (s : Session) (w : World) :
  setup_handler net md5_hex8
    (DriverSetupRequest false
       [("host", "192.168.1.20"); ("port", "abc"); ("password", "secret");
        ("device_name", "Den")])
    (s, w)
  = (Raise ValueError, (s, w)).
Proof. reflexivity. Qed.

(** *** Both triggers do return *)

Lemma run_first (net : oracle) (k : nat) :
  forall p q st,
    run net (repeat First k) {| first := p; second := q; shared := st |}
    = {| first := fst (steps net k p st); second := q;
         shared := snd (steps net k p st) |}.
Proof.
  induction k as [|k IH]; intros p q st; [reflexivity|].
  cbn [repeat run fold_left move first second shared steps].
  destruct (step net p st) as [p' st']. apply IH.
Qed.

Lemma run_second (net : oracle) (k : nat) :
  forall p q st,
    run net (repeat Second k) {| first := p; second := q; shared := st |}
    = {| first := p; second := fst (steps net k q st);
         shared := snd (steps net k q st) |}.
Proof.
  induction k as [|k IH]; intros p q st; [reflexivity|].
  cbn [repeat run fold_left move first second shared steps].
  destruct (step net q st) as [q' st']. apply IH.
Qed.

Lemma steps_return (net : oracle) (k : nat) :
  forall p st,
    (p = AtLock -> initialization_lock (fst st) = false) ->
    (moves_left p st <= k)%nat ->
    fst (steps net k p st) = Returned.
Proof.
  induction k as [|k IH]; intros p st Hfree Hk.
  - destruct p; cbn in Hk; try lia. reflexivity.
  - cbn [steps]. destruct p as [| |rest|].
    + rewrite (step_acquires net st (Hfree eq_refl)).
      apply IH; [discriminate|]. cbn in *. lia.
    + cbn [step]. destruct st as [s w]. rewrite enter_eq.
      cbn [moves_left fst] in Hk.
      destruct (entities_ready s).
      * apply IH; [discriminate|]. cbn. lia.
      * destruct (config.get_all_devices (config s)) as [|item rest].
        -- apply IH; [discriminate|]. cbn. lia.
        -- apply IH; [discriminate|]. cbn in *. lia.
    + destruct rest as [|item rest]; cbn [step].
      * apply IH; [discriminate|]. cbn. lia.
      * apply IH; [discriminate|]. cbn in *. lia.
    + cbn [step]. apply IH; [discriminate|]. cbn. lia.
Qed.

(** Letting the first trigger run and then the second brings both to their
    return. *)
Lemma both_triggers_return (net : oracle) (st : St) :
  initialization_lock (fst st) = false ->
  let n := (3 + List.length (config.get_all_devices (config (fst st))))%nat in
  let sys := run net (repeat First n ++ repeat Second n) (start st) in
  first sys = Returned /\ second sys = Returned.
Proof.
  intros Hfree. cbv zeta.
  set (n := (3 + List.length (config.get_all_devices (config (fst st))))%nat).
  unfold run. rewrite fold_left_app. fold (run net (repeat First n) (start st)).
  unfold start. rewrite run_first.
  assert (H1 : fst (steps net n AtLock st) = Returned).
  { apply steps_return; [intros _; exact Hfree|]. cbn. lia. }
  (* the first pass leaves the lock free and the registry as it was *)
  assert (Hsys : exclusive (run net (repeat First n) (start st))).
  { apply run_invariant. unfold exclusive, start. cbn. auto. }
  assert (Hout : outcome net (run net (repeat First n) (start st))
                 = outcome net (start st)).
  { apply run_invariant. unfold exclusive, start. cbn. auto. }
  unfold start in Hsys, Hout. rewrite run_first in Hsys, Hout.
  destruct (steps net n AtLock st) as [p1 st1]. cbn [fst snd] in *. subst p1.
  destruct Hsys as [Hlock _]. cbn in Hlock.
  unfold outcome in Hout. cbn [first second shared holds_lock complete] in Hout.
  fold (run net (repeat Second n)
          {| first := Returned; second := AtLock; shared := st1 |}).
  rewrite run_second. cbn [first second].
  split; [reflexivity|].
  apply steps_return; [intros _; exact Hlock|].
  cbn [moves_left].
  assert (Hcfg : config (fst st1) = config (fst st)).
  { assert (E : snd (_initialize_entities net st1)
                = snd (_initialize_entities net
                         (snd (_initialize_entities net st)))) by exact Hout.
    destruct st as [s w], st1 as [s1 w1]. cbn [fst] in *.
    destruct (pass_frame net s w) as (C1 & _).
    destruct (pass_frame net s1 w1) as (C2 & _).
    cbv zeta in C1, C2.
    remember (snd (_initialize_entities net (s, w))) as once eqn:Ho.
    destruct once as [s2 w2]. cbn [fst] in C1.
    destruct (pass_frame net s2 w2) as (C3 & _). cbv zeta in C3.
    rewrite <- E in C3. congruence. }
  rewrite Hcfg. subst n. lia.
Qed.

(* ================================================================== *)
(** * Further properties of the code *)

(** ** config.py: the device registry *)

Lemma lookup_setitem {V : Type} (k k' : string) (v : V)
  (d : list (string * V)) :
  lookup k' (setitem k v d)
  = if String.eqb k' k then Some v else lookup k' d.
Proof.
  induction d as [|[k0 v0] d IH]; cbn.
  - destruct (String.eqb_spec k' k); reflexivity.
  - destruct (String.eqb_spec k k0) as [->|Hk]; cbn.
    + destruct (String.eqb_spec k' k0); reflexivity.
    + rewrite IH.
      destruct (String.eqb_spec k' k0) as [->|Hk'].
      * destruct (String.eqb_spec k0 k); [congruence|reflexivity].
      * reflexivity.
Qed.

Lemma lookup_absent {V : Type} (k : string) (d : list (string * V)) :
  ~ In k (map fst d) -> lookup k d = None.
Proof.
  induction d as [|[k0 v0] d IH]; cbn; intros H; [reflexivity|].
  destruct (String.eqb_spec k k0) as [->|Hk].
  - exfalso. apply H. left. reflexivity.
  - apply IH. intros Hin. apply H. right. exact Hin.
Qed.

Lemma lookup_delitem {V : Type} (k k' : string) (d : list (string * V)) :
  NoDup (map fst d) ->
  lookup k' (delitem k d)
  = if String.eqb k' k then None else lookup k' d.
Proof.
  induction d as [|[k0 v0] d IH]; cbn; intros Hd.
  - destruct (String.eqb k' k); reflexivity.
  - inversion Hd as [|? ? Hnotin Hd']; subst.
    destruct (String.eqb_spec k k0) as [->|Hk]; cbn.
    + destruct (String.eqb_spec k' k0) as [->|Hk'].
      * apply lookup_absent. exact Hnotin.
      * reflexivity.
    + rewrite (IH Hd').
      destruct (String.eqb_spec k' k0) as [->|Hk'].
      * destruct (String.eqb_spec k0 k); [congruence|reflexivity].
      * reflexivity.
Qed.

Lemma in_keys_setitem {V : Type} (k k' : string) (v : V)
  (d : list (string * V)) :
  In k' (map fst (setitem k v d)) <-> k' = k \/ In k' (map fst d).
Proof.
  induction d as [|[k0 v0] d IH]; cbn.
  - intuition congruence.
  - destruct (String.eqb_spec k k0) as [->|Hk]; cbn.
    + intuition congruence.
    + rewrite IH. intuition congruence.
Qed.

Lemma keys_setitem {V : Type} (k : string) (v : V) (d : list (string * V)) :
  NoDup (map fst d) -> NoDup (map fst (setitem k v d)).
Proof.
  induction d as [|[k0 v0] d IH]; cbn; intros Hd.
  - constructor; [intros []|constructor].
  - inversion Hd as [|? ? Hnotin Hd']; subst.
    destruct (String.eqb_spec k k0) as [->|Hk]; cbn.
    + constructor; assumption.
    + constructor; [|apply IH; exact Hd'].
      rewrite in_keys_setitem. intros [E|Hin]; [congruence|contradiction].
Qed.

Lemma in_keys_delitem {V : Type} (k k' : string) (d : list (string * V)) :
  In k' (map fst (delitem k d)) -> In k' (map fst d).
Proof.
  induction d as [|[k0 v0] d IH]; cbn; [auto|].
  destruct (String.eqb k k0); cbn; intuition.
Qed.

Lemma keys_delitem {V : Type} (k : string) (d : list (string * V)) :
  NoDup (map fst d) -> NoDup (map fst (delitem k d)).
Proof.
  induction d as [|[k0 v0] d IH]; cbn; intros Hd; [constructor|].
  inversion Hd as [|? ? Hnotin Hd']; subst.
  destruct (String.eqb k k0); cbn; [exact Hd'|].
  constructor; [|apply IH; exact Hd'].
  intros Hin. apply Hnotin. eapply in_keys_delitem. exact Hin.
Qed.

Lemma length_setitem {V : Type} (k : string) (v : V) (d : list (string * V)) :
  List.length (setitem k v d)
  = match lookup k d with
    | Some _ => List.length d
    | None => S (List.length d)
    end.
Proof.
  induction d as [|[k0 v0] d IH]; cbn; [reflexivity|].
  destruct (String.eqb k k0); cbn; [reflexivity|].
  rewrite IH. destruct (lookup k d); reflexivity.
Qed.

Lemma length_delitem {V : Type} (k : string) (d : list (string * V)) :
  List.length (delitem k d)
  = match lookup k d with
    | Some _ => pred (List.length d)
    | None => List.length d
    end.
Proof.
  induction d as [|[k0 v0] d IH]; cbn; [reflexivity|].
  destruct (String.eqb k k0); cbn; [reflexivity|].
  rewrite IH. destruct (lookup k d) eqn:E; [|reflexivity].
  destruct d; [discriminate|reflexivity].
Qed.

(** X1. After [add_device], [get_device] returns the record just written
    for that identifier and what it returned before for every other one. *)
Theorem add_device_then_get_device (c : config.Config)
  (device_id host : string) (port : Z) (password device_name other : string) :
  config.get_device other
    (config.add_device device_id host port password device_name c)
  = if String.eqb other device_id
    then Some {| config.host := host; config.port := port;
                 config.password := password;
                 config.device_name := device_name |}
    else config.get_device other c.
Proof.
  unfold config.get_device, config.add_device, config.save. cbn.
  apply lookup_setitem.
Qed.

(** X2. Adding a device under an identifier that is already registered
    replaces its record and keeps the number of devices; under a new
    identifier the registry grows by one.  Either way the registry is
    configured afterwards and its identifiers stay distinct. *)
Theorem add_device_replaces_or_appends (c : config.Config)
  (device_id host : string) (port : Z) (password device_name : string) :
  NoDup (device_ids c) ->
  let c' := config.add_device device_id host port password device_name c in
  List.length (config.get_all_devices c')
  = match config.get_device device_id c with
    | Some _ => List.length (config.get_all_devices c)
    | None => S (List.length (config.get_all_devices c))
    end /\
  config.is_configured c' = true /\
  NoDup (device_ids c').
Proof.
  intros Hd. cbv zeta.
  unfold config.get_all_devices, config.get_device, config.add_device,
    config.save, config.is_configured, device_ids. cbn.
  split; [apply length_setitem|].
  split; [|apply keys_setitem; exact Hd].
  rewrite length_setitem.
  destruct (lookup device_id (config._devices c)) eqn:E.
  - destruct (config._devices c); [discriminate|reflexivity].
  - apply Z.ltb_lt. lia.
Qed.

Lemma add_device_replaces_or_appends_witness :
  let c' := config.add_device "1a2b3c4d" "10.0.0.9" 9090 "other" "Den 2"
              two_devices in
  NoDup (device_ids two_devices) /\
  List.length (config.get_all_devices c') = 2%nat /\
  config.is_configured c' = true /\
  NoDup (device_ids c').
Proof.
  assert (H : NoDup (device_ids two_devices)).
  { repeat constructor; cbn; intuition discriminate. }
  split; [exact H|].
  exact (add_device_replaces_or_appends two_devices "1a2b3c4d" "10.0.0.9"
           9090 "other" "Den 2" H).
Defined.

(** X3. [remove_device] on an identifier that is not registered changes
    nothing, the file included.  On a registered identifier the device is
    gone afterwards, every other device is as before, and the registry has
    one device less. *)
Theorem remove_device_removes_only_that_device (c : config.Config)
  (device_id : string) :
  NoDup (device_ids c) ->
  (config.get_device device_id c = None ->
   config.remove_device device_id c = c) /\
  config.get_device device_id (config.remove_device device_id c) = None /\
  (forall other,
      other <> device_id ->
      config.get_device other (config.remove_device device_id c)
      = config.get_device other c) /\
  (config.get_device device_id c <> None ->
   S (List.length (config.get_all_devices
                     (config.remove_device device_id c)))
   = List.length (config.get_all_devices c)) /\
  NoDup (device_ids (config.remove_device device_id c)).
Proof.
  intros Hd.
  unfold config.get_device, config.remove_device, config.get_all_devices,
    device_ids in *.
  destruct (lookup device_id (config._devices c)) as [r|] eqn:E; cbn.
  - split; [discriminate|].
    split.
    { rewrite (lookup_delitem _ _ _ Hd), String.eqb_refl. reflexivity. }
    split.
    { intros other Ho. rewrite (lookup_delitem _ _ _ Hd).
      destruct (String.eqb_spec other device_id); [contradiction|reflexivity]. }
    split.
    { intros _. rewrite length_delitem, E.
      destruct (config._devices c); [discriminate|reflexivity]. }
    apply keys_delitem. exact Hd.
  - split; [reflexivity|].
    split; [exact E|].
    split; [reflexivity|].
    split; [intros H; contradiction|exact Hd].
Qed.

Lemma remove_device_removes_only_that_device_witness :
  NoDup (device_ids two_devices) /\
  config.get_device "1a2b3c4d" (config.remove_device "1a2b3c4d" two_devices)
  = None /\
  config.get_device "5e6f7a8b" (config.remove_device "1a2b3c4d" two_devices)
  = config.get_device "5e6f7a8b" two_devices /\
  config.remove_device "ffffffff" two_devices = two_devices.
Proof.
  assert (H : NoDup (device_ids two_devices)).
  { repeat constructor; cbn; intuition discriminate. }
  destruct (remove_device_removes_only_that_device two_devices "1a2b3c4d" H)
    as (_ & Hgone & Hother & _).
  destruct (remove_device_removes_only_that_device two_devices "ffffffff" H)
    as (Habsent & _).
  split; [exact H|]. split; [exact Hgone|].
  split; [apply Hother; discriminate|apply Habsent; reflexivity].
Defined.

(** X4. Once a device has been added, the file holds the registry after
    every further sequence of additions and removals: reloading from disk
    gives back the configuration as it is in memory. *)
Theorem registry_survives_reload (c : config.Config)
  (device_id host : string) (port : Z) (password device_name : string)
  (changes : list registry_change) :
  let c' :=
    fold_left change changes
      (config.add_device device_id host port password device_name c) in
  config.reload_from_disk c' = c'.
Proof.
  cbv zeta.
  assert (Hsync : forall xs c0,
             config.file c0 = Some (config._devices c0) ->
             config.file (fold_left change xs c0)
             = Some (config._devices (fold_left change xs c0))).
  { induction xs as [|x xs IH]; intros c0 H0; [exact H0|].
    cbn [fold_left]. apply IH.
    destruct x as [i h p pw n|i]; cbn [change].
    - reflexivity.
    - unfold config.remove_device.
      destruct (lookup i (config._devices c0)); [reflexivity|exact H0]. }
  specialize (Hsync changes
                (config.add_device device_id host port password device_name c)
                eq_refl).
  destruct (fold_left change changes _) as [devices file].
  cbn in Hsync. subst file. reflexivity.
Qed.

(** ** client.py: commands *)

(** X5. A client that is not marked connected sends nothing: the status
    query returns [None], and [send_command] and every command built on it
    return [False], with the client and the world as they were. *)
Theorem disconnected_client_sends_nothing (net : oracle)
  (c : client.VLCClient) (w : World) :
  client.is_connected c = false ->
  client.get_status net (c, w) = (Ok VNone, (c, w)) /\
  (forall command params,
      client.send_command net command params (c, w) = (Ok false, (c, w))) /\
  Forall (fun m : M client.St bool => m (c, w) = (Ok false, (c, w)))
    [client.play net; client.pause net; client.play_pause_toggle net;
     client.stop net; client.next_track net; client.previous_track net;
     client.volume_up net; client.volume_down net; client.mute_toggle net;
     client.mute net; client.unmute net; client.clear_playlist net;
     client.shuffle_toggle net; client.repeat_toggle net;
     client.loop_toggle net; client.fullscreen_toggle net] /\
  (forall z,
      client.seek net z (c, w) = (Ok false, (c, w)) /\
      client.seek_relative net z (c, w) = (Ok false, (c, w))) /\
  (forall v n,
      client.scale_volume v = Ok n ->
      client.set_volume net v (c, w) = (Ok false, (c, w))).
Proof.
  unfold client.is_connected. intros Hc.
  assert (Hsend : forall command params,
             client.send_command net command params (c, w)
             = (Ok false, (c, w))).
  { intros command params. unfold_client. cbn. rewrite Hc. reflexivity. }
  assert (Hget : client.get_status net (c, w) = (Ok VNone, (c, w))).
  { unfold_client. cbn. rewrite Hc. reflexivity. }
  split; [exact Hget|]. split; [exact Hsend|].
  split.
  { repeat (apply Forall_cons || apply Forall_nil);
      first [ apply Hsend
            | unfold client.mute_toggle, bind; rewrite Hget; reflexivity
            | unfold client.mute, bind; rewrite Hget; reflexivity
            | unfold client.unmute, bind, client.self; cbn [fst];
              apply Hsend ]. }
  split.
  { intros z. split; apply Hsend. }
  intros v n Hv. unfold client.set_volume, bind, lift. rewrite Hv.
  apply Hsend.
Qed.

Lemma disconnected_client_sends_nothing_witness :
  let c := client.set_is_connected false den_client in
  client.get_status (answering example_status) (c, []) = (Ok VNone, (c, []))
  /\ client.stop (answering example_status) (c, []) = (Ok false, (c, [])).
Proof.
  cbv zeta.
  destruct (disconnected_client_sends_nothing (answering example_status)
              (client.set_is_connected false den_client) [] eq_refl)
    as (Hget & Hsend & _).
  split; [exact Hget|apply Hsend].
Defined.

Lemma signed_offset_eq (offset : Z) :
  (if 0 <? offset then "+" else "") ++ str_of_int offset
  = signed_offset offset.
Proof. destruct offset; reflexivity. Qed.

(** X6. On a connected client a relative seek is one [seek] command whose
    value carries the sign of the offset: [+n] for a forward offset, [-n]
    for a backward one, and plain [0] for the offset 0. *)
Theorem seek_relative_sends_signed_offset (net : oracle)
  (c : client.VLCClient) (w : World) (offset : Z) :
  client.is_connected c = true ->
  exists ok,
    client.seek_relative net offset (c, w)
    = (Ok ok,
       (c, (w ++ [command_request c "seek"
                    [("val", client.PStr (signed_offset offset))]])%list)).
Proof.
  intros Hc. unfold client.seek_relative. rewrite signed_offset_eq.
  apply send_command_connected. exact Hc.
Qed.

Lemma seek_relative_sends_signed_offset_witness :
  exists ok,
    client.seek_relative (answering example_status) (-30) (den_client, [])
    = (Ok ok,
       (den_client,
        [{| url := "http://192.168.1.20:8080/requests/status.json?command=seek&val=-30";
            authorization := ":secret" |}])).
Proof.
  exact (seek_relative_sends_signed_offset (answering example_status)
           den_client [] (-30) eq_refl).
Defined.

Lemma mute_connected (net : oracle) (c : client.VLCClient) (w : World)
  (d : list (string * value)) (n : num) :
  client._is_connected c = true ->
  fst (client.get_status net (c, w)) = Ok (VDict d) ->
  truthy (VDict d) = true ->
  as_number (get_or "volume" (VInt 256) d) = Ok n ->
  0 < int_of_num n ->
  exists ok,
    client.mute net (c, w)
    = (Ok ok,
       (client.set_stored_volume n c,
        (w ++ [status_request c; volume_request c "0"])%list)).
Proof.
  intros Hc Hs Ht Hn Hpos.
  destruct (get_status_connected net c w Hc) as (v & E).
  rewrite E in Hs. cbn in Hs. injection Hs as ->.
  destruct (send_volume_stored net c n (w ++ [status_request c])%list "0" Hc)
    as (ok1 & E1).
  exists ok1.
  unfold client.mute.
  unfold bind at 1. rewrite E, Ht.
  unfold bind at 1, lift at 1. cbn [method_get].
  unfold bind at 1, lift at 1. rewrite Hn.
  apply Z.ltb_lt in Hpos. rewrite Hpos.
  unfold bind at 1, modify at 1. cbn [fst snd].
  refine (eq_trans E1 _). rewrite <- app_assoc. reflexivity.
Qed.

Lemma unmute_connected (net : oracle) (c : client.VLCClient) (w : World) :
  client._is_connected c = true ->
  exists ok,
    client.unmute net (c, w)
    = (Ok ok,
       (c, (w ++ [volume_request c
                    (str_of_num
                       match client._stored_volume c with
                       | Some n => n
                       | None => NInt 256
                       end)])%list)).
Proof.
  intros Hc. unfold client.unmute. unfold bind at 1, client.self.
  cbn [fst]. apply send_command_connected. exact Hc.
Qed.

(** X7. [mute_toggle] on a connected client is the status query followed by
    one volume command: [val=256] when the document reports volume 0,
    [val=0] otherwise.  It neither reads nor writes the volume remembered
    by [mute]: the client is unchanged. *)
Theorem mute_toggle_sends_zero_or_full (net : oracle) (c : client.VLCClient)
  (w : World) (d : list (string * value)) :
  client.is_connected c = true ->
  fst (client.get_status net (c, w)) = Ok (VDict d) ->
  truthy (VDict d) = true ->
  exists ok,
    client.mute_toggle net (c, w)
    = (Ok ok,
       (c, (w ++ [status_request c;
                  volume_request c
                    match get_or "volume" (VInt 256) d with
                    | VInt 0 | VBool false => "256"
                    | _ => "0"
                    end])%list)).
Proof.
  unfold client.is_connected. intros Hc Hs Ht.
  destruct (get_status_connected net c w Hc) as (v & E).
  rewrite E in Hs. cbn in Hs. injection Hs as ->.
  unfold client.mute_toggle. unfold bind at 1. rewrite E, Ht.
  unfold bind at 1, lift at 1. cbn [method_get].
  assert (Hsend : forall val,
             exists ok,
               client.send_command net "volume" [("val", client.PStr val)]
                 (c, (w ++ [status_request c])%list)
               = (Ok ok,
                  (c, (w ++ [status_request c; volume_request c val])%list))).
  { intros val.
    destruct (send_command_connected net c (w ++ [status_request c])%list
                "volume" [("val", client.PStr val)] Hc) as (ok & Es).
    exists ok. refine (eq_trans Es _). rewrite <- app_assoc. reflexivity. }
  destruct (get_or "volume" (VInt 256) d) as [|[]|[| |]| | |];
    apply Hsend.
Qed.

Lemma mute_toggle_sends_zero_or_full_witness :
  exists ok,
    client.mute_toggle (answering (VDict [("volume", VInt 0)]))
      (client.set_stored_volume (NInt 384) den_client, [])
    = (Ok ok,
       (client.set_stored_volume (NInt 384) den_client,
        [status_request den_client; volume_request den_client "256"])).
Proof.
  exact (mute_toggle_sends_zero_or_full (answering (VDict [("volume", VInt 0)]))
           (client.set_stored_volume (NInt 384) den_client) []
           [("volume", VInt 0)] eq_refl eq_refl eq_refl).
Defined.

(** X8. A volume set between mute and unmute does not change what unmute
    restores: after mute at an observed volume [n] above 0, [set_volume]
    and then [unmute] send the scaled volume and then [n] again.  A client
    that never muted restores 256. *)
Theorem unmute_overrides_intervening_set_volume (net : oracle)
  (c : client.VLCClient) (w : World) (d : list (string * value)) (n : num)
  (volume scaled : Z) :
  client.is_connected c = true ->
  fst (client.get_status net (c, w)) = Ok (VDict d) ->
  truthy (VDict d) = true ->
  as_number (get_or "volume" (VInt 256) d) = Ok n ->
  0 < int_of_num n ->
  client.scale_volume volume = Ok scaled ->
  (exists ok,
      (client.mute net ;;; client.set_volume net volume ;;; client.unmute net)
        (c, w)
      = (Ok ok,
         (client.set_stored_volume n c,
          (w ++ [status_request c; volume_request c "0";
                 command_request c "volume" [("val", client.PInt scaled)];
                 volume_request c (str_of_num n)])%list))) /\
  (client._stored_volume c = None ->
   exists ok,
     client.unmute net (c, w)
     = (Ok ok, (c, (w ++ [volume_request c "256"])%list))).
Proof.
  unfold client.is_connected. intros Hc Hs Ht Hn Hpos Hv.
  split.
  - destruct (mute_connected net c w d n Hc Hs Ht Hn Hpos) as (ok1 & E1).
    assert (Hc' : client._is_connected (client.set_stored_volume n c) = true)
      by exact Hc.
    destruct (send_command_connected net (client.set_stored_volume n c)
                (w ++ [status_request c; volume_request c "0"])%list
                "volume" [("val", client.PInt scaled)] Hc') as (ok2 & E2).
    destruct (unmute_connected net (client.set_stored_volume n c)
                ((w ++ [status_request c; volume_request c "0"]) ++
                 [command_request c "volume"
                    [("val", client.PInt scaled)]])%list Hc') as (ok3 & E3).
    exists ok3.
    unfold bind at 1. rewrite E1.
    unfold bind at 1. unfold client.set_volume. unfold bind at 1, lift.
    rewrite Hv.
    refine (eq_trans (f_equal
              (fun r : result bool * client.St =>
                 match r with
                 | (Ok _, s') => client.unmute net s'
                 | (Raise e, s') => (Raise e, s')
                 end) E2) _).
    refine (eq_trans E3 _).
    repeat rewrite <- app_assoc. reflexivity.
  - intros Hnone.
    destruct (unmute_connected net c w Hc) as (ok & E).
    exists ok. rewrite E, Hnone. reflexivity.
Qed.

Lemma unmute_overrides_intervening_set_volume_witness :
  exists ok,
    (client.mute (answering example_status) ;;;
     client.set_volume (answering example_status) 20 ;;;
     client.unmute (answering example_status)) (den_client, [])
    = (Ok ok,
       (client.set_stored_volume (NInt 384) den_client,
        [status_request den_client; volume_request den_client "0";
         command_request den_client "volume" [("val", client.PInt 102)];
         volume_request den_client "384"])).
Proof.
  destruct (unmute_overrides_intervening_set_volume
              (answering example_status) den_client []
              [("state", VStr "playing"); ("volume", VInt 384);
               ("random", VBool true); ("loop", VBool false);
               ("repeat", VBool true)]
              (NInt 384) 20 102 eq_refl eq_refl eq_refl eq_refl eq_refl
              eq_refl) as [H _].
  exact H.
Defined.

(** ** Volume arithmetic *)

Lemma scale_table :
  forallb scale_is_quotient (integers (-100) 1101) = true.
Proof. vm_compute. reflexivity. Qed.

Lemma normalize_table :
  forallb normalize_is_quotient (integers (-512) 4609) = true.
Proof. vm_compute. reflexivity. Qed.

Lemma in_integers (lo : Z) (count : nat) (z : Z) :
  lo <= z < lo + Z.of_nat count -> In z (integers lo count).
Proof.
  intros H. unfold integers. apply in_map_iff.
  exists (Z.to_nat (z - lo)). split; [lia|].
  apply in_seq. lia.
Qed.

(** X9. The floating-point scaling of [set_volume] and of the refresh
    loses nothing against integer arithmetic: for inputs from -100 to 1000,
    [set_volume] sends the quotient of [512 * volume] by 100 truncated
    towards zero, and for native volumes from -512 to 4096 the refresh shows
    the quotient of [100 * native] by 512.  Neither clamps: inputs above
    100 scale above 512. *)
Theorem volume_scaling_is_integer_quotient :
  (forall v,
      -100 <= v <= 1000 ->
      client.scale_volume v = Ok (Z.quot (512 * v) 100)) /\
  (forall n,
      -512 <= n <= 4096 ->
      normalize_volume (NInt n) = Ok (Z.quot (100 * n) 512)).
Proof.
  split.
  - intros v Hv.
    pose proof scale_table as T. rewrite forallb_forall in T.
    specialize (T v (in_integers (-100) 1101 v ltac:(lia))).
    unfold scale_is_quotient in T.
    destruct (client.scale_volume v) as [n|]; [|discriminate].
    apply Z.eqb_eq in T. congruence.
  - intros n Hn.
    pose proof normalize_table as T. rewrite forallb_forall in T.
    specialize (T n (in_integers (-512) 4609 n ltac:(lia))).
    unfold normalize_is_quotient in T.
    destruct (normalize_volume (NInt n)) as [b|]; [|discriminate].
    apply Z.eqb_eq in T. congruence.
Qed.

Lemma volume_scaling_is_integer_quotient_witness :
  client.scale_volume 150 = Ok 768 /\ normalize_volume (NInt 768) = Ok 150.
Proof.
  destruct volume_scaling_is_integer_quotient as [Hs Hn].
  split.
  - exact (Hs 150 ltac:(lia)).
  - exact (Hn 768 ltac:(lia)).
Defined.

(** X10. For a status document whose [volume] is an integer from 0 to 512,
    the refresh shows a volume from 0 to 100, the floor of [100 * volume /
    512], and the muted flag is set exactly for the native volume 0: the
    native volumes 1 to 5 show as volume 0 and not muted. *)
Theorem refresh_volume_and_muted (net : oracle) (mp : VLCMediaPlayer)
  (w : World) (d : list (string * value)) (st' : client.St) (n : Z) :
  _connected mp = true ->
  client.get_status net (_client mp, w) = (Ok (VDict d), st') ->
  lookup "volume" d = Some (VInt n) ->
  0 <= n <= 512 ->
  let p := attr (refreshed net mp w) in
  _attr_volume p = 100 * n / 512 /\
  0 <= _attr_volume p <= 100 /\
  _attr_muted p = (n =? 0) /\
  (1 <= n <= 5 -> _attr_volume p = 0 /\ _attr_muted p = false).
Proof.
  intros Hc Hs Hl Hn. cbv zeta.
  assert (Ht : truthy (VDict d) = true).
  { destruct d; [discriminate|reflexivity]. }
  destruct volume_scaling_is_integer_quotient as [_ Hq].
  destruct (refreshed_volume net mp w d st' (NInt n) (Z.quot (100 * n) 512)
              Hc Hs Ht) as [Hv Hm].
  { unfold get_or. rewrite Hl. reflexivity. }
  { apply Hq. lia. }
  cbn [int_of_num] in Hm.
  rewrite Z.quot_div_nonneg in Hv by lia.
  rewrite Hv, Hm.
  split; [reflexivity|].
  split.
  { split.
    - apply Z.div_pos; lia.
    - apply Z.div_le_upper_bound; lia. }
  split; [reflexivity|].
  intros H15. split.
  - apply Z.div_small. lia.
  - apply Z.eqb_neq. lia.
Qed.

Lemma refresh_volume_and_muted_witness :
  let doc := [("state", VStr "playing"); ("volume", VInt 3)] in
  let p := attr (refreshed (answering (VDict doc)) den_player []) in
  _attr_volume p = 0 /\ _attr_muted p = false.
Proof.
  cbv zeta.
  destruct (refresh_volume_and_muted
              (answering (VDict [("state", VStr "playing"); ("volume", VInt 3)]))
              den_player []
              [("state", VStr "playing"); ("volume", VInt 3)]
              (den_client, [status_request den_client]) 3
              eq_refl eq_refl eq_refl ltac:(lia)) as (_ & _ & _ & H).
  apply H. lia.
Defined.

(** ** media_player.py: refresh, push and commands *)

Lemma update_status_ok (net : oracle) (st : media_player.St) :
  fst (update_status net st) = Ok tt.
Proof.
  unfold update_status, self. unfold bind at 1. cbn [fst snd].
  destruct (negb (_connected (fst st))); [reflexivity|].
  unfold try_except.
  destruct (bind (on_client (client.get_status net)) _ st) as [[[]|e] st'];
    reflexivity.
Qed.

Lemma update_attributes_eq (net : oracle) (mp : VLCMediaPlayer) (w : World)
  (hub : Hub) :
  update_attributes net ((mp, w), hub)
  = (Ok tt,
     (snd (update_status net (mp, w)),
      (hub ++ [attr (refreshed net mp w)])%list)).
Proof.
  unfold update_attributes, with_adapter, zoom, modify, refreshed.
  unfold bind. cbn [fst snd].
  pose proof (update_status_ok net (mp, w)) as Hok.
  destruct (update_status net (mp, w)) as [r [mp' w']].
  cbn in Hok. subst r. reflexivity.
Qed.

(** X11. An adapter that is not connected does nothing on a refresh (no
    request, the cache as it was) and answers every command with
    SERVICE_UNAVAILABLE without calling its client; a push still writes the
    cached attributes once. *)
Theorem disconnected_adapter_is_inert (net : oracle) (mp : VLCMediaPlayer)
  (w : World) :
  _connected mp = false ->
  update_status net (mp, w) = (Ok tt, (mp, w)) /\
  (forall cmd_id params hub,
      command_handler net cmd_id params ((mp, w), hub)
      = (Ok StatusCodes.SERVICE_UNAVAILABLE, ((mp, w), hub))) /\
  (forall hub,
      push_update net ((mp, w), hub)
      = (Ok tt, ((mp, w), (hub ++ [attr mp])%list))).
Proof.
  intros Hc.
  assert (Hu : update_status net (mp, w) = (Ok tt, (mp, w))).
  { unfold update_status, self. unfold bind at 1. cbn [fst snd].
    rewrite Hc. reflexivity. }
  split; [exact Hu|]. split.
  - intros cmd_id params hub.
    unfold command_handler, with_adapter, zoom, self. unfold bind at 1.
    cbn [fst snd]. rewrite Hc. reflexivity.
  - intros hub. unfold push_update. rewrite update_attributes_eq.
    unfold refreshed. rewrite Hu. reflexivity.
Qed.

Lemma disconnected_adapter_is_inert_witness :
  let mp := set_connected false den_player in
  update_status (answering example_status) (mp, []) = (Ok tt, (mp, [])) /\
  command_handler (answering example_status) Commands.STOP VNone ((mp, []), [])
  = (Ok StatusCodes.SERVICE_UNAVAILABLE, ((mp, []), [])).
Proof.
  cbv zeta.
  destruct (disconnected_adapter_is_inert (answering example_status)
              (set_connected false den_player) [] eq_refl) as (Hu & Hcmd & _).
  split; [exact Hu|apply Hcmd].
Defined.

Lemma client_call_unknown (net : oracle) (cmd_id : string) (params : value) :
  ~ In cmd_id handled_commands -> client_call net cmd_id params = None.
Proof.
  intros Hnot. unfold client_call.
  repeat match goal with
         | |- context [String.eqb cmd_id ?k] =>
             destruct (String.eqb_spec cmd_id k) as [E|_];
             [exfalso; apply Hnot; rewrite E; unfold handled_commands;
              cbn; tauto|]
         end.
  reflexivity.
Qed.

(** X12. A command id the handler does not know is answered with
    NOT_IMPLEMENTED: the client is not called, nothing is requested, the
    cache is not refreshed and nothing is pushed. *)
Theorem unknown_command_not_implemented (net : oracle) (mp : VLCMediaPlayer)
  (w : World) (hub : Hub) (cmd_id : string) (params : value) :
  _connected mp = true ->
  ~ In cmd_id handled_commands ->
  command_handler net cmd_id params ((mp, w), hub)
  = (Ok StatusCodes.NOT_IMPLEMENTED, ((mp, w), hub)).
Proof.
  intros Hc Hnot.
  unfold command_handler, with_adapter, zoom, self. unfold bind at 1.
  cbn [fst snd]. rewrite Hc. cbn [negb].
  rewrite (client_call_unknown net cmd_id params Hnot). reflexivity.
Qed.

Lemma unknown_command_not_implemented_witness :
  command_handler (answering example_status) "toggle" VNone
    ((den_player, []), [])
  = (Ok StatusCodes.NOT_IMPLEMENTED, ((den_player, []), [])).
Proof.
  apply (unknown_command_not_implemented (answering example_status)
           den_player [] [] "toggle" VNone eq_refl).
  unfold handled_commands. cbn.
  intuition discriminate.
Defined.

(** X13. The command handler never raises.  It answers OK exactly when the
    client call returned [True], and then it has refreshed the cache and
    pushed it once; with any other answer nothing was pushed and the cached
    attributes are as before. *)
Theorem command_handler_result (net : oracle) (mp : VLCMediaPlayer)
  (w : World) (hub : Hub) (cmd_id : string) (params : value) :
  exists code mp' w' hub',
    command_handler net cmd_id params ((mp, w), hub)
    = (Ok code, ((mp', w'), hub')) /\
    (code = StatusCodes.OK ->
     hub' = (hub ++ [attr mp'])%list /\
     exists call c1 w1,
       client_call net cmd_id params = Some call /\
       call (_client mp, w) = (Ok true, (c1, w1)) /\
       mp' = refreshed net (with_client c1 mp) w1) /\
    (code <> StatusCodes.OK -> hub' = hub /\ attr mp' = attr mp) /\
    (_connected mp = true ->
     forall call st1,
       client_call net cmd_id params = Some call ->
       call (_client mp, w) = (Ok true, st1) ->
       code = StatusCodes.OK).
Proof.
  unfold command_handler, with_adapter, self. unfold zoom at 1.
  unfold bind at 1. cbn [fst snd].
  destruct (_connected mp).
  2:{ cbn [negb]. exists StatusCodes.SERVICE_UNAVAILABLE, mp, w, hub.
      split; [reflexivity|]. split; [discriminate|].
      split; [auto|discriminate]. }
  cbn [negb]. unfold try_except.
  destruct (client_call net cmd_id params) as [call|].
  2:{ exists StatusCodes.NOT_IMPLEMENTED, mp, w, hub.
      split; [reflexivity|]. split; [discriminate|].
      split; [auto|]. intros _ call st1 H. discriminate H. }
  unfold bind at 1. unfold on_client. unfold zoom. cbn [fst snd].
  destruct (call (_client mp, w)) as [[[|]|e] [c1 w1]] eqn:Ecall;
    cbn [fst snd]; cbv beta iota.
  - unfold bind at 1. rewrite update_attributes_eq.
    exists StatusCodes.OK.
    pose proof (update_status_ok net (with_client c1 mp, w1)) as Hok.
    unfold refreshed.
    destruct (update_status net (with_client c1 mp, w1)) as [r [mp' w']]
      eqn:Eu.
    cbn [fst snd] in *.
    exists mp', w', (hub ++ [attr mp'])%list.
    split; [reflexivity|]. split.
    + intros _. split; [reflexivity|].
      exists call, c1, w1.
      split; [reflexivity|]. split; [exact Ecall|].
      rewrite Eu. reflexivity.
    + split; [intros H; contradiction|reflexivity].
  - exists StatusCodes.SERVER_ERROR, (with_client c1 mp), w1, hub.
    split; [reflexivity|]. split; [discriminate|].
    split; [auto|].
    intros _ call' st1 H1 H2. injection H1 as <-. congruence.
  - exists StatusCodes.SERVER_ERROR, (with_client c1 mp), w1, hub.
    split; [reflexivity|]. split; [discriminate|].
    split; [auto|].
    intros _ call' st1 H1 H2. injection H1 as <-. congruence.
Qed.

Lemma command_handler_result_witness :
  fst (command_handler (answering example_status) Commands.STOP VNone
         ((den_player, []), []))
  = Ok StatusCodes.OK.
Proof.
  destruct (command_handler_result (answering example_status) den_player []
              [] Commands.STOP VNone)
    as (code & mp' & w' & hub' & E & _ & _ & Hconv).
  refine (eq_trans (f_equal fst E) (f_equal Ok _)).
  exact (Hconv eq_refl (client.stop (answering example_status))
           (den_client,
            [command_request den_client "pl_stop" []]) eq_refl eq_refl).
Defined.

(** What a parse that completes writes for the state, the position, the
    duration and the metadata. *)
Lemma parse_status_fields (status : value) (mp : VLCMediaPlayer)
  (w : World) :
  fst (parse_status status (mp, w)) = Ok tt ->
  let p := attr (fst (snd (parse_status status (mp, w)))) in
  exists d meta,
    status = VDict d /\
    document_meta d = Ok meta /\
    _attr_state p = shown_state (get_or "state" (VStr "stopped") d) /\
    _attr_media_position p = get_or "time" (VInt 0) d /\
    _attr_media_duration p = get_or "length" (VInt 0) d /\
    (truthy meta = false ->
     _attr_media_title p = VStr "" /\ _attr_media_artist p = VStr "" /\
     _attr_media_album p = VStr "" /\ _attr_media_image_url p = "") /\
    (truthy meta = true ->
     exists md,
       meta = VDict md /\
       _attr_media_title p
       = get_or "title" (get_or "filename" (VStr "") md) md /\
       _attr_media_artist p = get_or "artist" (VStr "") md /\
       _attr_media_album p = get_or "album" (VStr "") md /\
       _attr_media_image_url p
       = match truthy (_attr_media_title p), _attr_state p with
         | true, States.OFF => ""
         | true, _ => client.get_album_art_url (_client mp)
         | false, _ => ""
         end).
Proof.
  destruct status as [| | | | |d];
    try (unfold_steps; cbn; discriminate).
  intros H. cbv zeta. exists d.
  unfold document_meta.
  revert H. unfold shown_state. unfold_steps. cbn.
  destruct (method_get (get_or "information" (VDict []) d) "category"
              (VDict [])) as [category|e] eqn:Ecat; cbn.
  2:{ repeat (stuck_case; cbn; try discriminate). }
  destruct (method_get category "meta" (VDict [])) as [meta|e] eqn:Emeta;
    cbn.
  2:{ repeat (stuck_case; cbn; try discriminate). }
  exists meta. revert H.
  destruct (truthy meta) eqn:Hmeta; cbn.
  - destruct meta as [| | | | |md]; cbn;
      try (repeat (stuck_case; cbn; try discriminate); fail).
    repeat (stuck_case; cbn; try discriminate).
    all: intros _; repeat split; try discriminate.
    all: intros _; exists md; repeat split.
  - repeat (stuck_case; cbn; try discriminate).
    all: intros _; repeat split; try discriminate.
Qed.

Lemma eq_str_true (v : value) (lit : string) :
  eq_str v lit = true <-> v = VStr lit.
Proof.
  destruct v; cbn; try (split; [discriminate|intros H; discriminate H]).
  rewrite String.eqb_eq. split; [intros ->; reflexivity|].
  intros H. injection H as ->. reflexivity.
Qed.

(** X14. A refresh that completes shows the state of the document:
    [playing] and [paused] as such, [stopped] or no [state] field as off,
    and any other value as on.  Position and duration are the [time] and
    [length] fields as they stand, 0 when absent. *)
Theorem refresh_state_position_duration (net : oracle) (mp : VLCMediaPlayer)
  (w : World) (status : value) (st' : client.St) :
  _connected mp = true ->
  client.get_status net (_client mp, w) = (Ok status, st') ->
  _attr_state (attr (refreshed net mp w)) <> States.UNAVAILABLE ->
  let p := attr (refreshed net mp w) in
  exists d,
    status = VDict d /\
    let state := get_or "state" (VStr "stopped") d in
    (state = VStr "playing" -> _attr_state p = States.PLAYING) /\
    (state = VStr "paused" -> _attr_state p = States.PAUSED) /\
    (state = VStr "stopped" -> _attr_state p = States.OFF) /\
    (lookup "state" d = None -> _attr_state p = States.OFF) /\
    (state <> VStr "playing" -> state <> VStr "paused" ->
     state <> VStr "stopped" -> _attr_state p = States.ON) /\
    _attr_media_position p = get_or "time" (VInt 0) d /\
    _attr_media_duration p = get_or "length" (VInt 0) d.
Proof.
  intros Hc Hs Ha. cbv zeta.
  destruct (refreshed_available net mp w status st' Hc Hs Ha)
    as (_ & Hp & ->).
  destruct (parse_status_fields status mp (snd st') Hp)
    as (d & meta & -> & _ & Hstate & Hpos & Hdur & _).
  exists d. split; [reflexivity|].
  rewrite Hstate, Hpos, Hdur. unfold shown_state.
  repeat split.
  - intros ->. reflexivity.
  - intros ->. reflexivity.
  - intros ->. reflexivity.
  - intros Hnone. unfold get_or. rewrite Hnone. reflexivity.
  - intros H1 H2 H3.
    destruct (eq_str _ "playing") eqn:E1;
      [apply eq_str_true in E1; contradiction|].
    destruct (eq_str _ "paused") eqn:E2;
      [apply eq_str_true in E2; contradiction|].
    destruct (eq_str _ "stopped") eqn:E3;
      [apply eq_str_true in E3; contradiction|].
    reflexivity.
Qed.

Lemma refresh_state_position_duration_witness :
  let doc := [("state", VStr "opening"); ("time", VInt 12)] in
  let p := attr (refreshed (answering (VDict doc)) den_player []) in
  _attr_state p = States.ON /\
  _attr_media_position p = VInt 12 /\
  _attr_media_duration p = VInt 0.
Proof.
  cbv zeta.
  destruct (refresh_state_position_duration
              (answering (VDict [("state", VStr "opening"); ("time", VInt 12)]))
              den_player []
              (VDict [("state", VStr "opening"); ("time", VInt 12)])
              (den_client, [status_request den_client])
              eq_refl eq_refl ltac:(vm_compute; discriminate))
    as (d & Hd & _ & _ & _ & _ & Hon & Hpos & Hdur).
  injection Hd as <-.
  split; [|split; [exact Hpos|exact Hdur]].
  apply Hon; cbn; discriminate.
Defined.

(** X15. A refresh that completes takes title, artist and album from the
    document's metadata: the title is the [title] field, else the
    [filename] field, else empty; without metadata all three are empty.
    The artwork reference is the client's [/art] URL exactly when the title
    is non-empty and the state is not off, and empty otherwise. *)
Theorem refresh_metadata_and_artwork (net : oracle) (mp : VLCMediaPlayer)
  (w : World) (status : value) (st' : client.St) :
  _connected mp = true ->
  client.get_status net (_client mp, w) = (Ok status, st') ->
  _attr_state (attr (refreshed net mp w)) <> States.UNAVAILABLE ->
  let p := attr (refreshed net mp w) in
  exists d meta,
    status = VDict d /\
    document_meta d = Ok meta /\
    (truthy meta = false ->
     _attr_media_title p = VStr "" /\ _attr_media_artist p = VStr "" /\
     _attr_media_album p = VStr "" /\ _attr_media_image_url p = "") /\
    (truthy meta = true ->
     exists md,
       meta = VDict md /\
       _attr_media_title p
       = get_or "title" (get_or "filename" (VStr "") md) md /\
       _attr_media_artist p = get_or "artist" (VStr "") md /\
       _attr_media_album p = get_or "album" (VStr "") md) /\
    _attr_media_image_url p
    = (if truthy (_attr_media_title p)
          && negb (match _attr_state p with States.OFF => true | _ => false end)
       then client.base_url (_client mp) ++ "/art"
       else "").
Proof.
  intros Hc Hs Ha. cbv zeta.
  destruct (refreshed_available net mp w status st' Hc Hs Ha)
    as (_ & Hp & ->).
  destruct (parse_status_fields status mp (snd st') Hp)
    as (d & meta & -> & Hmeta & _ & _ & _ & Hno & Hyes).
  exists d, meta. split; [reflexivity|]. split; [exact Hmeta|].
  split; [exact Hno|].
  split.
  - intros Ht. destruct (Hyes Ht) as (md & -> & H1 & H2 & H3 & _).
    exists md. repeat split; assumption.
  - destruct (truthy meta) eqn:Ht.
    + destruct (Hyes eq_refl) as (md & _ & _ & _ & _ & Himg).
      rewrite Himg. unfold client.get_album_art_url.
      destruct (truthy (_attr_media_title _)); [|reflexivity].
      destruct (_attr_state
                  (attr (fst (snd (parse_status (VDict d) (mp, snd st'))))));
        reflexivity.
    + destruct (Hno eq_refl) as (Ht1 & _ & _ & Himg).
      rewrite Himg, Ht1. reflexivity.
Qed.

Lemma refresh_metadata_and_artwork_witness :
  let doc :=
    [("state", VStr "playing");
     ("information",
      VDict [("category",
              VDict [("meta",
                      VDict [("filename", VStr "song.mp3");
                             ("artist", VStr "Band")])])])] in
  let p := attr (refreshed (answering (VDict doc)) den_player []) in
  _attr_media_title p = VStr "song.mp3" /\
  _attr_media_artist p = VStr "Band" /\
  _attr_media_album p = VStr "" /\
  _attr_media_image_url p = "http://192.168.1.20:8080/art".
Proof.
  cbv zeta.
  destruct (refresh_metadata_and_artwork
              (answering
                 (VDict
                    [("state", VStr "playing");
                     ("information",
                      VDict [("category",
                              VDict [("meta",
                                      VDict [("filename", VStr "song.mp3");
                                             ("artist", VStr "Band")])])])]))
              den_player []
              (VDict
                 [("state", VStr "playing");
                  ("information",
                   VDict [("category",
                           VDict [("meta",
                                   VDict [("filename", VStr "song.mp3");
                                          ("artist", VStr "Band")])])])])
              (den_client, [status_request den_client])
              eq_refl eq_refl ltac:(vm_compute; discriminate))
    as (d & meta & Hd & Hmeta & _ & Hyes & Himg).
  injection Hd as <-. cbn in Hmeta. injection Hmeta as <-.
  destruct (Hyes eq_refl) as (md & Hmd & Ht & Har & Hal).
  injection Hmd as <-.
  split; [exact Ht|]. split; [exact Har|]. split; [exact Hal|].
  rewrite Himg, Ht. reflexivity.
Defined.

(** ** driver.py: setup and initialization *)



(** X17. A setup message that is not a setup request, a request with a
    field that is blank once stripped, and a request whose password cannot
    be encoded as ASCII all get the setup error OTHER, and nothing happens:
    no request is sent and the session is as before. *)
Theorem setup_rejected_without_request (net : oracle)
  (md5_hex8 : string -> string) (msg : SetupDriver) (st : St) :
  match msg with
  | DriverSetupRequest _ setup_data =>
      exists port,
        requested_port setup_data = Ok port /\
        (nonempty (strip (get_or "host" "" setup_data))
         && nonempty (strip (get_or "password" "" setup_data))
         && nonempty (strip (get_or "device_name" "" setup_data)) = false \/
         is_ascii (":" ++ strip (get_or "password" "" setup_data)) = false)
  | _ => True
  end ->
  setup_handler net md5_hex8 msg st = (Ok (SetupError OTHER), st).
Proof.
  destruct msg as [reconfigure setup_data| | |]; try reflexivity.
  intros (port & Hport & H).
  destruct (nonempty (strip (get_or "host" "" setup_data))
            && nonempty (strip (get_or "password" "" setup_data))
            && nonempty (strip (get_or "device_name" "" setup_data)))
    eqn:Hfields.
  - destruct H as [H|H]; [discriminate|].
    apply (setup_handler_no_client net md5_hex8 reconfigure setup_data st
             port UnicodeEncodeError Hport Hfields).
    unfold client.__init__. rewrite H. reflexivity.
  - exact (setup_handler_missing_field net md5_hex8 reconfigure setup_data st
             port Hport Hfields).
Qed.

Lemma setup_rejected_without_request_witness :
  setup_handler (answering example_status) (fun _ => "1a2b3c4d")
    (DriverSetupRequest false
       [("host", "192.168.1.20"); ("password", "   ");
        ("device_name", "Den")])
    (loaded two_devices, [])
  = (Ok (SetupError OTHER), (loaded two_devices, [])).
Proof.
  apply (setup_rejected_without_request (answering example_status)
           (fun _ => "1a2b3c4d")
           (DriverSetupRequest false
              [("host", "192.168.1.20"); ("password", "   ");
               ("device_name", "Den")])).
  exists 8080. split; [reflexivity|]. left. reflexivity.
Defined.

(** X18. A pass of [_initialize_entities] entered with the session ready
    changes nothing and sends nothing; entered not ready with an empty
    registry it only reports DISCONNECTED.  So a pass that leaves the
    session ready is idempotent: running it again gives the same session
    and the same requests. *)
Theorem pass_is_idempotent_once_ready (net : oracle) (s : Session)
  (w : World) :
  initialization_lock s = false ->
  (entities_ready s = true ->
   _initialize_entities net (s, w) = (Ok tt, (s, w))) /\
  (entities_ready s = false ->
   config.get_all_devices (config s) = [] ->
   _initialize_entities net (s, w)
   = (Ok tt, (with_device_state DISCONNECTED s, w))) /\
  (entities_ready (fst (snd (_initialize_entities net (s, w)))) = true ->
   _initialize_entities net (snd (_initialize_entities net (s, w)))
   = (Ok tt, snd (_initialize_entities net (s, w)))).
Proof.
  intros Hlock.
  assert (Hready : forall s0 w0,
             initialization_lock s0 = false -> entities_ready s0 = true ->
             _initialize_entities net (s0, w0) = (Ok tt, (s0, w0))).
  { intros s0 w0 Hl Hr.
    rewrite initialize_entities_body. unfold async_with_lock. cbn [fst snd].
    rewrite body_eq. cbn [entities_ready with_initialization_lock].
    rewrite Hr. cbn [fst snd].
    destruct s0. cbn in *. subst. reflexivity. }
  split; [apply Hready; exact Hlock|].
  split.
  - intros Hr Hd.
    rewrite initialize_entities_body. unfold async_with_lock. cbn [fst snd].
    rewrite body_eq. cbn [entities_ready with_initialization_lock config].
    rewrite Hr, Hd. cbn [fst snd].
    destruct s. cbn in *. subst. reflexivity.
  - intros Hr.
    destruct (pass_frame net s w) as (_ & Hl & _). cbv zeta in Hl.
    destruct (_initialize_entities net (s, w)) as [r [s1 w1]].
    cbn [fst snd] in *. apply Hready; assumption.
Qed.

Lemma pass_is_idempotent_once_ready_witness :
  let st := snd (_initialize_entities (answering example_status)
                   (loaded two_devices, [])) in
  _initialize_entities (answering example_status) st = (Ok tt, st).
Proof.
  exact (proj2 (proj2 (pass_is_idempotent_once_ready
                         (answering example_status) (loaded two_devices) []
                         eq_refl)) eq_refl).
Defined.

(** *** The registry built by a pass *)

Lemma in_entities_add (e e' : string) (ids : list string) :
  In e (entities_add e' ids) <-> e = e' \/ In e ids.
Proof.
  unfold entities_add. destruct (existsb (String.eqb e') ids) eqn:E.
  - split; [auto|]. intros [->|H]; [|exact H].
    apply existsb_exists in E. destruct E as (x & Hx & Heq).
    apply String.eqb_eq in Heq. subst. exact Hx.
  - rewrite in_app_iff. cbn. intuition congruence.
Qed.

Lemma lookup_present {V : Type} (k : string) (d : list (string * V)) :
  In k (map fst d) -> lookup k d <> None.
Proof.
  induction d as [|[k0 v0] d IH]; cbn; [intros []|].
  intros H. destruct (String.eqb_spec k k0) as [->|Hk]; [discriminate|].
  apply IH. destruct H as [E|H]; [congruence|exact H].
Qed.

(** Only the registry and the configuration matter to consistency. *)
Lemma consistent_ext (s s' : Session) :
  clients s' = clients s ->
  media_players s' = media_players s ->
  available_entities s' = available_entities s ->
  config s' = config s ->
  consistent s -> consistent s'.
Proof.
  unfold consistent. intros -> -> -> ->. auto.
Qed.

Lemma cleared_consistent (s : Session) : consistent (cleared s).
Proof.
  unfold consistent, cleared. cbn.
  split; [discriminate|]. split; [discriminate|]. intros ? [].
Qed.

Lemma register_consistent (device_id : string)
  (device_config : config.DeviceRecord) (c : client.VLCClient)
  (s : Session) :
  client._is_connected c = true ->
  lookup device_id (config._devices (config s)) <> None ->
  consistent s ->
  consistent (register device_id device_config c s).
Proof.
  unfold consistent, register.
  cbn [clients media_players available_entities config with_clients
       with_media_players with_available_entities].
  intros Hc Hcfg (Ha & Hb & He).
  split; [|split].
  - intros d' mp. rewrite !lookup_setitem.
    destruct (String.eqb_spec d' device_id) as [->|Hne].
    + intros [= <-]. cbn.
      repeat split; try assumption.
      apply in_entities_add. left. reflexivity.
    + intros H. destruct (Ha _ _ H) as (H1 & H2 & H3 & H4 & H5).
      repeat split; try assumption.
      apply in_entities_add. right. exact H5.
  - intros d' c'. rewrite !lookup_setitem.
    destruct (String.eqb_spec d' device_id) as [->|Hne].
    + intros _. split; [discriminate|exact Hcfg].
    + apply Hb.
  - intros e Hin. apply in_entities_add in Hin. destruct Hin as [->|Hin].
    + exists device_id. split; [reflexivity|].
      rewrite lookup_setitem, String.eqb_refl. discriminate.
    + destruct (He _ Hin) as (d0 & -> & Hl). exists d0.
      split; [reflexivity|]. rewrite lookup_setitem.
      destruct (String.eqb d0 device_id); [discriminate|exact Hl].
Qed.

Lemma register_config (device_id : string)
  (device_config : config.DeviceRecord) (c : client.VLCClient)
  (s : Session) :
  config (register device_id device_config c s) = config s.
Proof. reflexivity. Qed.

(** The loop keeps the registry consistent, over devices of the
    configuration. *)
Lemma initialize_devices_consistent (net : oracle)
  (devices : list (string * config.DeviceRecord)) :
  forall s w,
    (forall device_id, In device_id (map fst devices) ->
                       lookup device_id (config._devices (config s)) <> None) ->
    consistent s ->
    consistent (fst (snd (initialize_devices net devices (s, w)))).
Proof.
  induction devices as [|[device_id device_config] rest IH];
    intros s w Hin Hs; [exact Hs|].
  rewrite initialize_devices_cons, initialize_device_eq.
  assert (Hrest : forall d, In d (map fst rest) ->
                            lookup d (config._devices (config s)) <> None).
  { intros d Hd. apply Hin. right. exact Hd. }
  destruct (client.__init__ _ _ _) as [c0|e]; cbn [snd].
  - destruct (probe_ok _); cbn [snd].
    + apply IH.
      * intros d Hd. rewrite register_config. apply Hrest. exact Hd.
      * apply register_consistent; [reflexivity| |exact Hs].
        apply Hin. left. reflexivity.
    + apply IH; assumption.
  - apply IH; assumption.
Qed.

(** A pass that rebuilds leaves the registry consistent whatever it was. *)
Lemma rebuild_consistent (net : oracle) (s : Session) (w : World) :
  entities_ready s = false ->
  config.get_all_devices (config s) <> [] ->
  consistent (fst (snd (_initialize_entities net (s, w)))).
Proof.
  intros Hr Hd.
  rewrite initialize_entities_body. unfold async_with_lock. cbn [fst snd].
  rewrite body_eq. cbn [entities_ready with_initialization_lock config].
  rewrite Hr.
  destruct (config.get_all_devices (config s)) as [|item rest] eqn:E;
    [contradiction|].
  pose proof (initialize_devices_consistent net (item :: rest)
                (cleared (with_initialization_lock true s)) w) as H.
  destruct (initialize_devices net (item :: rest)
              (cleared (with_initialization_lock true s), w))
    as [r [s1 w1]].
  cbn [fst snd] in *. rewrite finish_eq. cbn [fst snd].
  assert (Hs1 : consistent s1).
  { apply H; [|apply cleared_consistent].
    intros d Hin. cbn. apply lookup_present.
    unfold config.get_all_devices in E. rewrite E. exact Hin. }
  destruct (nonempty_dict (media_players s1));
    refine (consistent_ext _ _ _ _ _ _ Hs1); reflexivity.
Qed.

Lemma pass_consistent (net : oracle) (s : Session) (w : World) :
  consistent s ->
  consistent (fst (snd (_initialize_entities net (s, w)))).
Proof.
  intros Hs.
  destruct (entities_ready s) eqn:Hr.
  - rewrite initialize_entities_body. unfold async_with_lock. cbn [fst snd].
    rewrite body_eq. cbn [entities_ready with_initialization_lock].
    rewrite Hr. cbn [fst snd].
    refine (consistent_ext _ _ _ _ _ _ Hs); reflexivity.
  - destruct (config.get_all_devices (config s)) as [|item rest] eqn:E.
    + rewrite initialize_entities_body. unfold async_with_lock.
      cbn [fst snd].
      rewrite body_eq. cbn [entities_ready with_initialization_lock config].
      rewrite Hr, E. cbn [fst snd].
      refine (consistent_ext _ _ _ _ _ _ Hs); reflexivity.
    + apply rebuild_consistent; [exact Hr|]. rewrite E. discriminate.
Qed.

(** X19. After a pass of [_initialize_entities] that rebuilds the registry,
    whatever the devices answered and whatever the registry held before:
    every adapter wraps the client registered under the same device id,
    that client is marked connected, the adapter carries the entity id
    vlc_<device id>_media_player and is in the entity store; every
    registered client has an adapter and belongs to a configured device; and
    the entity store holds nothing but the adapters' entities.  A pass that
    does not rebuild keeps a registry that was consistent. *)
Theorem pass_makes_registry_consistent (net : oracle) (s : Session)
  (w : World) :
  (consistent s \/
   (entities_ready s = false /\ config.get_all_devices (config s) <> [])) ->
  consistent (fst (snd (_initialize_entities net (s, w)))).
Proof.
  intros [Hs|[Hr Hd]].
  - apply pass_consistent. exact Hs.
  - apply rebuild_consistent; assumption.
Qed.

Lemma pass_makes_registry_consistent_witness :
  consistent (fst (snd (_initialize_entities (answering example_status)
                          (loaded two_devices, [])))).
Proof.
  apply (pass_makes_registry_consistent (answering example_status)
           (loaded two_devices) []).
  right. split; [reflexivity|discriminate].
Defined.

(** X20. [setup_handler] keeps the registry consistent, whatever the
    message and whatever it returns or raises: when it fails the session is
    as before, and when it succeeds the registry is rebuilt from the
    extended configuration. *)
Theorem setup_keeps_registry_consistent (net : oracle)
  (md5_hex8 : string -> string) (msg : SetupDriver) (s : Session)
  (w : World) :
  consistent s ->
  consistent (fst (snd (setup_handler net md5_hex8 msg (s, w)))).
Proof.
  intros Hs.
  destruct msg as [reconfigure setup_data| | |]; try exact Hs.
  destruct (requested_port setup_data) as [port|e] eqn:Hport.
  2:{ rewrite (setup_handler_bad_port net md5_hex8 reconfigure setup_data
                 (s, w) e Hport). exact Hs. }
  destruct (nonempty (strip (get_or "host" "" setup_data))
            && nonempty (strip (get_or "password" "" setup_data))
            && nonempty (strip (get_or "device_name" "" setup_data)))
    eqn:Hfields.
  2:{ rewrite (setup_handler_missing_field net md5_hex8 reconfigure
                 setup_data (s, w) port Hport Hfields). exact Hs. }
  destruct (client.__init__ (strip (get_or "host" "" setup_data)) port
              (strip (get_or "password" "" setup_data)))
    as [c0|e] eqn:Hinit.
  2:{ rewrite (setup_handler_no_client net md5_hex8 reconfigure setup_data
                 (s, w) port e Hport Hfields Hinit). exact Hs. }
  rewrite (setup_handler_probe net md5_hex8 reconfigure setup_data s w port
             c0 Hport Hfields Hinit).
  destruct (probe_ok _); [|exact Hs].
  cbn [fst snd].
  match goal with
  | |- context [_initialize_entities net ?st] =>
      pose proof (rebuild_consistent net (fst st) (snd st)) as H;
      cbn [fst snd] in H;
      repeat match type of H with
             | context [_initialize_entities net ?st'] =>
                 progress change st' with st in H
             end
  end.
  apply H; [reflexivity|].
  cbn [config with_entities_ready with_config].
  unfold config.get_all_devices, config.add_device, config.save.
  cbn [config._devices].
  match goal with
  | |- context [setitem ?k ?v ?d] =>
      pose proof (nonempty_setitem k v d) as Hne;
      destruct (setitem k v d)
  end; [discriminate Hne | discriminate].
Qed.

Lemma setup_keeps_registry_consistent_witness :
  consistent (fst (snd (setup_handler (answering example_status)
                          (fun _ => "1a2b3c4d")
                          (DriverSetupRequest false den_setup)
                          (loaded two_devices, [])))).
Proof.
  apply (setup_keeps_registry_consistent (answering example_status)
           (fun _ => "1a2b3c4d") (DriverSetupRequest false den_setup)
           (loaded two_devices) []).
  unfold consistent, loaded. cbn.
  split; [discriminate|]. split; [discriminate|]. intros ? [].
Defined.

(** ** driver.py: a turn of the connection monitor *)

Lemma get_status_eq (net : oracle) (c : client.VLCClient) (w : World) :
  client.get_status net (c, w) =
  if client._is_connected c
  then (Ok (reply_status (net (List.length w) (status_request c))),
        (c, (w ++ [status_request c])%list))
  else (Ok VNone, (c, w)).
Proof.
  unfold_client. cbn. unfold status_request, reply_status.
  destruct (client._is_connected c); cbn; [|reflexivity].
  destruct (net _ _) as [status [b|]|]; cbn;
    try destruct (status =? 200); reflexivity.
Qed.

(** The client after a probe that got the reply [r]. *)
Lemma monitor_client_eq (net : oracle) (device_id : string)
  (c : client.VLCClient) (s : Session) (w : World) :
  monitor_client net (device_id, c) (s, w) =
  if client._is_connected c then
    if truthy (reply_status (net (List.length w) (status_request c)))
    then (Ok true,
          (store_client device_id c s, (w ++ [status_request c])%list))
    else
      (Ok false,
       (store_client device_id
          (if probe_ok (net (List.length (w ++ [status_request c])%list)
                          (status_request c))
           then client.set_is_connected true c else c) s,
        ((w ++ [status_request c]) ++ [status_request c])%list))
  else
    (Ok false,
     (store_client device_id
        (if probe_ok (net (List.length w) (status_request c))
         then client.set_is_connected true c else c) s,
      (w ++ [status_request c])%list)).
Proof.
  unfold monitor_client, on_object, update, modify.
  unfold bind at 1. cbn [fst snd].
  rewrite get_status_eq.
  destruct (client._is_connected c).
  - destruct (truthy _); cbn [negb]; [reflexivity|].
    unfold bind at 1. cbn [fst snd]. rewrite connect_eq. reflexivity.
  - cbn [truthy negb]. unfold bind at 1. cbn [fst snd].
    rewrite connect_eq. reflexivity.
Qed.

Lemma keys_setitem_present {V : Type} (k : string) (v : V)
  (d : list (string * V)) :
  In k (map fst d) -> map fst (setitem k v d) = map fst d.
Proof.
  induction d as [|[k0 v0] d IH]; cbn; [intros []|].
  intros H. destruct (String.eqb_spec k k0) as [->|Hk]; cbn; [reflexivity|].
  f_equal. apply IH. destruct H as [E|H]; [congruence|exact H].
Qed.

Lemma lookup_in_keys {V : Type} (k : string) (v : V)
  (d : list (string * V)) :
  lookup k d = Some v -> In k (map fst d).
Proof.
  induction d as [|[k0 v0] d IH]; cbn; [discriminate|].
  destruct (String.eqb_spec k k0) as [->|Hk]; [left; reflexivity|].
  intros H. right. apply IH. exact H.
Qed.

Lemma store_client_device_state (device_id : string) (c : client.VLCClient)
  (s : Session) :
  device_state (store_client device_id c s) = device_state s.
Proof.
  unfold store_client. cbn [media_players with_clients].
  destruct (lookup device_id (media_players s)); reflexivity.
Qed.

Lemma monitored_refl (s : Session) : monitored s s.
Proof. unfold monitored. repeat split. Qed.

Lemma monitored_trans (s1 s2 s3 : Session) :
  monitored s1 s2 -> monitored s2 s3 -> monitored s1 s3.
Proof.
  unfold monitored.
  intros (A1 & A2 & A3 & A4 & A5 & A6 & A7) (B1 & B2 & B3 & B4 & B5 & B6 & B7).
  repeat split; congruence.
Qed.

Lemma store_client_monitored (device_id : string) (c : client.VLCClient)
  (s : Session) :
  In device_id (map fst (clients s)) ->
  monitored s (store_client device_id c s).
Proof.
  intros Hin. unfold store_client, monitored.
  cbn [media_players with_clients].
  destruct (lookup device_id (media_players s)) as [mp|] eqn:E; cbn.
  - rewrite (keys_setitem_present _ _ _ Hin).
    rewrite (keys_setitem_present _ _ _ (lookup_in_keys _ _ _ E)).
    repeat split.
  - rewrite (keys_setitem_present _ _ _ Hin). repeat split.
Qed.

(** One client of the loop: the turn never raises, sends one or two
    requests, and counts the client as connected only when it was marked
    connected and its status was truthy. *)
Lemma monitor_client_result (net : oracle) (device_id : string)
  (c : client.VLCClient) (s : Session) (w : World) :
  exists b c' ext,
    monitor_client net (device_id, c) (s, w)
    = (Ok b, (store_client device_id c' s, (w ++ ext)%list)) /\
    (List.length ext <= 2)%nat /\
    (b = true ->
     client._is_connected c = true /\
     truthy (reply_status (net (List.length w) (status_request c))) = true).
Proof.
  rewrite monitor_client_eq.
  destruct (client._is_connected c).
  - destruct (truthy _) eqn:Ht.
    + exists true, c, [status_request c]. repeat split. cbn. lia.
    + eexists false, _, [status_request c; status_request c].
      rewrite <- app_assoc. cbn [app].
      split; [reflexivity|]. split; [cbn; lia|discriminate].
  - eexists false, _, [status_request c].
    split; [reflexivity|]. split; [cbn; lia|discriminate].
Qed.

Lemma monitor_clients_result (net : oracle)
  (items : list (string * client.VLCClient)) :
  forall acc s w,
  exists b s' ext,
    monitor_clients net items acc (s, w) = (Ok b, (s', (w ++ ext)%list)) /\
    device_state s' = device_state s /\
    (List.length ext <= 2 * List.length items)%nat /\
    (b = true ->
     acc = true /\
     forall d c, In (d, c) items ->
       client._is_connected c = true /\
       exists n,
         truthy (reply_status (net n (status_request c))) = true) /\
    ((forall d, In d (map fst items) -> In d (map fst (clients s))) ->
     monitored s s').
Proof.
  induction items as [|[d c] rest IH]; intros acc s w.
  - exists acc, s, []. rewrite app_nil_r.
    split; [reflexivity|]. split; [reflexivity|]. split; [cbn; lia|].
    split; [intros ->; split; [reflexivity|intros ? ? []]|].
    intros _. apply monitored_refl.
  - cbn [monitor_clients]. unfold bind at 1.
    destruct (monitor_client_result net d c s w)
      as (b1 & c' & ext1 & E1 & L1 & H1).
    rewrite E1.
    destruct (IH (if b1 then acc else false) (store_client d c' s)
                (w ++ ext1)%list)
      as (b & s' & ext & E & Hds & L & Hb & Hm).
    exists b, s', (ext1 ++ ext)%list.
    rewrite app_assoc.
    split; [exact E|].
    split; [rewrite Hds; apply store_client_device_state|].
    split; [rewrite length_app; cbn [List.length]; lia|].
    split.
    + intros Hbt. destruct (Hb Hbt) as [Hacc Hall].
      destruct b1; [|discriminate].
      split; [exact Hacc|].
      intros d0 c0 [E0|Hin]; [|exact (Hall d0 c0 Hin)].
      injection E0 as <- <-.
      destruct (H1 eq_refl) as [Hc Ht].
      split; [exact Hc|]. eexists. exact Ht.
    + intros Hkeys.
      assert (Hd : In d (map fst (clients s))).
      { apply Hkeys. left. reflexivity. }
      pose proof (store_client_monitored d c' s Hd) as M1.
      apply (monitored_trans _ _ _ M1). apply Hm.
      intros d0 Hd0. destruct M1 as (K & _). rewrite K.
      apply Hkeys. right. exact Hd0.
Qed.

(** The turn of the monitor, laid out. *)
Lemma monitor_pass_eq (net : oracle) (s : Session) (w : World) :
  monitor_pass net (s, w) =
  match clients s with
  | [] => (Ok tt, (s, w))
  | _ :: _ =>
      if entities_ready s then
        match monitor_clients net (clients s) true (s, w) with
        | (Ok true, (s', w')) => (Ok tt, (with_device_state CONNECTED s', w'))
        | (Ok false, (s', w')) =>
            (Ok tt, (with_device_state CONNECTING s', w'))
        | (Raise e, st') => (Ok tt, st')
        end
      else (Ok tt, (s, w))
  end.
Proof.
  unfold monitor_pass, try_except, session.
  unfold bind at 1. cbn [fst snd].
  destruct (clients s) as [|item rest] eqn:Ec; [reflexivity|].
  destruct (entities_ready s); [|reflexivity].
  unfold bind at 1.
  destruct (monitor_clients net (item :: rest) true (s, w))
    as [[[|]|e] [s' w']]; try reflexivity.
  unfold bind, set_device_state, update, modify, ret. cbn [fst snd].
  destruct s'. cbn. destruct device_state0; reflexivity.
Qed.

(** X21. A turn of the connection monitor never raises and never reports
    ERROR or DISCONNECTED: the state reported afterwards is the one before,
    CONNECTED or CONNECTING.  It sends at most two requests per registered
    client, and leaves the registered ids, the entity store, the
    configuration, readiness, the lock and the rebuilds as they were.  When
    the session is not ready or no client is registered, it does nothing. *)
Theorem monitor_pass_frame (net : oracle) (s : Session) (w : World) :
  let r := monitor_pass net (s, w) in
  fst r = Ok tt /\
  monitored s (fst (snd r)) /\
  (device_state (fst (snd r)) = device_state s \/
   device_state (fst (snd r)) = CONNECTED \/
   device_state (fst (snd r)) = CONNECTING) /\
  (exists ext, snd (snd r) = (w ++ ext)%list /\
               (List.length ext <= 2 * List.length (clients s))%nat) /\
  (entities_ready s = false \/ clients s = [] -> r = (Ok tt, (s, w))).
Proof.
  cbv zeta. rewrite monitor_pass_eq.
  destruct (clients s) as [|item rest] eqn:Ec.
  { cbn [fst snd]. split; [reflexivity|]. split; [apply monitored_refl|].
    split; [left; reflexivity|].
    split; [exists []; rewrite app_nil_r; split; [reflexivity|cbn; lia]|].
    reflexivity. }
  destruct (entities_ready s) eqn:Er.
  2:{ cbn [fst snd]. split; [reflexivity|]. split; [apply monitored_refl|].
      split; [left; reflexivity|].
      split; [exists []; rewrite app_nil_r; split; [reflexivity|cbn; lia]|].
      reflexivity. }
  destruct (monitor_clients_result net (item :: rest) true s w)
    as (b & s' & ext & E & Hds & L & _ & Hm).
  rewrite E.
  assert (M : monitored s s').
  { apply Hm. rewrite Ec. auto. }
  assert (Mc : forall x, monitored s (with_device_state x s')).
  { intros x. apply (monitored_trans _ _ _ M).
    unfold monitored. cbn. repeat split. }
  destruct b; cbn [fst snd].
  - split; [reflexivity|]. split; [apply Mc|].
    split; [right; left; reflexivity|].
    split; [exists ext; split; [reflexivity|exact L]|].
    intros [H|H]; discriminate.
  - split; [reflexivity|]. split; [apply Mc|].
    split; [right; right; reflexivity|].
    split; [exists ext; split; [reflexivity|exact L]|].
    intros [H|H]; discriminate.
Qed.

Lemma monitor_pass_frame_witness :
  monitor_pass unreachable (loaded two_devices, [])
  = (Ok tt, (loaded two_devices, [])).
Proof.
  destruct (monitor_pass_frame unreachable (loaded two_devices) [])
    as (_ & _ & _ & _ & H).
  apply H. left. reflexivity.
Defined.

(** X23. When a registered client is not marked connected, or the device
    never gives it a truthy status document, a turn of the monitor on a
    ready session reports CONNECTING, whether or not the reconnection it
    attempts succeeds. *)
Theorem monitor_pass_reports_connecting (net : oracle) (s : Session)
  (w : World) (device_id : string) (c : client.VLCClient) :
  entities_ready s = true ->
  In (device_id, c) (clients s) ->
  (client._is_connected c = false \/
   forall n, truthy (reply_status (net n (status_request c))) = false) ->
  device_state (fst (snd (monitor_pass net (s, w)))) = CONNECTING.
Proof.
  intros Hr Hin Hbad. rewrite monitor_pass_eq.
  destruct (clients s) as [|item rest] eqn:Ec; [destruct Hin|].
  rewrite Hr.
  destruct (monitor_clients_result net (item :: rest) true s w)
    as (b & s' & ext & E & _ & _ & Hb & _).
  rewrite E. destruct b; [|reflexivity].
  exfalso. destruct (Hb eq_refl) as [_ Hall].
  destruct (Hall device_id c Hin) as (Hc & n & Ht).
  destruct Hbad as [Hf|Hf]; [congruence|].
  rewrite Hf in Ht. discriminate.
Qed.

Lemma monitor_pass_reports_connecting_witness :
  device_state (fst (snd (monitor_pass empty_document (den_ready, []))))
  = CONNECTING /\
  probe_ok (empty_document 1%nat (status_request den_client)) = true.
Proof.
  split; [|reflexivity].
  apply (monitor_pass_reports_connecting empty_document den_ready []
           "1a2b3c4d" den_client).
  - reflexivity.
  - left. reflexivity.
  - right. intros n. reflexivity.
Defined.

Lemma monitor_clients_answering (net : oracle)
  (items : list (string * client.VLCClient)) :
  forall acc s w,
    (forall d c, In (d, c) items ->
       client._is_connected c = true /\
       forall n, truthy (reply_status (net n (status_request c))) = true) ->
    exists s',
      monitor_clients net items acc (s, w)
      = (Ok acc,
         (s', (w ++ map (fun kv => status_request (snd kv)) items)%list)).
Proof.
  induction items as [|[d c] rest IH]; intros acc s w H.
  - exists s. cbn. rewrite app_nil_r. reflexivity.
  - cbn [monitor_clients]. unfold bind at 1. rewrite monitor_client_eq.
    destruct (H d c (or_introl eq_refl)) as [Hc Ht].
    rewrite Hc, Ht.
    destruct (IH acc (store_client d c s) (w ++ [status_request c])%list)
      as (s' & E).
    { intros d0 c0 Hin. apply (H d0 c0). right. exact Hin. }
    exists s'. cbv beta iota. refine (eq_trans E _). cbn [map snd].
    rewrite <- app_assoc. reflexivity.
Qed.

(** X22. When the session is ready and every registered client is marked
    connected and gets a truthy status document, a turn of the monitor
    reports CONNECTED and sends exactly one status query per client, in the
    order of the registry: no reconnection is attempted. *)
Theorem monitor_pass_all_answering (net : oracle) (s : Session) (w : World) :
  entities_ready s = true ->
  clients s <> [] ->
  (forall d c, In (d, c) (clients s) ->
     client._is_connected c = true /\
     forall n, truthy (reply_status (net n (status_request c))) = true) ->
  device_state (fst (snd (monitor_pass net (s, w)))) = CONNECTED /\
  snd (snd (monitor_pass net (s, w)))
  = (w ++ map (fun kv => status_request (snd kv)) (clients s))%list.
Proof.
  intros Hr Hne H. rewrite monitor_pass_eq.
  destruct (monitor_clients_answering net (clients s) true s w H)
    as (s' & E).
  destruct (clients s) as [|item rest] eqn:Ec; [contradiction|].
  rewrite Hr, E. split; reflexivity.
Qed.

Lemma monitor_pass_all_answering_witness :
  device_state
    (fst (snd (monitor_pass (answering example_status)
                 (with_device_state CONNECTING den_ready, []))))
  = CONNECTED /\
  snd (snd (monitor_pass (answering example_status)
              (with_device_state CONNECTING den_ready, [])))
  = [status_request den_client].
Proof.
  apply (monitor_pass_all_answering (answering example_status)
           (with_device_state CONNECTING den_ready) []).
  - reflexivity.
  - discriminate.
  - intros d c [E|[]]. injection E as <- <-.
    split; [reflexivity|]. intros n. reflexivity.
Defined.

Lemma setitem_same {V : Type} (k : string) (v : V) (d : list (string * V)) :
  lookup k d = Some v -> setitem k v d = d.
Proof.
  induction d as [|[k0 v0] d IH]; cbn; [discriminate|].
  destruct (String.eqb_spec k k0) as [->|Hk].
  - intros [= ->]. reflexivity.
  - intros H. rewrite (IH H). reflexivity.
Qed.

Lemma in_lookup {V : Type} (k : string) (v : V) (d : list (string * V)) :
  NoDup (map fst d) -> In (k, v) d -> lookup k d = Some v.
Proof.
  induction d as [|[k0 v0] d IH]; cbn; intros Hd; [intros []|].
  inversion Hd as [|? ? Hnotin Hd']; subst.
  intros [E|Hin].
  - injection E as -> ->. rewrite String.eqb_refl. reflexivity.
  - destruct (String.eqb_spec k k0) as [->|Hk]; [|apply IH; assumption].
    exfalso. apply Hnotin. apply (in_map fst) in Hin. exact Hin.
Qed.

Lemma set_is_connected_same (c : client.VLCClient) :
  client._is_connected c = true -> client.set_is_connected true c = c.
Proof. destruct c. cbn. intros ->. reflexivity. Qed.

(** Storing the client that is already there changes nothing. *)
Lemma store_client_same (device_id : string) (c : client.VLCClient)
  (s : Session) :
  lookup device_id (clients s) = Some c ->
  (forall mp, lookup device_id (media_players s) = Some mp ->
              _client mp = c) ->
  store_client device_id c s = s.
Proof.
  intros Hc Hmp. unfold store_client.
  rewrite (setitem_same _ _ _ Hc). cbn [media_players with_clients].
  destruct (lookup device_id (media_players s)) as [mp|] eqn:E.
  - assert (Emp : with_client c mp = mp).
    { rewrite <- (Hmp mp eq_refl). destruct mp. reflexivity. }
    rewrite Emp, (setitem_same _ _ _ E). destruct s. reflexivity.
  - destruct s. reflexivity.
Qed.

(** In a consistent registry the clients are marked connected and are the
    clients of their adapters. *)
Lemma consistent_client (s : Session) (device_id : string)
  (c : client.VLCClient) :
  consistent s ->
  lookup device_id (clients s) = Some c ->
  client._is_connected c = true /\
  forall mp, lookup device_id (media_players s) = Some mp -> _client mp = c.
Proof.
  intros (Ha & Hb & _) Hc.
  destruct (Hb _ _ Hc) as [Hmp _].
  destruct (lookup device_id (media_players s)) as [mp|] eqn:E;
    [|contradiction].
  destruct (Ha _ _ E) as (H1 & H2 & _).
  assert (Ec : _client mp = c) by congruence.
  split; [rewrite <- Ec; exact H2|].
  intros mp' [= <-]. exact Ec.
Qed.

Lemma monitor_clients_consistent (net : oracle) (s : Session) :
  consistent s ->
  forall items acc w,
    (forall d c, In (d, c) items -> lookup d (clients s) = Some c) ->
    exists b ext,
      monitor_clients net items acc (s, w) = (Ok b, (s, (w ++ ext)%list)).
Proof.
  intros Hs. induction items as [|[d c] rest IH]; intros acc w H.
  - exists acc, []. rewrite app_nil_r. reflexivity.
  - cbn [monitor_clients]. unfold bind at 1. rewrite monitor_client_eq.
    pose proof (H d c (or_introl eq_refl)) as Hl.
    destruct (consistent_client s d c Hs Hl) as [Hc Hmp].
    rewrite Hc.
    assert (Hc' : forall b : bool,
               (if b then client.set_is_connected true c else c) = c).
    { intros [|]; [apply set_is_connected_same; exact Hc|reflexivity]. }
    assert (Hrest : forall d0 c0, In (d0, c0) rest ->
                                  lookup d0 (clients s) = Some c0).
    { intros d0 c0 Hin. apply H. right. exact Hin. }
    destruct (truthy _).
    + rewrite (store_client_same d c s Hl Hmp).
      destruct (IH acc (w ++ [status_request c])%list Hrest)
        as (b & ext & E).
      exists b, (status_request c :: ext). cbv beta iota. refine (eq_trans E _).
      rewrite <- app_assoc. reflexivity.
    + rewrite Hc', (store_client_same d c s Hl Hmp).
      destruct (IH false ((w ++ [status_request c]) ++ [status_request c])%list
                  Hrest) as (b & ext & E).
      exists b, (status_request c :: status_request c :: ext).
      cbv beta iota. refine (eq_trans E _).
      rewrite <- !app_assoc. reflexivity.
Qed.

(** X24. On a consistent registry whose ids are distinct, as
    [_initialize_entities] builds it, a turn of the monitor changes nothing
    in the session but the state reported to the hub: the reconnection it
    attempts is a probe that leaves every client and adapter as it was. *)
Theorem monitor_pass_changes_only_reported_state (net : oracle)
  (s : Session) (w : World) :
  consistent s ->
  NoDup (map fst (clients s)) ->
  fst (snd (monitor_pass net (s, w))) = s \/
  fst (snd (monitor_pass net (s, w))) = with_device_state CONNECTED s \/
  fst (snd (monitor_pass net (s, w))) = with_device_state CONNECTING s.
Proof.
  intros Hs Hd. rewrite monitor_pass_eq.
  destruct (monitor_clients_consistent net s Hs (clients s) true w)
    as (b & ext & E).
  { intros d c Hin. apply in_lookup; assumption. }
  destruct (clients s) as [|item rest] eqn:Ec; [left; reflexivity|].
  destruct (entities_ready s); [|left; reflexivity].
  rewrite E. destruct b; cbn [fst snd]; auto.
Qed.

Lemma monitor_pass_changes_only_reported_state_witness :
  let s := fst (snd (_initialize_entities (answering example_status)
                       (loaded two_devices, []))) in
  fst (snd (monitor_pass unreachable (s, []))) = s \/
  fst (snd (monitor_pass unreachable (s, []))) = with_device_state CONNECTED s \/
  fst (snd (monitor_pass unreachable (s, []))) = with_device_state CONNECTING s.
Proof.
  cbv zeta.
  apply (monitor_pass_changes_only_reported_state unreachable).
  - apply rebuild_consistent; [reflexivity|discriminate].
  - vm_compute. repeat constructor; cbn; intuition discriminate.
Defined.
